(** * Minishift: network assignment, storage-driver choice and client download

    A shallow embedding of three pieces of the repository:
    - package [network]   (address assignment for the instance),
    - package [provisioner] (choice of the Docker storage driver),
    - package [ocp]       (download of the [oc] client from the mirror).

    Go strings are byte strings ([string] of [ascii]); processes that may
    terminate through [atexit.ExitWithMessage] or panic are functions from
    a world to an outcome and a world. *)

From Stdlib Require Import String Ascii List Bool Arith NArith Lia.
Import ListNotations.
Local Open Scope list_scope.
Local Open Scope string_scope.

(** ** Go library functions used by the code *)

Module GoStrings.

Definition LF : string := String (ascii_of_nat 10) EmptyString.
Definition TAB : string := String (ascii_of_nat 9) EmptyString.

Fixpoint rev_append (s acc : string) : string :=
  match s with
  | EmptyString => acc
  | String c s' => rev_append s' (String c acc)
  end.

Definition rev (s : string) : string := rev_append s EmptyString.

Fixpoint drop (n : nat) (s : string) : string :=
  match n, s with
  | O, _ => s
  | S _, EmptyString => EmptyString
  | S k, String _ s' => drop k s'
  end.

(** [strings.HasPrefix] *)
Definition HasPrefix (s p : string) : bool := prefix p s.

(** [strings.HasSuffix] *)
Definition HasSuffix (s suffix : string) : bool := prefix (rev suffix) (rev s).

(** [strings.TrimPrefix]: [s] without the leading [p], or [s] itself. *)
Definition TrimPrefix (s p : string) : string :=
  if HasPrefix s p then drop (String.length p) s else s.

(** [s[:len(s)-n]] for [n <= len(s)]. *)
Definition dropRight (n : nat) (s : string) : string := rev (drop n (rev s)).

(** [strings.Join] *)
Fixpoint Join (elems : list string) (sep : string) : string :=
  match elems with
  | [] => ""
  | [x] => x
  | x :: rest => x ++ sep ++ Join rest sep
  end.

(** [strings.Split] for a separator that is not empty: the pieces between
    the successive occurrences of [sep], scanned from the left.  [skip]
    counts the bytes of a matched separator still to be passed over and
    [cur] holds the current piece, reversed. *)
Fixpoint splitFrom (sep : string) (skip : nat) (cur : string) (s : string)
  : list string :=
  match s with
  | EmptyString => [rev cur]
  | String c s' =>
      match skip with
      | S k => splitFrom sep k cur s'
      | O =>
          if prefix sep s
          then rev cur :: splitFrom sep (String.length sep - 1) EmptyString s'
          else splitFrom sep 0 (String c cur) s'
      end
  end.

(** With an empty separator Go explodes the string into its UTF-8
    sequences; the code never does that, and the model explodes into
    bytes. *)
Fixpoint explode (s : string) : list string :=
  match s with
  | EmptyString => []
  | String c s' => String c EmptyString :: explode s'
  end.

Definition Split (s sep : string) : list string :=
  match sep with
  | EmptyString => explode s
  | _ => splitFrom sep 0 EmptyString s
  end.

Definition bytes (l : list nat) : string :=
  fold_right (fun n acc => String (ascii_of_nat n) acc) EmptyString l.

(** The UTF-8 encodings of the code points for which [unicode.IsSpace]
    holds: TAB, LF, VT, FF, CR, SPACE, U+0085, U+00A0, U+1680,
    U+2000..U+200A, U+2028, U+2029, U+202F, U+205F, U+3000. *)
Definition spaceEncodings : list string :=
  map bytes
    [ [9]; [10]; [11]; [12]; [13]; [32];
      [194; 133]; [194; 160];
      [225; 154; 128];
      [226; 128; 128]; [226; 128; 129]; [226; 128; 130]; [226; 128; 131];
      [226; 128; 132]; [226; 128; 133]; [226; 128; 134]; [226; 128; 135];
      [226; 128; 136]; [226; 128; 137]; [226; 128; 138];
      [226; 128; 168]; [226; 128; 169]; [226; 128; 175];
      [226; 129; 159];
      [227; 128; 128] ].

(** Number of bytes of the white-space rune [s] starts with (0 if none). *)
Definition leadingSpace (encs : list string) (s : string) : nat :=
  match find (fun e => prefix e s) encs with
  | Some e => String.length e
  | None => 0
  end.

(** Strip white-space runes from the left.  [skip] as in [splitFrom]. *)
Fixpoint trimLeftFrom (encs : list string) (skip : nat) (s : string) : string :=
  match s with
  | EmptyString => EmptyString
  | String _ s' =>
      match skip with
      | S k => trimLeftFrom encs k s'
      | O =>
          match leadingSpace encs s with
          | O => s
          | S k => trimLeftFrom encs k s'
          end
      end
  end.

Definition trimLeft (s : string) : string := trimLeftFrom spaceEncodings 0 s.

Definition trimRight (s : string) : string :=
  rev (trimLeftFrom (map rev spaceEncodings) 0 (rev s)).

(** [strings.TrimSpace] *)
Definition TrimSpace (s : string) : string := trimRight (trimLeft s).

(** [fmt]'s rendering of a [bool] ([%v], and what [text/template] prints). *)
Definition formatBool (b : bool) : string := if b then "true" else "false".

(** [fmt]'s rendering of a [[]string] under [%s]: [[a b c]]. *)
Definition formatStrings (l : list string) : string := "[" ++ Join l " " ++ "]".

End GoStrings.

(** [base64.StdEncoding.EncodeToString]: RFC 4648, with padding. *)
Module Base64.

Definition alphabet : string :=
  "ABCDEFGHIJKLMNOPQRSTUVWXYZabcdefghijklmnopqrstuvwxyz0123456789+/".

Definition digit (n : N) : ascii :=
  match String.get (N.to_nat n) alphabet with
  | Some c => c
  | None => "="%char
  end.

Definition pad : ascii := "="%char.

Fixpoint EncodeToString (src : string) : string :=
  match src with
  | EmptyString => EmptyString
  | String a EmptyString =>
      let x := N_of_ascii a in
      String (digit (x / 4))
        (String (digit ((x mod 4) * 16)) (String pad (String pad EmptyString)))
  | String a (String b EmptyString) =>
      let x := N_of_ascii a in
      let y := N_of_ascii b in
      String (digit (x / 4))
        (String (digit ((x mod 4) * 16 + y / 16))
           (String (digit ((y mod 16) * 4)) (String pad EmptyString)))
  | String a (String b (String c rest)) =>
      let x := N_of_ascii a in
      let y := N_of_ascii b in
      let z := N_of_ascii c in
      String (digit (x / 4))
        (String (digit ((x mod 4) * 16 + y / 16))
           (String (digit ((y mod 16) * 4 + z / 64))
              (String (digit (z mod 64)) (EncodeToString rest))))
  end.

End Base64.

(** [text/template], for templates made of literal text and field actions
    [{{.Name}}]; anything else inside an action is a parse error here. *)
Module Template.

Inductive Node :=
| Text (s : string)
| Field (name : string).

Inductive Mode := InText | InAction.

Definition isIdentChar (c : ascii) : bool :=
  let n := nat_of_ascii c in
  ((65 <=? n) && (n <=? 90) || (97 <=? n) && (n <=? 122)
   || (48 <=? n) && (n <=? 57) || (n =? 95))%nat.

Fixpoint allIdent (s : string) : bool :=
  match s with
  | EmptyString => true
  | String c s' => isIdentChar c && allIdent s'
  end.

(** The body of an action: a dot and a field name. *)
Definition action (body : string) : option Node :=
  match GoStrings.TrimSpace body with
  | String "." name =>
      match name with
      | EmptyString => None
      | _ => if allIdent name then Some (Field name) else None
      end
  | _ => None
  end.

Definition consOpt (n : option Node) (rest : option (list Node))
  : option (list Node) :=
  match n, rest with
  | Some x, Some l => Some (x :: l)
  | _, _ => None
  end.

(** The lexer: text up to the left delimiter, an action up to the right
    one.  [skip] counts delimiter bytes still to be passed over. *)
Fixpoint scan (mode : Mode) (skip : nat) (cur : string) (s : string)
  : option (list Node) :=
  match s with
  | EmptyString =>
      match mode with
      | InText => Some [Text (GoStrings.rev cur)]
      | InAction => None
      end
  | String c s' =>
      match skip with
      | S k => scan mode k cur s'
      | O =>
          match mode with
          | InText =>
              if prefix "{{" s
              then consOpt (Some (Text (GoStrings.rev cur)))
                           (scan InAction 1 EmptyString s')
              else scan InText 0 (String c cur) s'
          | InAction =>
              if prefix "}}" s
              then consOpt (action (GoStrings.rev cur))
                           (scan InText 1 EmptyString s')
              else scan InAction 0 (String c cur) s'
          end
      end
  end.

(** A template: its name and, once parsed, its nodes. *)
Record Template := { name : string; tree : option (list Node) }.

Definition New (n : string) : Template := {| name := n; tree := None |}.

(** [tmpl.Parse(text)]: the receiver is updated on success; on a parse
    error it is left as it was (the callers drop the returned error). *)
Definition Parse (t : Template) (text : string) : Template :=
  match scan InText 0 EmptyString text with
  | Some nodes => {| name := name t; tree := Some nodes |}
  | None => t
  end.

Section Execute.
(** The fields of the data the template is applied to. *)
Variable lookup : string -> option string.

Fixpoint render (nodes : list Node) : string * option string :=
  match nodes with
  | [] => (EmptyString, None)
  | Text s :: rest =>
      let (out, err) := render rest in (s ++ out, err)
  | Field f :: rest =>
      match lookup f with
      | Some v => let (out, err) := render rest in (v ++ out, err)
      | None => (EmptyString, Some ("can't evaluate field " ++ f))
      end
  end.

(** [tmpl.Execute(buffer, data)]: what is written, and the error. *)
Definition Execute (t : Template) : string * option string :=
  match tree t with
  | None => (EmptyString, Some ("template: " ++ name t ++ ": incomplete or empty template"))
  | Some nodes => render nodes
  end.
End Execute.

End Template.

(** ** Processes *)

(** A Go [error]: [None] is [nil]. *)
Definition error := option string.

(** How a call ends: it returns, the process exits
    ([atexit.ExitWithMessage]), or it panics. *)
Inductive Outcome (A : Type) : Type :=
| Ret (a : A)
| Exited (code : nat) (msg : string)
| Panicked (msg : string).
Arguments Ret {A} a.
Arguments Exited {A} code msg.
Arguments Panicked {A} msg.

Definition Proc (W A : Type) : Type := W -> Outcome A * W.

Definition ret {W A} (a : A) : Proc W A := fun w => (Ret a, w).

Definition bind {W A B} (m : Proc W A) (k : A -> Proc W B) : Proc W B :=
  fun w =>
    match m w with
    | (Ret a, w') => k a w'
    | (Exited c msg, w') => (Exited c msg, w')
    | (Panicked msg, w') => (Panicked msg, w')
    end.

Declare Scope proc_scope.
Delimit Scope proc_scope with proc.
Notation "x <- m ;; k" := (bind m (fun x => k))
  (at level 61, m at next level, right associativity) : proc_scope.
Notation "m ;; k" := (bind m (fun _ => k))
  (at level 61, right associativity) : proc_scope.

(** Modelled from the spec: [atexit.ExitWithMessage] (package
    [pkg/util/os/atexit]) aborts the whole operation with a fatal
    user-facing message: nothing after the call runs. *)
Definition ExitWithMessage {W A} (code : nat) (msg : string) : Proc W A :=
  fun w => (Exited code msg, w).

(** An index out of range. *)
Definition panic {W A} (msg : string) : Proc W A :=
  fun w => (Panicked msg, w).

(** ** [strconv]: numbers in decimal *)

Module Strconv.

Definition digitOf (n : nat) : ascii := ascii_of_nat (48 + n).

Fixpoint itoaFuel (fuel n : nat) (acc : string) : string :=
  match fuel with
  | O => acc
  | S fuel' =>
      let acc' := String (digitOf (n mod 10)) acc in
      if (n <? 10)%nat then acc' else itoaFuel fuel' (n / 10) acc'
  end.

(** A natural number in decimal ([%d]). *)
Definition Itoa (n : nat) : string := itoaFuel (S n) n EmptyString.

End Strconv.

(** ** Package [config]: the instance configuration *)

Module minishiftConfig.

(** Modelled from the spec: the hypervisor kind the instance runs on
    (package [pkg/minishift/config] is not part of the sources at hand);
    the configurator only consumes the kind, through four predicates. *)
Inductive HypervisorKind :=
| VIRTUALBOX
| KVM
| HYPERV
| XHYVE
| OtherKind (name : string).

(** Modelled from the spec: the persisted fields the code reads and
    writes: [IPAddress], [IsRHELBased], [SupportsNetworkAssignment]. *)
Record InstanceConfigType := {
  IPAddress : string;
  IsRHELBased : bool;
  SupportsNetworkAssignment : bool
}.

Definition setIPAddress (c : InstanceConfigType) (ip : string) : InstanceConfigType :=
  {| IPAddress := ip;
     IsRHELBased := IsRHELBased c;
     SupportsNetworkAssignment := SupportsNetworkAssignment c |}.

Definition IsVirtualBox (k : HypervisorKind) : bool :=
  match k with VIRTUALBOX => true | _ => false end.
Definition IsKVM (k : HypervisorKind) : bool :=
  match k with KVM => true | _ => false end.
Definition IsHyperV (k : HypervisorKind) : bool :=
  match k with HYPERV => true | _ => false end.
Definition IsXhyve (k : HypervisorKind) : bool :=
  match k with XHYVE => true | _ => false end.

End minishiftConfig.

(** ** Package [network] *)

Module Network.

Definition configureIPAddressMessage : string :=
  "-- Set the following network settings to VM ...".
Definition configureRestartNeededMessage : string :=
  "Network settings get applied to the instance on restart".
Definition configureNetworkNotSupportedMessage : string :=
  "The Minishift VM does not support network assignment".
Definition configureNetworkScriptStaticAddressTemplate : string :=
"DEVICE={{.Device}}
IPADDR={{.IPAddress}}
NETMASK={{.Netmask}}
GATEWAY={{.Gateway}}
DNS1={{.DNS1}}
DNS2={{.DNS2}}
".
Definition configureNetworkScriptDynamicAddressTemplate : string :=
"DEVICE={{.Device}}
USEDHCP={{.UseDHCP}}
".
Definition configureNetworkScriptDisabledAddressTemplate : string :=
"DEVICE={{.Device}}
DISABLED={{.Disabled}}
".

Record NetworkSettings := {
  Device : string;
  IPAddress : string;
  Netmask : string;
  Gateway : string;
  DNS1 : string;
  DNS2 : string;
  UseDHCP : bool;
  Disabled : bool
}.

(** What the process does to the outside, in the order it does it. *)
Inductive Event :=
| EvGetIP                          (* driver.GetIP() *)
| EvSSH (cmd : string)             (* drivers.RunSSHCommandFromDriver *)
| EvPrint (line : string)          (* fmt.Println *)
| EvApply (ns : NetworkSettings)   (* WriteNetworkSettingsToHost entered *)
| EvConfigWrite.                   (* InstanceConfig.Write() *)

(** The process state: the configuration singleton in memory, its
    persisted copy, the hypervisor kind and the events so far. *)
Record World := {
  InstanceConfig : minishiftConfig.InstanceConfigType;
  stored : minishiftConfig.InstanceConfigType;
  hypervisor : minishiftConfig.HypervisorKind;
  trace : list Event
}.

(** The libmachine driver and the guest behind it: what they answer may
    depend on everything that happened before. *)
Record Driver := {
  answerGetIP : list Event -> string * error;
  answerSSH : list Event -> string -> string * error
}.

(** The world after some more events. *)
Definition extend (w : World) (events : list Event) : World :=
  {| InstanceConfig := InstanceConfig w;
     stored := stored w;
     hypervisor := hypervisor w;
     trace := (trace w ++ events)%list |}.

Definition emit (e : Event) : Proc World unit :=
  fun w => (Ret tt, extend w [e]).

Definition getConfig : Proc World minishiftConfig.InstanceConfigType :=
  fun w => (Ret (InstanceConfig w), w).

Definition setConfig (c : minishiftConfig.InstanceConfigType) : Proc World unit :=
  fun w =>
    (Ret tt,
     {| InstanceConfig := c;
        stored := stored w;
        hypervisor := hypervisor w;
        trace := trace w |}).

Definition getHypervisor : Proc World minishiftConfig.HypervisorKind :=
  fun w => (Ret (hypervisor w), w).

(** Modelled from the spec: [InstanceConfig.Write()] flushes the
    configuration in memory to the store. *)
Definition Write : Proc World unit :=
  fun w =>
    (Ret tt,
     {| InstanceConfig := InstanceConfig w;
        stored := InstanceConfig w;
        hypervisor := hypervisor w;
        trace := (trace w ++ [EvConfigWrite])%list |}).

(** [fmt.Println]: the operands separated by spaces. *)
Definition Println (args : list string) : Proc World unit :=
  emit (EvPrint (GoStrings.Join args " ")).

(** [driver.GetIP()] *)
Definition driverGetIP (driver : Driver) : Proc World (string * error) :=
  fun w => bind (emit EvGetIP) (fun _ => ret (answerGetIP driver (trace w))) w.

(** [drivers.RunSSHCommandFromDriver(driver, cmd)] *)
Definition RunSSHCommandFromDriver (driver : Driver) (cmd : string)
  : Proc World (string * error) :=
  fun w => bind (emit (EvSSH cmd)) (fun _ => ret (answerSSH driver (trace w) cmd)) w.

Local Open Scope proc_scope.

(* This will return the address as used by libmachine or assigned by us *)
Definition GetIP (driver : Driver) : Proc World (string * error) :=
  cfg <- getConfig ;;
  let configuredIP := minishiftConfig.IPAddress cfg in
  if negb (configuredIP =? "") then ret (configuredIP, None)
  else
    r <- driverGetIP driver ;;
    match r with
    | (_, Some err) => ret ("", Some err)
    | (ip, None) => ret (ip, None)
    end.

Definition checkSupportForAddressAssignment : Proc World bool :=
  cfg <- getConfig ;;
  if minishiftConfig.IsRHELBased cfg && minishiftConfig.SupportsNetworkAssignment cfg
  then ret true
  else ExitWithMessage 1 configureNetworkNotSupportedMessage.

Definition lookupField (ns : NetworkSettings) (f : string) : option string :=
  if f =? "Device" then Some (Device ns)
  else if f =? "IPAddress" then Some (IPAddress ns)
  else if f =? "Netmask" then Some (Netmask ns)
  else if f =? "Gateway" then Some (Gateway ns)
  else if f =? "DNS1" then Some (DNS1 ns)
  else if f =? "DNS2" then Some (DNS2 ns)
  else if f =? "UseDHCP" then Some (GoStrings.formatBool (UseDHCP ns))
  else if f =? "Disabled" then Some (GoStrings.formatBool (Disabled ns))
  else None.

Definition fillNetworkSettingsScript (networkSettings : NetworkSettings)
  : Proc World string :=
  let tmpl := Template.New "networkScript" in
  let tmpl :=
    if Disabled networkSettings then
      Template.Parse tmpl configureNetworkScriptDisabledAddressTemplate
    else if UseDHCP networkSettings then
      Template.Parse tmpl configureNetworkScriptDynamicAddressTemplate
    else
      Template.Parse tmpl configureNetworkScriptStaticAddressTemplate in
  match Template.Execute (lookupField networkSettings) tmpl with
  | (_, Some err) =>
      ExitWithMessage 1 ("Error executing network script template: " ++ err)
  | (result, None) => ret result
  end.

(** The command [WriteNetworkSettingsToHost] formats. *)
Definition networkingCommand (encodedScript device : string) : string :=
  "echo " ++ encodedScript
  ++ " | base64 --decode | sudo tee /var/lib/minishift/networking-"
  ++ device ++ " > /dev/null".

Definition WriteNetworkSettingsToHost (driver : Driver) (networkSettings : NetworkSettings)
  : Proc World bool :=
  emit (EvApply networkSettings) ;;
  networkScript <- fillNetworkSettingsScript networkSettings ;;
  let encodedScript := Base64.EncodeToString networkScript in
  let cmd := networkingCommand encodedScript (Device networkSettings) in
  r <- RunSSHCommandFromDriver driver cmd ;;
  match r with
  | (_, Some _) => Println ["FAIL"] ;; ret false
  | (_, None) => Println ["OK"] ;; ret true
  end.

Definition dhcpSettings (device : string) : NetworkSettings :=
  {| Device := device; IPAddress := ""; Netmask := ""; Gateway := "";
     DNS1 := ""; DNS2 := ""; UseDHCP := true; Disabled := false |}.

Definition disabledSettings (device : string) : NetworkSettings :=
  {| Device := device; IPAddress := ""; Netmask := ""; Gateway := "";
     DNS1 := ""; DNS2 := ""; UseDHCP := false; Disabled := true |}.

Definition ConfigureDynamicAssignment (driver : Driver) : Proc World unit :=
  ok <- checkSupportForAddressAssignment ;;
  (if ok then Println ["Dynamic assignment of IP address"] else ret tt) ;;
  let networkSettingsEth0 := dhcpSettings "eth0" in
  WriteNetworkSettingsToHost driver networkSettingsEth0 ;;
  let networkSettingsEth1 := dhcpSettings "eth1" in
  WriteNetworkSettingsToHost driver networkSettingsEth1 ;;
  Println [configureRestartNeededMessage].

(** [l[i]], which panics out of range, with the message of the runtime. *)
Definition index (l : list string) (i : nat) : Proc World string :=
  match nth_error l i with
  | Some x => ret x
  | None =>
      panic ("runtime error: index out of range [" ++ Strconv.Itoa i
             ++ "] with length " ++ Strconv.Itoa (List.length l))
  end.

Definition GetNetworkSettingsForHost (driver : Driver) : Proc World NetworkSettings :=
  r <- driverGetIP driver ;;
  let (instanceip, err) := r in
  match err with
  | Some e => ExitWithMessage 1 ("Error getting IP address: " ++ e)
  | None => ret tt
  end ;;
  (if instanceip =? ""
   then ExitWithMessage 1 ("Error getting IP address: " ++ "No address available")
   else ret tt) ;;
  r <- RunSSHCommandFromDriver driver
         ("ip a |grep -i '" ++ instanceip ++ "' | awk '{print $NF}' | tr -d '"
          ++ GoStrings.LF ++ "'") ;;
  let (device, err) := r in
  match err with
  | Some e => ExitWithMessage 1 ("Error getting device: " ++ e)
  | None => ret tt
  end ;;
  r <- RunSSHCommandFromDriver driver
         ("ip -o -f inet addr show " ++ device
          ++ " | head -n1 | awk '/scope global/ {print $4}'") ;;
  let (addressInfo, err) := r in
  match err with
  | Some e => ExitWithMessage 1 ("Error getting netmask: " ++ e)
  | None => ret tt
  end ;;
  ipAddress <- index (GoStrings.Split (GoStrings.TrimSpace addressInfo) "/") 0 ;;
  netmask <- index (GoStrings.Split (GoStrings.TrimSpace addressInfo) "/") 1 ;;
  r <- RunSSHCommandFromDriver driver
         ("cat /etc/resolv.conf |grep -i '^nameserver' | cut -d ' ' -f2 | tr '"
          ++ GoStrings.LF ++ "' ' '") ;;
  let (resolveInfo, err) := r in
  match err with
  | Some e => ExitWithMessage 1 ("Error getting nameserver: " ++ e)
  | None => ret tt
  end ;;
  let nameservers := GoStrings.Split (GoStrings.TrimSpace resolveInfo) " " in
  r <- RunSSHCommandFromDriver driver
         ("route -n | grep 'UG[ " ++ GoStrings.TAB ++ "]' | awk '{print $2}' | tr -d '"
          ++ GoStrings.LF ++ "'") ;;
  let (gateway, err) := r in
  match err with
  | Some e => ExitWithMessage 1 ("Error getting gateway: " ++ e)
  | None => ret tt
  end ;;
  dns1 <- index nameservers 0 ;;
  let networkSettings :=
    {| Device := device;
       IPAddress := ipAddress; (* ~= instanceip *)
       Netmask := netmask;
       Gateway := gateway;
       DNS1 := dns1;
       DNS2 := "";
       UseDHCP := false;
       Disabled := false |} in
  if (1 <? List.length nameservers)%nat then
    dns2 <- index nameservers 1 ;;
    ret {| Device := Device networkSettings;
           IPAddress := IPAddress networkSettings;
           Netmask := Netmask networkSettings;
           Gateway := Gateway networkSettings;
           DNS1 := DNS1 networkSettings;
           DNS2 := dns2;
           UseDHCP := UseDHCP networkSettings;
           Disabled := Disabled networkSettings |}
  else ret networkSettings.

Definition printNetworkSettings (networkSettings : NetworkSettings) : Proc World unit :=
  Println [configureIPAddressMessage] ;;
  Println ["   Device:     "; Device networkSettings] ;;
  Println ["   IP Address: "; IPAddress networkSettings ++ "/" ++ Netmask networkSettings] ;;
  (if negb (Gateway networkSettings =? "")
   then Println ["   Gateway:    "; Gateway networkSettings]
   else ret tt) ;;
  (if negb (DNS1 networkSettings =? "")
   then Println ["   Nameservers:"; DNS1 networkSettings ++ " " ++ DNS2 networkSettings]
   else ret tt).

Definition IsVirtualBox : Proc World bool :=
  kind <- getHypervisor ;; ret (minishiftConfig.IsVirtualBox kind).
Definition IsKVM : Proc World bool :=
  kind <- getHypervisor ;; ret (minishiftConfig.IsKVM kind).
Definition IsHyperV : Proc World bool :=
  kind <- getHypervisor ;; ret (minishiftConfig.IsHyperV kind).
Definition IsXhyve : Proc World bool :=
  kind <- getHypervisor ;; ret (minishiftConfig.IsXhyve kind).

(** [a() || b()]: [b] is not called when [a] holds. *)
Definition orElse (a b : Proc World bool) : Proc World bool :=
  x <- a ;; if x then ret true else b.

Definition ConfigureStaticAssignment (driver : Driver) : Proc World unit :=
  ok <- checkSupportForAddressAssignment ;;
  (if ok then Println ["Static assignment of IP address"] else ret tt) ;;
  networkSettings <- GetNetworkSettingsForHost driver ;;
  (* VirtualBox and KVM rely on two interfaces:
     eth0 is used for host communication,
     eth1 is used for the external communication *)
  twoNics <- orElse IsVirtualBox IsKVM ;;
  (if twoNics then
     Println ["vbox or kvm"] ;;
     let dhcpNetworkSettings := dhcpSettings "eth0" in
     WriteNetworkSettingsToHost driver networkSettings ;;
     WriteNetworkSettingsToHost driver dhcpNetworkSettings ;;
     ret tt
   else ret tt) ;;
  (* HyperV and Xhyve rely on a single interface:
     eth0 is used for host and external communication,
     eth1 is disabled *)
  oneNic <- orElse IsHyperV IsXhyve ;;
  (if oneNic then
     Println ["hyperv or xhyve"] ;;
     let disabledNetworkSettings := disabledSettings "eth1" in
     WriteNetworkSettingsToHost driver networkSettings ;;
     WriteNetworkSettingsToHost driver disabledNetworkSettings ;;
     ret tt
   else ret tt) ;;
  printNetworkSettings networkSettings ;;
  cfg <- getConfig ;;
  setConfig (minishiftConfig.setIPAddress cfg (IPAddress networkSettings)) ;;
  Write ;;
  Println [configureRestartNeededMessage].

(** The settings [WriteNetworkSettingsToHost] was called with. *)
Fixpoint applyCalls (t : list Event) : list NetworkSettings :=
  match t with
  | [] => []
  | EvApply ns :: rest => ns :: applyCalls rest
  | _ :: rest => applyCalls rest
  end.

(** The commands sent to the guest. *)
Fixpoint sshCommands (t : list Event) : list string :=
  match t with
  | [] => []
  | EvSSH cmd :: rest => cmd :: sshCommands rest
  | _ :: rest => sshCommands rest
  end.

End Network.

(** ** Package [provisioner]: the storage driver *)

Module Provisioner.

Inductive Event :=
| EvSSHCommand (cmd : string)   (* p.SSHCommand *)
| EvDebugf (msg : string).      (* log.Debugf *)

Definition World := list Event.

(** [provision.Provisioner], as far as the code uses it: the guest's
    answer to a command may depend on what happened before. *)
Record Provisioner := {
  answerSSHCommand : list Event -> string -> string * error
}.

Definition emit (e : Event) : Proc World unit :=
  fun w => (Ret tt, (w ++ [e])%list).

Definition SSHCommand (p : Provisioner) (cmd : string) : Proc World (string * error) :=
  fun w => bind (emit (EvSSHCommand cmd)) (fun _ => ret (answerSSHCommand p w cmd)) w.

Definition Debugf (msg : string) : Proc World unit := emit (EvDebugf msg).

Local Open Scope proc_scope.

Definition getFilesystemType (p : Provisioner) (directory : string)
  : Proc World (string * error) :=
  r <- SSHCommand p ("stat -f -c %T " ++ directory) ;;
  match r with
  | (_, Some err) =>
      let err := "Error looking up file system type: " ++ err in
      ret ("", Some err)
  | (statCommandOutput, None) =>
      let fstype := GoStrings.TrimSpace statCommandOutput in
      ret (fstype, None)
  end.

(** The part of [decideStorageDriver] after the [defer]: the value of
    [bestSuitedDriver] when it returns, and what it returns. *)
Definition decideBestSuited (p : Provisioner) (defaultDriver : string)
  : Proc World (string * (string * error)) :=
  if negb (defaultDriver =? "aufs") then
    let bestSuitedDriver := defaultDriver in
    ret (bestSuitedDriver, (bestSuitedDriver, None))
  else
    r <- getFilesystemType p "/var/lib" ;;
    match r with
    | (_, Some err) => ret ("", ("", Some err))
    | (remoteFilesystemType, None) =>
        let bestSuitedDriver :=
          if remoteFilesystemType =? "btrfs" then "btrfs" else "aufs" in
        ret (bestSuitedDriver, (bestSuitedDriver, None))
    end.

Definition decideStorageDriver (p : Provisioner) (defaultDriver suppliedDriver : string)
  : Proc World (string * error) :=
  if negb (suppliedDriver =? "") then ret (suppliedDriver, None)
  else
    r <- decideBestSuited p defaultDriver ;;
    let (bestSuitedDriver, result) := r in
    (* the deferred function *)
    (if negb (bestSuitedDriver =? "")
     then Debugf ("No storage driver specified, instead using "
                  ++ bestSuitedDriver ++ GoStrings.LF)
     else ret tt) ;;
    ret result.

Fixpoint sshCommands (t : list Event) : list string :=
  match t with
  | [] => []
  | EvSSHCommand cmd :: rest => cmd :: sshCommands rest
  | _ :: rest => sshCommands rest
  end.

End Provisioner.

(** ** More of the Go library: paths and regular expressions *)

(** [path/filepath] on a host whose separator is the slash. *)
Module Filepath.

Definition isRooted (p : string) : bool := prefix "/" p.

(** The elements of a path that survive cleaning; [stack] holds the ones
    kept so far, innermost first. *)
Fixpoint cleanElems (rooted : bool) (stack : list string) (elems : list string)
  : list string :=
  match elems with
  | [] => List.rev stack
  | e :: rest =>
      if (e =? "") || (e =? ".") then cleanElems rooted stack rest
      else if e =? ".." then
        match stack with
        | top :: below =>
            if top =? ".." then cleanElems rooted (e :: stack) rest
            else cleanElems rooted below rest
        | [] =>
            if rooted then cleanElems rooted [] rest
            else cleanElems rooted [e] rest
        end
      else cleanElems rooted (e :: stack) rest
  end.

Definition elements (p : string) : list string :=
  cleanElems (isRooted p) [] (GoStrings.Split p "/").

Definition build (rooted : bool) (elems : list string) : string :=
  if rooted then "/" ++ GoStrings.Join elems "/"
  else match elems with
       | [] => "."
       | _ => GoStrings.Join elems "/"
       end.

(** [filepath.Clean] *)
Definition Clean (p : string) : string := build (isRooted p) (elements p).

Fixpoint dropEmpty (elem : list string) : list string :=
  match elem with
  | [] => []
  | e :: rest => if e =? "" then dropEmpty rest else elem
  end.

(** [filepath.Join]: the elements from the first one that is not empty,
    joined by slashes and cleaned. *)
Definition Join (elem : list string) : string :=
  match dropEmpty elem with
  | [] => ""
  | l => Clean (GoStrings.Join l "/")
  end.

(** The parent directory of a path, and its last element. *)
Definition Dir (p : string) : string :=
  build (isRooted p) (List.removelast (elements p)).

Definition Base (p : string) : string :=
  match List.rev (elements p) with
  | last :: _ => last
  | [] => if isRooted p then "/" else "."
  end.

Fixpoint isPrefixOf (a b : list string) : bool :=
  match a, b with
  | [], _ => true
  | x :: a', y :: b' => (x =? y) && isPrefixOf a' b'
  | _ :: _, [] => false
  end.

(** [p] is [dir] or lies below it. *)
Definition within (dir p : string) : bool :=
  Bool.eqb (isRooted dir) (isRooted p) && isPrefixOf (elements dir) (elements p).

(** The directories above a path and the path itself, outermost first. *)
Fixpoint prefixes (rooted : bool) (done : list string) (elems : list string)
  : list string :=
  match elems with
  | [] => []
  | e :: rest =>
      let here := (done ++ [e])%list in
      build rooted here :: prefixes rooted here rest
  end.

Definition ancestors (p : string) : list string :=
  prefixes (isRooted p) [] (elements p).

End Filepath.

(** [regexp.MatchString], for patterns made of literal bytes, the dot and
    the star; a pattern with any other operator is reported as an error
    here. The search is not anchored. *)
Module Regexp.

Inductive Atom := Lit (c : ascii) | AnyChar.

(** An atom, starred or not. *)
Definition Item := (Atom * bool)%type.

Definition isMeta (c : ascii) : bool :=
  existsb (Ascii.eqb c)
    ["\"; "+"; "?"; "("; ")"; "["; "]"; "{"; "}"; "|"; "^"; "$"; "*"]%char.

Definition atomOf (c : ascii) : option Atom :=
  if Ascii.eqb c "."%char then Some AnyChar
  else if isMeta c then None
  else Some (Lit c).

Fixpoint compile (pattern : string) : option (list Item) :=
  match pattern with
  | EmptyString => Some []
  | String c rest =>
      match atomOf c with
      | None => None
      | Some a =>
          match rest with
          | String "*" rest' =>
              match compile rest' with
              | Some items => Some ((a, true) :: items)
              | None => None
              end
          | _ =>
              match compile rest with
              | Some items => Some ((a, false) :: items)
              | None => None
              end
          end
      end
  end.

(** The dot matches everything but a line feed. *)
Definition matchAtom (a : Atom) (c : ascii) : bool :=
  match a with
  | Lit x => Ascii.eqb x c
  | AnyChar => negb (Ascii.eqb c (ascii_of_nat 10))
  end.

Fixpoint matchHere (re : list Item) (s : string) : bool :=
  match re with
  | [] => true
  | (a, false) :: rest =>
      match s with
      | String c s' => matchAtom a c && matchHere rest s'
      | EmptyString => false
      end
  | (a, true) :: rest =>
      (fix star (s : string) : bool :=
         matchHere rest s
         || match s with
            | String c s' => matchAtom a c && star s'
            | EmptyString => false
            end) s
  end.

Fixpoint search (re : list Item) (s : string) : bool :=
  matchHere re s
  || match s with
     | String _ s' => search re s'
     | EmptyString => false
     end.

Definition MatchString (pattern s : string) : bool * error :=
  match compile pattern with
  | Some re => (search re s, None)
  | None => (false, Some ("error parsing regexp: `" ++ pattern ++ "`"))
  end.

End Regexp.

(** ** The host: files, the network, the archive helpers *)

Module HostOS.

Inductive Node :=
| File (content : string) (mode : nat)
| Directory.

(** Cleaned paths and what is there; no path occurs twice.  The root and
    the current directory are always there. *)
Definition FileSystem := list (string * Node).

(** The calls that leave the process, in the order they are made. *)
Inductive Op :=
| OpTempDir (name : string)                    (* ioutil.TempDir *)
| OpHTTPGet (url : string) (auth : option (string * string))  (* client.Do *)
| OpCreate (path : string)                     (* os.Create *)
| OpOpen (path : string)                       (* os.Open *)
| OpCopy (dst : string)                        (* io.Copy *)
| OpSync (path : string)                       (* File.Sync *)
| OpReadDir (path : string)                    (* ioutil.ReadDir *)
| OpMkdirAll (path : string) (perm : nat)      (* os.MkdirAll *)
| OpChmod (path : string) (mode : nat)         (* os.Chmod *)
| OpRemoveAll (path : string)                  (* os.RemoveAll *)
| OpUngzip (src dst : string)                  (* archive.Ungzip *)
| OpUntar (src dst : string)                   (* archive.Untar *)
| OpUnzip (src dst : string).                  (* archive.Unzip *)

Record World := { fs : FileSystem; trace : list Op }.

(** What the process does not control.  [fault] lets any call fail for a
    reason the file system model does not know (permissions, a full
    disk, a broken connection).  The three archive functions are the
    repository's package [pkg/util/archive], which is not part of the
    sources at hand: they may change the file system in any way. *)
Record Env := {
  osTempDir : string;
  nextSuffix : nat;
  fault : list Op -> Op -> error;
  newRequestError : string -> error;
  httpDo : list Op -> string -> (nat * string) * error;
  Ungzip : string -> string -> FileSystem -> FileSystem * error;
  Untar : string -> string -> FileSystem -> FileSystem * error;
  Unzip : string -> string -> FileSystem -> FileSystem * error
}.

Fixpoint find (p : string) (fs : FileSystem) : option Node :=
  match fs with
  | [] => None
  | (k, n) :: rest => if k =? p then Some n else find p rest
  end.

Definition lookup (p : string) (fs : FileSystem) : option Node :=
  if p =? "" then None
  else
    let p := Filepath.Clean p in
    if (p =? "/") || (p =? ".") then Some Directory else find p fs.

Definition isDir (p : string) (fs : FileSystem) : bool :=
  match lookup p fs with
  | Some Directory => true
  | _ => false
  end.

Definition remove (p : string) (fs : FileSystem) : FileSystem :=
  filter (fun kn => negb (fst kn =? p)) fs.

Definition insert (p : string) (n : Node) (fs : FileSystem) : FileSystem :=
  (Filepath.Clean p, n) :: remove (Filepath.Clean p) fs.

Definition removeAll (dir : string) (fs : FileSystem) : FileSystem :=
  filter (fun kn => negb (Filepath.within dir (fst kn))) fs.

Definition isFile (p : string) (fs : FileSystem) : bool :=
  match lookup p fs with
  | Some (File _ _) => true
  | _ => false
  end.

Fixpoint mkdirs (dirs : list string) (fs : FileSystem) : FileSystem :=
  match dirs with
  | [] => fs
  | d :: rest =>
      mkdirs rest (match lookup d fs with
                   | None => insert d Directory fs
                   | Some _ => fs
                   end)
  end.

Definition mkdirAll (p : string) (fs : FileSystem) : FileSystem * error :=
  if p =? "" then (fs, Some "mkdir : no such file or directory")
  else
    match List.find (fun a => isFile a fs) (Filepath.ancestors p) with
    | Some a => (fs, Some ("mkdir " ++ a ++ ": not a directory"))
    | None => (mkdirs (Filepath.ancestors p) fs, None)
    end.

Definition mkdirTemp (p : string) (fs : FileSystem) : FileSystem * error :=
  if isDir (Filepath.Dir p) fs then
    match lookup p fs with
    | None => (insert p Directory fs, None)
    | Some _ => (fs, Some ("mkdir " ++ p ++ ": file exists"))
    end
  else (fs, Some ("mkdir " ++ p ++ ": no such file or directory")).

(** [os.Create]: a new, empty file with mode 0666, or the old file
    truncated. *)
Definition create (p : string) (fs : FileSystem) : FileSystem * error :=
  if isDir (Filepath.Dir p) fs then
    match lookup p fs with
    | None =>
        if p =? "" then (fs, Some "open : no such file or directory")
        else (insert p (File "" 438) fs, None)
    | Some (File _ m) => (insert p (File "" m) fs, None)
    | Some Directory => (fs, Some ("open " ++ p ++ ": is a directory"))
    end
  else (fs, Some ("open " ++ p ++ ": no such file or directory")).

Definition open (p : string) (fs : FileSystem) : FileSystem * error :=
  match lookup p fs with
  | Some _ => (fs, None)
  | None => (fs, Some ("open " ++ p ++ ": no such file or directory"))
  end.

(** Write [data] to the open file [dst], from its start. *)
Definition write (dst data : string) (fs : FileSystem) : FileSystem * error :=
  match lookup dst fs with
  | Some (File _ m) => (insert dst (File data m) fs, None)
  | _ => (fs, Some ("write " ++ dst ++ ": bad file descriptor"))
  end.

(** [io.Copy] from the open file [src] to the open file [dst]. *)
Definition copyFile (dst src : string) (fs : FileSystem) : FileSystem * error :=
  match lookup src fs with
  | Some (File data _) => write dst data fs
  | Some Directory => (fs, Some ("read " ++ src ++ ": is a directory"))
  | None => (fs, Some ("read " ++ src ++ ": bad file descriptor"))
  end.

Definition sync (p : string) (fs : FileSystem) : FileSystem * error :=
  match lookup p fs with
  | Some _ => (fs, None)
  | None => (fs, Some ("sync " ++ p ++ ": bad file descriptor"))
  end.

Definition chmod (p : string) (mode : nat) (fs : FileSystem) : FileSystem * error :=
  match lookup p fs with
  | Some (File data _) => (insert p (File data mode) fs, None)
  | Some Directory => (fs, None)
  | None => (fs, Some ("chmod " ++ p ++ ": no such file or directory"))
  end.

Fixpoint insertSorted (x : string) (l : list string) : list string :=
  match l with
  | [] => [x]
  | y :: rest => if String.leb x y then x :: l else y :: insertSorted x rest
  end.

Definition sortNames (l : list string) : list string :=
  fold_right insertSorted [] l.

(** The names in a directory, sorted. *)
Definition children (dir : string) (fs : FileSystem) : list string :=
  sortNames
    (map (fun kn => Filepath.Base (fst kn))
       (filter (fun kn => (Filepath.Dir (fst kn) =? Filepath.Clean dir)
                          && negb (fst kn =? Filepath.Clean dir)) fs)).

Section Calls.
Variable env : Env.

(** A call: it is recorded, fails if the environment says so, and
    otherwise does what the file system model says. *)
Definition perform (op : Op) (sem : FileSystem -> FileSystem * error)
  : Proc World error :=
  fun w =>
    let t := (trace w ++ [op])%list in
    match fault env (trace w) op with
    | Some e => (Ret (Some e), {| fs := fs w; trace := t |})
    | None =>
        let (fs', e) := sem (fs w) in
        (Ret e, {| fs := fs'; trace := t |})
    end.

(** [ioutil.TempDir("", prefix)]: a new directory under the system's
    temporary directory, named [prefix] and a random number in decimal. *)
Definition TempDir (prefix : string) : Proc World (string * error) :=
  let name := Filepath.Join [osTempDir env; prefix ++ Strconv.Itoa (nextSuffix env)] in
  bind (perform (OpTempDir name) (mkdirTemp name))
       (fun e => match e with
                 | Some e => ret ("", Some e)
                 | None => ret (name, None)
                 end).

Definition Create (p : string) : Proc World error := perform (OpCreate p) (create p).
Definition Open (p : string) : Proc World error := perform (OpOpen p) (open p).
Definition Sync (p : string) : Proc World error := perform (OpSync p) (sync p).
Definition MkdirAll (p : string) (perm : nat) : Proc World error :=
  perform (OpMkdirAll p perm) (mkdirAll p).
Definition Chmod (p : string) (mode : nat) : Proc World error :=
  perform (OpChmod p mode) (chmod p mode).
Definition RemoveAll (p : string) : Proc World error :=
  perform (OpRemoveAll p) (fun fs => (removeAll p fs, None)).

(** [io.Copy(dst, src)] between two open files. *)
Definition Copy (dst src : string) : Proc World error :=
  perform (OpCopy dst) (copyFile dst src).

(** [io.Copy(dst, body)] from a response body. *)
Definition CopyBody (dst body : string) : Proc World error :=
  perform (OpCopy dst) (write dst body).

Definition ReadDir (dir : string) : Proc World (list string * error) :=
  fun w =>
    let t := (trace w ++ [OpReadDir dir])%list in
    let w' := {| fs := fs w; trace := t |} in
    match fault env (trace w) (OpReadDir dir) with
    | Some e => (Ret ([], Some e), w')
    | None =>
        if isDir dir (fs w) then (Ret (children dir (fs w), None), w')
        else (Ret ([], Some ("open " ++ dir ++ ": not a directory")), w')
    end.

(** [client.Do(req)] for a GET request: the status and the body. *)
Definition Do (url : string) (auth : option (string * string))
  : Proc World ((nat * string) * error) :=
  fun w =>
    (Ret (httpDo env (trace w) url),
     {| fs := fs w; trace := (trace w ++ [OpHTTPGet url auth])%list |}).

Definition archiveUngzip (src dst : string) : Proc World error :=
  perform (OpUngzip src dst) (Ungzip env src dst).
Definition archiveUntar (src dst : string) : Proc World error :=
  perform (OpUntar src dst) (Untar env src dst).
Definition archiveUnzip (src dst : string) : Proc World error :=
  perform (OpUnzip src dst) (Unzip env src dst).

End Calls.

(** [defer cleanup]: [cleanup] runs when [body] is done, however it ends. *)
Definition defer {A} (cleanup : Proc World error) (body : Proc World A)
  : Proc World A :=
  fun w => let (o, w') := body w in (o, snd (cleanup w')).

Fixpoint requests (t : list Op) : list string :=
  match t with
  | [] => []
  | OpHTTPGet url _ :: rest => url :: requests rest
  | _ :: rest => requests rest
  end.

(** The files [io.Copy] wrote to. *)
Fixpoint copies (t : list Op) : list string :=
  match t with
  | [] => []
  | OpCopy dst :: rest => dst :: copies rest
  | _ :: rest => copies rest
  end.

End HostOS.

(** ** Package [ocp]: download of the client binary *)

Module Ocp.
Import HostOS.

Definition DMURL : string := "https://developers.redhat.com/download-manager/jdf/file/".
Definition OMURL : string := "https://mirror.openshift.com/pub/openshift-v3/clients/".
Definition TAR : string := "tar.gz".
Definition ZIP : string := "zip".

(** Modelled from the spec: the platform identifiers of package
    [pkg/util/os] (not part of the sources at hand), a string type with
    the three values LINUX, DARWIN and WINDOWS; the mirror's path segment
    for WINDOWS is [windows]. *)
Definition OS := string.
Definition LINUX : OS := "linux".
Definition DARWIN : OS := "darwin".
Definition WINDOWS : OS := "windows".

(** [os.IsExist] on the text of an error. *)
Definition IsExist (err : string) : bool :=
  GoStrings.HasSuffix err "file exists" || GoStrings.HasSuffix err "directory not empty".

(** The first lines of [DownloadOcpVersionFromMirror]: the platform
    segment, the archive extension, the URL and the name of the archive. *)
Definition platformOf (osType : OS) : string :=
  if osType =? DARWIN then "macosx" else osType.

Definition extensionOf (osType : OS) : string :=
  if osType =? WINDOWS then ZIP else TAR.

Definition mirrorURL (version : string) (osType : OS) : string :=
  let binaryName := "oc" in
  OMURL ++ (GoStrings.TrimPrefix version "v" ++ "/" ++ platformOf osType ++ "/"
            ++ binaryName ++ "." ++ extensionOf osType).

Definition targetFileOf (osType : OS) : string :=
  let binaryName := "oc" in
  binaryName ++ "." ++ extensionOf osType.

(** The name of the binary once the archive is unpacked. *)
Definition binaryNameOf (osType : OS) : string :=
  let binaryName := "oc" in
  if osType =? WINDOWS then binaryName ++ ".exe" else binaryName.

Fixpoint excludeLoop (excludeRegexp : string) (files result : list string)
  : list string * error :=
  match files with
  | [] => (result, None)
  | f :: rest =>
      match Regexp.MatchString excludeRegexp f with
      | (_, Some err) => ([], Some err)
      | (matched, None) =>
          if negb matched then excludeLoop excludeRegexp rest (result ++ [f])%list
          else excludeLoop excludeRegexp rest result
      end
  end.

Section WithEnv.
Variable env : Env.
Local Open Scope proc_scope.

Definition listDirExcluding (dir excludeRegexp : string)
  : Proc World (list string * error) :=
  r <- ReadDir env dir ;;
  match r with
  | (_, Some err) => ret ([], Some err)
  | (files, None) => ret (excludeLoop excludeRegexp files [])
  end.

Definition copy (src dest : string) : Proc World error :=
  err <- Open env src ;;
  match err with
  | Some _ => ret (Some ("Cannot open src file: " ++ src))
  | None =>
      err <- Create env dest ;;
      match err with
      | Some _ => ret (Some ("Cannot create dst file: " ++ dest))
      | None =>
          err <- Copy env dest src ;;
          match err with
          | Some e => ret (Some ("Cannot copy: " ++ e))
          | None =>
              err <- Sync env dest ;;
              match err with
              | Some e => ret (Some ("Cannot copy: " ++ e))
              | None => ret None
              end
          end
      end
  end.

Definition download (url filename username password : string)
  : Proc World (bool * error) :=
  match newRequestError env url with
  | Some e => ret (false, Some ("Error in request: '" ++ e ++ "'"))
  | None =>
      let auth :=
        if (0 <? String.length username)%nat then Some (username, password)
        else None in
      r <- Do env url auth ;;
      match r with
      | (_, Some e) =>
          ret (false, Some ("Unable to get resource '" ++ url ++ "': " ++ e))
      | ((status, body), None) =>
          if negb (status =? 200)%nat then
            ret (false, Some ("Wrong credentials or filename '" ++ url ++ "': "
                              ++ Strconv.Itoa status))
          else
            err <- Create env filename ;;
            match err with
            | Some e =>
                ret (false, Some ("Not able to create file as '" ++ url ++ "': " ++ e))
            | None =>
                err <- CopyBody env filename body ;;
                match err with
                | Some e =>
                    ret (false, Some ("Not able to copy file to '" ++ filename
                                      ++ "': " ++ e))
                | None => ret (true, None)
                end
            end
      end
  end.

(** The [switch] of [DownloadOcpVersionFromMirror]: the directory the
    binary is expected in, or the error the function returns with. *)
Definition unpack (tmpDir assetTmpFile : string) : Proc World (string * error) :=
  if GoStrings.HasSuffix assetTmpFile TAR then
    (* unzip *)
    let tarFile := GoStrings.dropRight 3 assetTmpFile in
    err <- archiveUngzip env assetTmpFile tarFile ;;
    match err with
    | Some _ => ret ("", Some "Cannot ungzip")
    | None =>
        (* untar *)
        err <- archiveUntar env tarFile tmpDir ;;
        match err with
        | Some _ => ret ("", Some "Cannot untar")
        | None =>
            r <- listDirExcluding tmpDir ".*.tar.*" ;;
            match r with
            | (_, Some _) => ret ("", Some "Cannot list content of")
            | (content, None) =>
                if (1 <? List.length content)%nat then
                  ret ("", Some ("Unexpected number of files in tmp directory: "
                                 ++ GoStrings.formatStrings content))
                else ret (tmpDir, None)
            end
        end
    end
  else if GoStrings.HasSuffix assetTmpFile ZIP then
    err <- archiveUnzip env assetTmpFile tmpDir ;;
    match err with
    | Some _ => ret ("", Some "Cannot unzip")
    | None => ret (tmpDir, None)
    end
  else ret ("", None).

(** What follows the [switch]. *)
Definition install (osType : OS) (outputPath binaryPath : string)
  : Proc World error :=
  let binaryName := binaryNameOf osType in
  let binaryPath := Filepath.Join [binaryPath; binaryName] in
  (* Copy the requested asset into its final destination *)
  err <- MkdirAll env outputPath 493 ;;
  if match err with
     | Some e => negb (IsExist e)
     | None => false
     end
  then ret (Some "Cannot create the target directory.")
  else
    let finalBinaryPath := Filepath.Join [outputPath; binaryName] in
    err <- copy binaryPath finalBinaryPath ;;
    match err with
    | Some e => ret (Some e)
    | None =>
        err <- Chmod env finalBinaryPath 511 ;;
        match err with
        | Some e => ret (Some ("Cannot make executable: " ++ e))
        | None => ret None
        end
    end.

Definition DownloadOcpVersionFromMirror (version : string) (osType : OS)
  (outputPath : string) : Proc World error :=
  (* 3.7.0-0.153.0/windows/oc.zip *)
  let url := mirrorURL version osType in
  let targetFile := targetFileOf osType in
  (* Create target directory and file *)
  r <- TempDir env "minishift-asset-download-" ;;
  match r with
  | (_, Some _) => ret (Some "Cannot create temporary download directory.")
  | (tmpDir, None) =>
      defer (RemoveAll env tmpDir)
        ((* Create a tmp directory for the asset *)
         let assetTmpFile := Filepath.Join [tmpDir; targetFile] in
         (* Download the actual file *)
         r <- download url assetTmpFile "" "" ;;
         match r with
         | (_, Some err) => ret (Some err)
         | (_, None) =>
             r <- unpack tmpDir assetTmpFile ;;
             match r with
             | (_, Some err) => ret (Some err)
             | (binaryPath, None) => install osType outputPath binaryPath
             end
         end)
  end.

End WithEnv.

End Ocp.

(** ** Concrete guests, hosts and archives *)

Module Samples.

(** A guest whose address is 192.168.99.100 on [eth1]; [writable] tells
    whether the commands that write a settings file succeed. *)
Definition guest (writable : string -> bool) : Network.Driver :=
  {| Network.answerGetIP := fun _ => ("192.168.99.100", None);
     Network.answerSSH := fun _ cmd =>
       if prefix "ip a " cmd then ("eth1", None)
       else if prefix "ip -o" cmd then ("192.168.99.100/24" ++ GoStrings.LF, None)
       else if prefix "cat /etc/resolv.conf" cmd then ("10.0.2.3 8.8.8.8 ", None)
       else if prefix "route" cmd then ("10.0.2.2", None)
       else if writable cmd then ("", None)
       else ("", Some "exit status 1") |}.

Definition healthyGuest : Network.Driver := guest (fun _ => true).

(** No settings file can be written. *)
Definition readOnlyGuest : Network.Driver := guest (fun _ => false).

(** A driver that cannot tell the address. *)
Definition stoppedGuest : Network.Driver :=
  {| Network.answerGetIP := fun _ => ("", Some "Host is not running");
     Network.answerSSH := fun _ _ => ("", Some "Host is not running") |}.

Definition config (ip : string) (rhel supported : bool)
  : minishiftConfig.InstanceConfigType :=
  {| minishiftConfig.IPAddress := ip;
     minishiftConfig.IsRHELBased := rhel;
     minishiftConfig.SupportsNetworkAssignment := supported |}.

Definition freshWorld (c : minishiftConfig.InstanceConfigType)
  (kind : minishiftConfig.HypervisorKind) : Network.World :=
  {| Network.InstanceConfig := c;
     Network.stored := c;
     Network.hypervisor := kind;
     Network.trace := [] |}.

Definition discovered : Network.NetworkSettings :=
  {| Network.Device := "eth1";
     Network.IPAddress := "192.168.99.100";
     Network.Netmask := "24";
     Network.Gateway := "10.0.2.2";
     Network.DNS1 := "10.0.2.3";
     Network.DNS2 := "8.8.8.8";
     Network.UseDHCP := false;
     Network.Disabled := false |}.

(** A guest whose [/var/lib] is on the given file system. *)
Definition guestOn (fstype : string) : Provisioner.Provisioner :=
  {| Provisioner.answerSSHCommand := fun _ _ => (fstype ++ GoStrings.LF, None) |}.

Definition putFiles (dir : string) (names : list string) (fs : HostOS.FileSystem)
  : HostOS.FileSystem :=
  fold_right
    (fun n acc => HostOS.insert (Filepath.Join [dir; n]) (HostOS.File ("<" ++ n ++ ">") 420) acc)
    fs names.

(** A host where every call succeeds; the tar archive holds [tarNames],
    the zip archive [zipNames]. *)
Definition host (tarNames zipNames : list string) : HostOS.Env :=
  {| HostOS.osTempDir := "/tmp";
     HostOS.nextSuffix := 4711;
     HostOS.fault := fun _ _ => None;
     HostOS.newRequestError := fun _ => None;
     HostOS.httpDo := fun _ _ => ((200, "archive"), None);
     HostOS.Ungzip := fun _ dst fs => (HostOS.insert dst (HostOS.File "tar" 420) fs, None);
     HostOS.Untar := fun _ dst fs => (putFiles dst tarNames fs, None);
     HostOS.Unzip := fun _ dst fs => (putFiles dst zipNames fs, None) |}.

Definition disk : HostOS.World :=
  {| HostOS.fs := [("/tmp", HostOS.Directory)]; HostOS.trace := [] |}.

Definition tmpDir : string := "/tmp/minishift-asset-download-4711".

End Samples.

(** ** The specification's words for the network settings *)

Module NetworkSpec.
Import Network.

(** The three schemas of a settings file. *)
Definition disabledScript (device : string) : string :=
  "DEVICE=" ++ device ++ GoStrings.LF ++ "DISABLED=true" ++ GoStrings.LF.

Definition dynamicScript (device : string) : string :=
  "DEVICE=" ++ device ++ GoStrings.LF ++ "USEDHCP=true" ++ GoStrings.LF.

Definition staticScript (ns : NetworkSettings) : string :=
  "DEVICE=" ++ Device ns ++ GoStrings.LF
  ++ "IPADDR=" ++ IPAddress ns ++ GoStrings.LF
  ++ "NETMASK=" ++ Netmask ns ++ GoStrings.LF
  ++ "GATEWAY=" ++ Gateway ns ++ GoStrings.LF
  ++ "DNS1=" ++ DNS1 ns ++ GoStrings.LF
  ++ "DNS2=" ++ DNS2 ns ++ GoStrings.LF.

(** Disabled before DHCP before static. *)
Definition script (ns : NetworkSettings) : string :=
  if Disabled ns then disabledScript (Device ns)
  else if UseDHCP ns then dynamicScript (Device ns)
  else staticScript ns.

(** The one command that writes the settings of a device. *)
Definition command (ns : NetworkSettings) : string :=
  networkingCommand (Base64.EncodeToString (script ns)) (Device ns).

(** Whether the guest reports the write of [ns] as done, when asked in
    world [w]. *)
Definition accepted (driver : Driver) (w : World) (ns : NetworkSettings) : bool :=
  match snd (answerSSH driver (trace w ++ [EvApply ns])%list (command ns)) with
  | None => true
  | Some _ => false
  end.

(** The events of one apply step. *)
Definition applyEvents (driver : Driver) (w : World) (ns : NetworkSettings)
  : list Event :=
  [EvApply ns; EvSSH (command ns);
   EvPrint (if accepted driver w ns then "OK" else "FAIL")].

(** The capability gate. *)
Definition gate (w : World) : bool :=
  minishiftConfig.IsRHELBased (InstanceConfig w)
  && minishiftConfig.SupportsNetworkAssignment (InstanceConfig w).

(** A process that only adds events, none of them an apply step, and
    leaves the configuration alone. *)
Definition quiet {A} (m : Proc World A) : Prop :=
  forall w o w', m w = (o, w') ->
    exists events, w' = extend w events /\ applyCalls events = [].

(** What static assignment applies, by hypervisor kind. *)
Definition applied (kind : minishiftConfig.HypervisorKind) (ns : NetworkSettings)
  : list NetworkSettings :=
  match kind with
  | minishiftConfig.VIRTUALBOX | minishiftConfig.KVM => [ns; dhcpSettings "eth0"]
  | minishiftConfig.HYPERV | minishiftConfig.XHYVE => [ns; disabledSettings "eth1"]
  | minishiftConfig.OtherKind _ => []
  end.

(** The world in which static assignment starts its discovery. *)
Definition announced (w : World) : World :=
  extend w [EvPrint "Static assignment of IP address"].

(** The world when static assignment is done: the address is set in the
    configuration and flushed. *)
Definition assigned (w : World) (ip : string) (t : list Event) : World :=
  {| InstanceConfig := minishiftConfig.setIPAddress (InstanceConfig w) ip;
     stored := minishiftConfig.setIPAddress (InstanceConfig w) ip;
     hypervisor := hypervisor w;
     trace := t |}.

End NetworkSpec.

(** ** The specification's words for the download *)

Module OcpSpec.
Import HostOS Ocp.

(** [f] holds no slash. *)
Fixpoint noSlash (f : string) : bool :=
  match f with
  | EmptyString => true
  | String c rest => negb (Ascii.eqb c "/") && noSlash rest
  end.

(** A path element that cleaning keeps. *)
Definition plain (f : string) : bool :=
  noSlash f && negb (f =? "") && negb (f =? ".") && negb (f =? "..").

(** The shape of a cleaned path: steps to the parent first (none on a
    rooted path), then plain elements. *)
Definition canonical (rooted : bool) (elems : list string) : Prop :=
  exists n body,
    elems = (repeat ".." n ++ body)%list /\
    forallb plain body = true /\
    (rooted = true -> n = 0).

(** The temporary working directory of a call. *)
Definition tempDirOf (env : Env) : string :=
  Filepath.Join [osTempDir env;
                 "minishift-asset-download-" ++ Strconv.Itoa (nextSuffix env)].

(** The world right after the archive has been fetched and unpacked
    without an error, if the call gets that far: after [archive.Untar]
    for a tar archive, after [archive.Unzip] for a zip archive. *)
Definition extracted (env : Env) (version : string) (osType : OS) (w : World)
  : option World :=
  match TempDir env "minishift-asset-download-" w with
  | (Ret (tmpDir, None), w1) =>
      let assetTmpFile := Filepath.Join [tmpDir; targetFileOf osType] in
      match download env (mirrorURL version osType) assetTmpFile "" "" w1 with
      | (Ret (_, None), w2) =>
          if GoStrings.HasSuffix assetTmpFile TAR then
            let tarFile := GoStrings.dropRight 3 assetTmpFile in
            match archiveUngzip env assetTmpFile tarFile w2 with
            | (Ret None, w3) =>
                match archiveUntar env tarFile tmpDir w3 with
                | (Ret None, w4) => Some w4
                | _ => None
                end
            | _ => None
            end
          else if GoStrings.HasSuffix assetTmpFile ZIP then
            match archiveUnzip env assetTmpFile tmpDir w2 with
            | (Ret None, w3) => Some w3
            | _ => None
            end
          else None
      | _ => None
      end
  | _ => None
  end.

(** A process that always returns and sends no request. *)
Definition offline {A} (m : Proc World A) : Prop :=
  forall w, exists a w', m w = (Ret a, w') /\ requests (trace w') = requests (trace w).

End OcpSpec.

(** ** More of package [network]: what discovery asks the guest *)

Module Discovery.
Import Network.

(** The four commands of [GetNetworkSettingsForHost], as it formats them. *)
Definition deviceCommand (instanceip : string) : string :=
  "ip a |grep -i '" ++ instanceip ++ "' | awk '{print $NF}' | tr -d '"
  ++ GoStrings.LF ++ "'".

Definition addressCommand (device : string) : string :=
  "ip -o -f inet addr show " ++ device
  ++ " | head -n1 | awk '/scope global/ {print $4}'".

Definition resolveCommand : string :=
  "cat /etc/resolv.conf |grep -i '^nameserver' | cut -d ' ' -f2 | tr '"
  ++ GoStrings.LF ++ "' ' '".

Definition gatewayCommand : string :=
  "route -n | grep 'UG[ " ++ GoStrings.TAB ++ "]' | awk '{print $2}' | tr -d '"
  ++ GoStrings.LF ++ "'".

(** The events of a discovery that asked everything. *)
Definition questions (instanceip device : string) : list Event :=
  [EvGetIP; EvSSH (deviceCommand instanceip); EvSSH (addressCommand device);
   EvSSH resolveCommand; EvSSH gatewayCommand].

(** A guest that answers the same whatever happened before. *)
Definition statelessGuest (ip : string * error) (ssh : string -> string * error)
  : Driver :=
  {| answerGetIP := fun _ => ip; answerSSH := fun _ cmd => ssh cmd |}.

(** A process whose outcome does not depend on the world it starts in. *)
Definition worldBlind {A} (m : Proc World A) : Prop :=
  forall w w', fst (m w) = fst (m w').

(** A call that has not returned. *)
Definition stopped {A} (o : Outcome A) : bool :=
  match o with
  | Ret _ => false
  | _ => true
  end.

(** The same end for a call with another result type. *)
Definition sameStop {A B} (o : Outcome A) (o' : Outcome B) : Prop :=
  match o, o' with
  | Exited c msg, Exited c' msg' => c = c' /\ msg = msg'
  | Panicked msg, Panicked msg' => msg = msg'
  | _, _ => False
  end.

End Discovery.

(** ** Package [cmd]: the [ip] command *)

Module Cmd.

(** The libmachine client, as far as the command uses it: what [api.Load]
    answers for a machine name. *)
Record Api := {
  answerLoad : string -> Network.Driver * error
}.

Inductive ApiCall :=
| Load (name : string)   (* api.Load *)
| Close.                 (* api.Close *)

(** The world of the command: the world of package [network] and the
    calls to the client. *)
Record World := {
  net : Network.World;
  api : list ApiCall
}.

(** A process of package [network], run by the command. *)
Definition liftNet {A} (m : Proc Network.World A) : Proc World A :=
  fun w => let (o, n) := m (net w) in (o, {| net := n; api := api w |}).

Definition apiCall (c : ApiCall) : Proc World unit :=
  fun w => (Ret tt, {| net := net w; api := (api w ++ [c])%list |}).

Definition apiLoad (client : Api) (name : string)
  : Proc World (Network.Driver * error) :=
  bind (apiCall (Load name)) (fun _ => ret (answerLoad client name)).

(** [defer cleanup] in a function that may end the process: [cleanup] runs
    when [body] returns or panics, not when the process exits. *)
Definition deferred {A} (cleanup : Proc World unit) (body : Proc World A)
  : Proc World A :=
  fun w =>
    match body w with
    | (Exited code msg, w') => (Exited code msg, w')
    | (o, w') => (o, snd (cleanup w'))
    end.

Local Open Scope proc_scope.

(** The [Run] function of [ipCmd]; [machineName] is [constants.MachineName]
    and the two flags are the package variables the flag parser sets. *)
Definition Run (machineName : string) (configureAsStatic configureAsDynamic : bool)
  (client : Api) : Proc World unit :=
  deferred (apiCall Close)
    ((if configureAsStatic && configureAsDynamic
      then ExitWithMessage 1 "Invalid options specified"
      else ret tt) ;;
     r <- apiLoad client machineName ;;
     let (host, err) := r in
     match err with
     | Some e => ExitWithMessage 1 ("Error getting IP: " ++ e)
     | None => ret tt
     end ;;
     if configureAsDynamic then
       liftNet (Network.ConfigureDynamicAssignment host)
     else if configureAsStatic then
       liftNet (Network.ConfigureStaticAssignment host)
     else
       r <- liftNet (Network.GetIP host) ;;
       let (ip, err) := r in
       match err with
       | Some e => ExitWithMessage 1 ("Error getting IP: " ++ e)
       | None => ret tt
       end ;;
       liftNet (Network.Println [ip])).

End Cmd.

(** ** More of package [provisioner] *)

Module Provisioning.
Import Provisioner.

(** [strings.Trim] for a cutset of ASCII characters: the leading and the
    trailing bytes that are in the cutset are dropped. *)
Definition inCutset (cutset : string) (c : ascii) : bool :=
  existsb (Ascii.eqb c) (list_ascii_of_string cutset).

Fixpoint trimLeftCutset (cutset s : string) : string :=
  match s with
  | EmptyString => EmptyString
  | String c rest => if inCutset cutset c then trimLeftCutset cutset rest else s
  end.

Definition Trim (s cutset : string) : string :=
  GoStrings.rev (trimLeftCutset cutset (GoStrings.rev (trimLeftCutset cutset s))).

(** [auth.Options] of libmachine: the fields the package reads or sets. *)
Record AuthOptions := {
  CaCertPath : string;
  CaPrivateKeyPath : string;
  CaCertRemotePath : string;
  ServerCertPath : string;
  ServerKeyPath : string;
  ClientKeyPath : string;
  ServerCertRemotePath : string;
  ServerKeyRemotePath : string;
  ClientCertPath : string;
  ServerCertSANs : list string;
  StorePath : string
}.

(** What the provisioner is configured with: [p.GetDockerOptionsDir()] and
    [p.GetAuthOptions()]. *)
Record Settings := {
  dockerOptionsDir : string;
  authOptions : AuthOptions
}.

(** [path.Join]: the joining of [path/filepath] with the slash as the
    separator, whatever the host. *)
Definition pathJoin (elem : list string) : string := Filepath.Join elem.

Local Open Scope proc_scope.

Definition makeDockerOptionsDir (p : Provisioner) (s : Settings) : Proc World error :=
  let dockerDir := dockerOptionsDir s in
  r <- SSHCommand p ("sudo mkdir -p " ++ dockerDir) ;;
  match r with
  | (_, Some err) => ret (Some err)
  | (_, None) => ret None
  end.

Definition setRemoteAuthOptions (s : Settings) : AuthOptions :=
  let dockerDir := dockerOptionsDir s in
  let authOptions := authOptions s in
  (* due to windows clients, we cannot use filepath.Join as the paths
     will be mucked on the linux hosts *)
  {| CaCertPath := CaCertPath authOptions;
     CaPrivateKeyPath := CaPrivateKeyPath authOptions;
     CaCertRemotePath := pathJoin [dockerDir; "ca.pem"];
     ServerCertPath := ServerCertPath authOptions;
     ServerKeyPath := ServerKeyPath authOptions;
     ClientKeyPath := ClientKeyPath authOptions;
     ServerCertRemotePath := pathJoin [dockerDir; "server.pem"];
     ServerKeyRemotePath := pathJoin [dockerDir; "server-key.pem"];
     ClientCertPath := ClientCertPath authOptions;
     ServerCertSANs := ServerCertSANs authOptions;
     StorePath := StorePath authOptions |}.

(** The world of feature detection: the configuration singleton in memory,
    its persisted copy, and what was sent to the guest. *)
Record DetectWorld := {
  InstanceConfig : minishiftConfig.InstanceConfigType;
  stored : minishiftConfig.InstanceConfigType;
  sent : World
}.

Definition setSupportsNetworkAssignment (c : minishiftConfig.InstanceConfigType)
  (b : bool) : minishiftConfig.InstanceConfigType :=
  {| minishiftConfig.IPAddress := minishiftConfig.IPAddress c;
     minishiftConfig.IsRHELBased := minishiftConfig.IsRHELBased c;
     minishiftConfig.SupportsNetworkAssignment := b |}.

(** [p.SSHCommand], in the world of feature detection. *)
Definition detectSSHCommand (p : Provisioner) (cmd : string)
  : Proc DetectWorld (string * error) :=
  fun w =>
    match SSHCommand p cmd (sent w) with
    | (o, t) => (o, {| InstanceConfig := InstanceConfig w; stored := stored w; sent := t |})
    end.

(** Modelled from the spec: [InstanceConfig.Write()] flushes the
    configuration in memory to the store. *)
Definition detectWrite : Proc DetectWorld unit :=
  fun w =>
    (Ret tt,
     {| InstanceConfig := InstanceConfig w; stored := InstanceConfig w; sent := sent w |}).

Definition detectSet (b : bool) : Proc DetectWorld unit :=
  fun w =>
    (Ret tt,
     {| InstanceConfig := setSupportsNetworkAssignment (InstanceConfig w) b;
        stored := stored w;
        sent := sent w |}).

Definition featureCommand : string :=
  "test -f " ++ "/usr/local/bin/minishift-set-ipaddress" ++ " && echo '1' || echo '0' ".

Definition doFeatureDetection (p : Provisioner) : Proc DetectWorld error :=
  r <- detectSSHCommand p featureCommand ;;
  match r with
  | (_, Some err) => ret (Some err)
  | (out, None) =>
      (if Trim out GoStrings.LF =? "1"
       then detectSet true
       else detectSet false) ;;
      detectWrite ;;
      ret None
  end.

(** The world of package [network] that starts from a configuration as
    feature detection left it. *)
Definition networkWorld (w : DetectWorld) (kind : minishiftConfig.HypervisorKind)
  (t : list Network.Event) : Network.World :=
  {| Network.InstanceConfig := InstanceConfig w;
     Network.stored := stored w;
     Network.hypervisor := kind;
     Network.trace := t |}.

(** A run of line feeds. *)
Fixpoint newlines (n : nat) : string :=
  match n with
  | O => ""
  | S k => GoStrings.LF ++ newlines k
  end.

Fixpoint debugLines (t : World) : list string :=
  match t with
  | [] => []
  | EvDebugf line :: rest => line :: debugLines rest
  | _ :: rest => debugLines rest
  end.

End Provisioning.

(** ** Package [ocp], continued: the download from the developer portal *)

Module OcpDev.
Import HostOS Ocp.

Section WithEnv.
Variable env : Env.
Local Open Scope proc_scope.

(** The result of [download] is dropped. *)
Definition DownloadOcpVersionFromRHDev
  (username password version platform filepath : string) : Proc World unit :=
  (* check platform *)
  let platform := if platform =? "darwin" then "macosx" else platform in
  let extension := if platform =? "windows" then ZIP else TAR in
  (* oc-3.5.5.31.24-windows.zip *)
  let url := DMURL ++ ("oc-" ++ version ++ "-" ++ platform ++ "." ++ extension)
             ++ "?workflow=direct" in
  let target := filepath ++ "/" ++ "oc" ++ "." ++ extension in
  _ <- download env url target username password ;;
  ret tt.

End WithEnv.

(** The requests of a trace, each with the credentials it carried. *)
Fixpoint gets (t : list Op) : list (string * option (string * string)) :=
  match t with
  | [] => []
  | OpHTTPGet url auth :: rest => (url, auth) :: gets rest
  | _ :: rest => gets rest
  end.

(** The files [os.Create] was called for. *)
Fixpoint creations (t : list Op) : list string :=
  match t with
  | [] => []
  | OpCreate p :: rest => p :: creations rest
  | _ :: rest => creations rest
  end.

(** The calls into package [archive]. *)
Fixpoint unpackings (t : list Op) : list Op :=
  match t with
  | [] => []
  | OpUngzip src dst :: rest => OpUngzip src dst :: unpackings rest
  | OpUntar src dst :: rest => OpUntar src dst :: unpackings rest
  | OpUnzip src dst :: rest => OpUnzip src dst :: unpackings rest
  | _ :: rest => unpackings rest
  end.

(** What [download] puts into a request: basic authentication when there
    is a user name. *)
Definition credentials (username password : string) : option (string * string) :=
  if username =? "" then None else Some (username, password).

(** A process that always returns and only adds calls that [P] allows. *)
Definition adds (P : Op -> bool) {A} (m : Proc World A) : Prop :=
  forall w, exists a w' ev,
    m w = (Ret a, w') /\ trace w' = (trace w ++ ev)%list /\ forallb P ev = true.

Definition noGet (op : Op) : bool :=
  match op with
  | OpHTTPGet _ _ => false
  | _ => true
  end.

(** Calls that neither send a request nor create a file. *)
Definition noGetCreate (op : Op) : bool :=
  match op with
  | OpHTTPGet _ _ => false
  | OpCreate _ => false
  | _ => true
  end.

(** A host on which no call fails for a reason outside the file system. *)
Definition faultless (env : Env) : Prop :=
  forall t op, fault env t op = None.

(** The pattern [DownloadOcpVersionFromMirror] lists its working directory
    with, and what it matches: a name that holds [tar] after at least one
    character that is not a line feed. *)
Definition tarPattern : string := ".*.tar.*".

Definition tarItems : list Regexp.Item :=
  [(Regexp.AnyChar, true); (Regexp.AnyChar, false);
   (Regexp.Lit "t", false); (Regexp.Lit "a", false); (Regexp.Lit "r", false);
   (Regexp.AnyChar, true)].

Definition holdsTar (name : string) : Prop :=
  exists before c after,
    name = before ++ String c ("tar" ++ after) /\ c <> ascii_of_nat 10.

End OcpDev.
(** * Properties *)

(** ** The library functions on known values *)

Example TrimSpace_address :
  GoStrings.TrimSpace (GoStrings.TAB ++ " 10.0.2.15/24 " ++ GoStrings.LF) = "10.0.2.15/24".
Proof. reflexivity. Qed.

Example TrimSpace_no_break_space :
  GoStrings.TrimSpace (GoStrings.bytes [194; 160] ++ "btrfs" ++ GoStrings.bytes [226; 128; 168])
  = "btrfs".
Proof. reflexivity. Qed.

Example Split_address : GoStrings.Split "10.0.2.15/24" "/" = ["10.0.2.15"; "24"].
Proof. reflexivity. Qed.

Example Split_without_separator :
  GoStrings.Split "" "/" = [""] /\ GoStrings.Split "10.0.2.15" "/" = ["10.0.2.15"].
Proof. split; reflexivity. Qed.

Example TrimPrefix_version :
  GoStrings.TrimPrefix "v3.7.0" "v" = "3.7.0" /\ GoStrings.TrimPrefix "3.7.0" "v" = "3.7.0"
  /\ GoStrings.TrimPrefix "vv1" "v" = "v1".
Proof. repeat split. Qed.

Example EncodeToString_rfc4648 :
  map Base64.EncodeToString ["f"; "fo"; "foo"; "foob"; "fooba"; "foobar"]
  = ["Zg=="; "Zm8="; "Zm9v"; "Zm9vYg=="; "Zm9vYmE="; "Zm9vYmFy"].
Proof. reflexivity. Qed.

Example EncodeToString_script :
  Base64.EncodeToString ("DEVICE=eth0" ++ GoStrings.LF ++ "USEDHCP=true" ++ GoStrings.LF)
  = "REVWSUNFPWV0aDAKVVNFREhDUD10cnVlCg==".
Proof. reflexivity. Qed.

Example Clean_known :
  map Filepath.Clean ["/tmp//a/../b/./c/"; ""; "../../a/.."; "/.."; "a/b/../../.."; "/"]
  = ["/tmp/b/c"; "."; "../.."; "/"; ".."; "/"].
Proof. reflexivity. Qed.

Example Join_known :
  Filepath.Join ["/out"; "oc.exe"] = "/out/oc.exe"
  /\ Filepath.Join [""; "oc"] = "oc"
  /\ Filepath.Join ["/tmp/x/"; "oc.tar.gz"] = "/tmp/x/oc.tar.gz".
Proof. repeat split. Qed.

Example MatchString_exclusion :
  map (fun name => fst (Regexp.MatchString ".*.tar.*" name))
    ["oc.tar.gz"; "oc.tar"; "oc"; "tar"; "star"; "README.md"]
  = [true; true; false; false; true; false].
Proof. reflexivity. Qed.

Example Itoa_known : map Strconv.Itoa [0; 7; 200; 404; 4711] = ["0"; "7"; "200"; "404"; "4711"].
Proof. reflexivity. Qed.

Example Parse_static_template :
  Template.tree
    (Template.Parse (Template.New "networkScript") "DEVICE={{.Device}}/{{ .DNS1 }}")
  = Some [Template.Text "DEVICE="; Template.Field "Device"; Template.Text "/";
          Template.Field "DNS1"; Template.Text ""].
Proof. reflexivity. Qed.


(** ** Processes *)

Lemma bind_ret_l {W A B} (m : Proc W A) (k : A -> Proc W B) w a w' :
  m w = (Ret a, w') -> bind m k w = k a w'.
Proof. intros H. unfold bind. rewrite H. reflexivity. Qed.

Lemma bind_exited {W A B} (m : Proc W A) (k : A -> Proc W B) w c msg w' :
  m w = (Exited c msg, w') -> bind m k w = (Exited c msg, w').
Proof. intros H. unfold bind. rewrite H. reflexivity. Qed.

Lemma bind_assoc {W A B C} (m : Proc W A) (k : A -> Proc W B) (h : B -> Proc W C) w :
  bind (bind m k) h w = bind m (fun a => bind (k a) h) w.
Proof. unfold bind. destruct (m w) as [[a|c msg|msg] w']; reflexivity. Qed.

Ltac run H := rewrite (bind_ret_l _ _ _ _ _ H).

Section NetworkFacts.
Import Network NetworkSpec.
Local Open Scope proc_scope.

Lemma extend_nil w : extend w [] = w.
Proof. destruct w; unfold extend; simpl. now rewrite app_nil_r. Qed.

Lemma extend_extend w a b : extend (extend w a) b = extend w (a ++ b)%list.
Proof. unfold extend; simpl. now rewrite <- app_assoc. Qed.

Lemma applyCalls_app a b : applyCalls (a ++ b)%list = (applyCalls a ++ applyCalls b)%list.
Proof.
  induction a as [|e a IH]; simpl; [reflexivity|].
  destruct e; simpl; now rewrite ?IH.
Qed.

Lemma sshCommands_app a b : sshCommands (a ++ b)%list = (sshCommands a ++ sshCommands b)%list.
Proof.
  induction a as [|e a IH]; simpl; [reflexivity|].
  destruct e; simpl; now rewrite ?IH.
Qed.

(** Rendering never fails, and the script is the one the settings' mode
    selects. *)
Lemma fillNetworkSettingsScript_script ns w :
  fillNetworkSettingsScript ns w = (Ret (script ns), w).
Proof.
  destruct ns as [dev ip mask gw d1 d2 dhcp dis].
  destruct dis; [|destruct dhcp]; reflexivity.
Qed.

Lemma Println_run args w :
  Println args w = (Ret tt, extend w [EvPrint (GoStrings.Join args " ")]).
Proof. reflexivity. Qed.

Lemma RunSSHCommandFromDriver_run d cmd w :
  RunSSHCommandFromDriver d cmd w = (Ret (answerSSH d (trace w) cmd), extend w [EvSSH cmd]).
Proof. reflexivity. Qed.

(** One apply step: it always returns, with whether the guest accepted. *)
Lemma WriteNetworkSettingsToHost_run d ns w :
  WriteNetworkSettingsToHost d ns w
  = (Ret (accepted d w ns), extend w (applyEvents d w ns)).
Proof.
  unfold WriteNetworkSettingsToHost.
  erewrite bind_ret_l by reflexivity.
  run (fillNetworkSettingsScript_script ns (extend w [EvApply ns])).
  fold (command ns).
  run (RunSSHCommandFromDriver_run d (command ns) (extend w [EvApply ns])).
  unfold applyEvents, accepted. cbn [trace extend].
  destruct (answerSSH d (trace w ++ [EvApply ns]) (command ns)) as [out [e|]];
    cbn [snd]; cbv beta iota;
    unfold bind, Println, emit, ret; now rewrite !extend_extend.
Qed.

(** *** Processes that apply nothing *)

Lemma quiet_ret {A} (a : A) : quiet (ret a).
Proof.
  intros w o w' H. inversion H; subst. exists []. now rewrite extend_nil.
Qed.

Lemma quiet_ExitWithMessage {A} c msg : quiet (@ExitWithMessage World A c msg).
Proof.
  intros w o w' H. inversion H; subst. exists []. now rewrite extend_nil.
Qed.

Lemma quiet_panic {A} msg : quiet (@panic World A msg).
Proof.
  intros w o w' H. inversion H; subst. exists []. now rewrite extend_nil.
Qed.

Lemma quiet_bind {A B} (m : Proc World A) (k : A -> Proc World B) :
  quiet m -> (forall a, quiet (k a)) -> quiet (bind m k).
Proof.
  intros Hm Hk w o w' H. unfold bind in H.
  destruct (m w) as [[a|c msg|msg] w1] eqn:E;
    destruct (Hm _ _ _ E) as (e1 & -> & Q1).
  - destruct (Hk a _ _ _ H) as (e2 & -> & Q2).
    exists (e1 ++ e2)%list. rewrite extend_extend, applyCalls_app, Q1, Q2. now split.
  - inversion H; subst. now exists e1.
  - inversion H; subst. now exists e1.
Qed.

Lemma quiet_driverGetIP d : quiet (driverGetIP d).
Proof. intros w o w' H. inversion H; subst. now exists [EvGetIP]. Qed.

Lemma quiet_RunSSHCommandFromDriver d cmd : quiet (RunSSHCommandFromDriver d cmd).
Proof. intros w o w' H. inversion H; subst. now exists [EvSSH cmd]. Qed.

Lemma quiet_Println args : quiet (Println args).
Proof. intros w o w' H. inversion H; subst. now eexists [_]. Qed.

Lemma quiet_index l i : quiet (index l i).
Proof.
  unfold index. destruct (nth_error l i); [apply quiet_ret | apply quiet_panic].
Qed.

Ltac quiet_step :=
  first
    [ apply quiet_bind; [|intros ?]
    | apply quiet_ret
    | apply quiet_ExitWithMessage
    | apply quiet_panic
    | apply quiet_driverGetIP
    | apply quiet_RunSSHCommandFromDriver
    | apply quiet_Println
    | apply quiet_index
    | match goal with
      | |- quiet (match ?x with _ => _ end) => destruct x
      | |- quiet (let (_, _) := ?x in _) => destruct x
      end ].

(** Discovery only asks: it applies nothing and leaves the configuration
    alone, however it ends. *)
Lemma quiet_GetNetworkSettingsForHost d : quiet (GetNetworkSettingsForHost d).
Proof. unfold GetNetworkSettingsForHost. repeat quiet_step. Qed.

Lemma quiet_printNetworkSettings ns : quiet (printNetworkSettings ns).
Proof. unfold printNetworkSettings. repeat quiet_step. Qed.

Lemma printNetworkSettings_run ns :
  exists prints,
    applyCalls prints = [] /\ sshCommands prints = [] /\
    forall w, printNetworkSettings ns w = (Ret tt, extend w prints).
Proof.
  unfold printNetworkSettings.
  destruct (negb (Gateway ns =? "")), (negb (DNS1 ns =? ""));
    (eexists; split; [|split];
     [| |intros w; unfold bind, Println, emit, ret; rewrite ?extend_extend; reflexivity];
     reflexivity).
Qed.

Lemma checkSupportForAddressAssignment_open w :
  gate w = true -> checkSupportForAddressAssignment w = (Ret true, w).
Proof.
  unfold gate, checkSupportForAddressAssignment, bind, getConfig. intros ->. reflexivity.
Qed.

(** The gate closed: the process exits, in the world it started in. *)
Lemma checkSupportForAddressAssignment_closed w :
  gate w = false ->
  checkSupportForAddressAssignment w
  = (Exited 1 configureNetworkNotSupportedMessage, w).
Proof.
  unfold gate, checkSupportForAddressAssignment, bind, getConfig. intros ->. reflexivity.
Qed.

Lemma twoNics_run w :
  orElse IsVirtualBox IsKVM w
  = (Ret (minishiftConfig.IsVirtualBox (hypervisor w)
          || minishiftConfig.IsKVM (hypervisor w)), w).
Proof. unfold orElse, IsVirtualBox, IsKVM, bind, getHypervisor, ret. destruct w as [c s k t]; destruct k; reflexivity. Qed.

Lemma oneNic_run w :
  orElse IsHyperV IsXhyve w
  = (Ret (minishiftConfig.IsHyperV (hypervisor w)
          || minishiftConfig.IsXhyve (hypervisor w)), w).
Proof. unfold orElse, IsHyperV, IsXhyve, bind, getHypervisor, ret. destruct w as [c s k t]; destruct k; reflexivity. Qed.

(** The end of static assignment: the summary, the address stored and
    flushed, the notice. *)
Lemma static_epilogue ns w :
  exists events,
    applyCalls events = [] /\ sshCommands events = [] /\
    (printNetworkSettings ns ;;
     cfg <- getConfig ;;
     setConfig (minishiftConfig.setIPAddress cfg (IPAddress ns)) ;;
     Write ;;
     Println [configureRestartNeededMessage]) w
    = (Ret tt, assigned w (IPAddress ns) (trace w ++ events)).
Proof.
  destruct (printNetworkSettings_run ns) as (prints & Qa & Qs & Hp).
  exists (prints ++ [EvConfigWrite; EvPrint configureRestartNeededMessage])%list.
  rewrite applyCalls_app, sshCommands_app, Qa, Qs.
  split; [reflexivity|split; [reflexivity|]].
  run (Hp w).
  unfold bind, getConfig, setConfig, Write, Println, emit, ret, extend, assigned; cbn.
  now rewrite <- !app_assoc.
Qed.

(** Static assignment, once the gate is open and discovery has returned
    the settings [ns]. *)
Lemma ConfigureStaticAssignment_run d w ns w1 :
  gate w = true ->
  GetNetworkSettingsForHost d (announced w) = (Ret ns, w1) ->
  exists events,
    ConfigureStaticAssignment d w
    = (Ret tt, assigned w (IPAddress ns) (trace w1 ++ events)) /\
    applyCalls events = applied (hypervisor w) ns /\
    sshCommands events = map command (applied (hypervisor w) ns).
Proof.
  intros Hgate Hdisc.
  destruct (quiet_GetNetworkSettingsForHost d _ _ _ Hdisc) as (e0 & Hw1 & _).
  assert (Hk : hypervisor w1 = hypervisor w) by (subst w1; reflexivity).
  assert (Hc : InstanceConfig w1 = InstanceConfig w) by (subst w1; reflexivity).
  unfold ConfigureStaticAssignment.
  run (checkSupportForAddressAssignment_open w Hgate).
  erewrite bind_ret_l by apply Println_run.
  fold (announced w). run Hdisc.
  run (twoNics_run w1). rewrite Hk.
  destruct (hypervisor w) eqn:K; cbn [minishiftConfig.IsVirtualBox minishiftConfig.IsKVM orb].
  all: repeat first
         [ rewrite bind_assoc
         | erewrite bind_ret_l by apply Println_run
         | erewrite bind_ret_l by apply WriteNetworkSettingsToHost_run
         | erewrite bind_ret_l by reflexivity ].
  all: repeat rewrite extend_extend.
  all: match goal with
       | |- context [bind (orElse IsHyperV IsXhyve) _ ?w'] =>
           rewrite (bind_ret_l _ _ _ _ _ (oneNic_run w'))
       end.
  all: cbn [hypervisor extend]; rewrite Hk;
    cbn [minishiftConfig.IsHyperV minishiftConfig.IsXhyve orb].
  all: repeat first
         [ rewrite bind_assoc
         | erewrite bind_ret_l by apply Println_run
         | erewrite bind_ret_l by apply WriteNetworkSettingsToHost_run
         | erewrite bind_ret_l by reflexivity ].
  all: repeat rewrite extend_extend.
  all: match goal with
       | |- context [bind (printNetworkSettings ?n) _ (extend ?w0 ?delta)] =>
           destruct (static_epilogue n (extend w0 delta)) as (ev & Qa & Qs & Hrun);
           exists (delta ++ ev)%list
       | |- context [bind (printNetworkSettings ?n) _ ?w'] =>
           destruct (static_epilogue n w') as (ev & Qa & Qs & Hrun);
           exists ev
       end.
  all: rewrite Hrun; unfold assigned, extend; cbn [InstanceConfig stored hypervisor trace];
    rewrite ?Hc, ?Hk, ?K, <- ?app_assoc.
  all: split; [reflexivity|].
  all: rewrite ?applyCalls_app, ?sshCommands_app, ?Qa, ?Qs; cbn; split; reflexivity.
Qed.
End NetworkFacts.

Section NetworkClaims.
Import Network NetworkSpec.
Local Open Scope proc_scope.

Lemma ConfigureDynamicAssignment_run d w :
  gate w = true ->
  exists events,
    ConfigureDynamicAssignment d w = (Ret tt, extend w events) /\
    applyCalls events = [dhcpSettings "eth0"; dhcpSettings "eth1"] /\
    sshCommands events = [command (dhcpSettings "eth0"); command (dhcpSettings "eth1")].
Proof.
  intros Hgate. unfold ConfigureDynamicAssignment.
  run (checkSupportForAddressAssignment_open w Hgate).
  repeat first
    [ rewrite bind_assoc
    | erewrite bind_ret_l by apply Println_run
    | erewrite bind_ret_l by apply WriteNetworkSettingsToHost_run ].
  rewrite Println_run, !extend_extend.
  eexists; split; [reflexivity|]. split; reflexivity.
Qed.

(** C10: [GetIP] answers with the address stored in the instance
    configuration whenever that address is not empty, and then does not
    ask the driver; only with an empty stored address does it ask the
    driver, and returns the driver's address, or the driver's error. *)
Theorem GetIP_prefers_stored_address d w :
  (minishiftConfig.IPAddress (InstanceConfig w) <> "" ->
   GetIP d w = (Ret (minishiftConfig.IPAddress (InstanceConfig w), None), w)) /\
  (minishiftConfig.IPAddress (InstanceConfig w) = "" ->
   GetIP d w
   = (Ret (match answerGetIP d (trace w) with
           | (ip, None) => (ip, None)
           | (_, Some err) => ("", Some err)
           end),
      extend w [EvGetIP])).
Proof.
  unfold GetIP, bind, getConfig. split; intros H.
  - apply String.eqb_neq in H. rewrite H. reflexivity.
  - rewrite H. cbn. destruct (answerGetIP d (trace w)) as [ip [e|]]; reflexivity.
Qed.

Lemma GetIP_prefers_stored_address_witness :
  GetIP Samples.stoppedGuest
    (Samples.freshWorld (Samples.config "192.168.99.100" true true) minishiftConfig.KVM)
  = (Ret ("192.168.99.100", None),
     Samples.freshWorld (Samples.config "192.168.99.100" true true) minishiftConfig.KVM)
  /\
  GetIP Samples.stoppedGuest
    (Samples.freshWorld (Samples.config "" true true) minishiftConfig.KVM)
  = (Ret ("", Some "Host is not running"),
     extend (Samples.freshWorld (Samples.config "" true true) minishiftConfig.KVM) [EvGetIP]).
Proof.
  split.
  - apply (proj1 (GetIP_prefers_stored_address Samples.stoppedGuest
                    (Samples.freshWorld (Samples.config "192.168.99.100" true true)
                       minishiftConfig.KVM))).
    discriminate.
  - apply (proj2 (GetIP_prefers_stored_address Samples.stoppedGuest
                    (Samples.freshWorld (Samples.config "" true true) minishiftConfig.KVM))).
    reflexivity.
Defined.

(** C7: with the capability gate closed (the guest is not RHEL based, or
    network assignment was not detected), static and dynamic assignment
    both end the process with the not-supported message in the very world
    they started in: nothing was applied, no command was sent, and the
    stored configuration is what it was. *)
Theorem gate_closed_aborts_before_any_write d w :
  gate w = false ->
  ConfigureStaticAssignment d w = (Exited 1 configureNetworkNotSupportedMessage, w) /\
  ConfigureDynamicAssignment d w = (Exited 1 configureNetworkNotSupportedMessage, w).
Proof.
  intros H. split.
  - unfold ConfigureStaticAssignment.
    now rewrite (bind_exited _ _ _ _ _ _ (checkSupportForAddressAssignment_closed w H)).
  - unfold ConfigureDynamicAssignment.
    now rewrite (bind_exited _ _ _ _ _ _ (checkSupportForAddressAssignment_closed w H)).
Qed.

Lemma gate_closed_aborts_before_any_write_witness :
  ConfigureStaticAssignment Samples.healthyGuest
    (Samples.freshWorld (Samples.config "" true false) minishiftConfig.KVM)
  = (Exited 1 "The Minishift VM does not support network assignment",
     Samples.freshWorld (Samples.config "" true false) minishiftConfig.KVM)
  /\
  ConfigureDynamicAssignment Samples.healthyGuest
    (Samples.freshWorld (Samples.config "" true false) minishiftConfig.KVM)
  = (Exited 1 "The Minishift VM does not support network assignment",
     Samples.freshWorld (Samples.config "" true false) minishiftConfig.KVM).
Proof.
  apply (gate_closed_aborts_before_any_write Samples.healthyGuest
           (Samples.freshWorld (Samples.config "" true false) minishiftConfig.KVM)).
  reflexivity.
Defined.

(** C5: the template is chosen by the priority disabled, then DHCP, then
    static: with [Disabled] set the output is the disabled schema whatever
    the other fields hold; else with [UseDHCP] set it is the dynamic
    schema; else it is the static schema, which is exactly the six lines
    for the device, the address, the netmask, the gateway and the two
    name servers. Rendering never fails and touches nothing. *)
Theorem fillNetworkSettingsScript_priority ns w :
  fillNetworkSettingsScript ns w
  = (Ret (if Disabled ns then
            "DEVICE=" ++ Device ns ++ GoStrings.LF
            ++ "DISABLED=true" ++ GoStrings.LF
          else if UseDHCP ns then
            "DEVICE=" ++ Device ns ++ GoStrings.LF
            ++ "USEDHCP=true" ++ GoStrings.LF
          else
            "DEVICE=" ++ Device ns ++ GoStrings.LF
            ++ "IPADDR=" ++ IPAddress ns ++ GoStrings.LF
            ++ "NETMASK=" ++ Netmask ns ++ GoStrings.LF
            ++ "GATEWAY=" ++ Gateway ns ++ GoStrings.LF
            ++ "DNS1=" ++ DNS1 ns ++ GoStrings.LF
            ++ "DNS2=" ++ DNS2 ns ++ GoStrings.LF),
     w).
Proof.
  destruct ns as [dev ip mask gw d1 d2 dhcp dis].
  destruct dis; [|destruct dhcp]; reflexivity.
Qed.

(** C6: with the gate open and the settings [ns] discovered, static
    assignment on KVM or VirtualBox makes exactly two apply calls, the
    discovered settings and then DHCP for [eth0]; on Hyper-V or xhyve
    exactly two as well, the discovered settings and then [eth1]
    disabled. Each call sends its one command to the guest. *)
Theorem static_assignment_two_apply_calls d w ns w1 :
  gate w = true ->
  GetNetworkSettingsForHost d (announced w) = (Ret ns, w1) ->
  exists w2,
    ConfigureStaticAssignment d w = (Ret tt, w2) /\
    (hypervisor w = minishiftConfig.KVM \/ hypervisor w = minishiftConfig.VIRTUALBOX ->
     applyCalls (trace w2)
     = (applyCalls (trace w)
        ++ [ns;
            {| Device := "eth0"; IPAddress := ""; Netmask := ""; Gateway := "";
               DNS1 := ""; DNS2 := ""; UseDHCP := true; Disabled := false |}])%list
     /\
     sshCommands (trace w2)
     = (sshCommands (trace w1)
        ++ [command ns; command (dhcpSettings "eth0")])%list) /\
    (hypervisor w = minishiftConfig.HYPERV \/ hypervisor w = minishiftConfig.XHYVE ->
     applyCalls (trace w2)
     = (applyCalls (trace w)
        ++ [ns;
            {| Device := "eth1"; IPAddress := ""; Netmask := ""; Gateway := "";
               DNS1 := ""; DNS2 := ""; UseDHCP := false; Disabled := true |}])%list
     /\
     sshCommands (trace w2)
     = (sshCommands (trace w1)
        ++ [command ns; command (disabledSettings "eth1")])%list).
Proof.
  intros Hgate Hdisc.
  destruct (ConfigureStaticAssignment_run d w ns w1 Hgate Hdisc) as (ev & Hrun & Qa & Qs).
  destruct (quiet_GetNetworkSettingsForHost d _ _ _ Hdisc) as (e0 & -> & Q0).
  eexists; split; [exact Hrun|].
  unfold assigned, announced; cbn [trace extend].
  rewrite !applyCalls_app, !sshCommands_app, Qa, Qs, Q0. cbn [applyCalls app].
  rewrite ?app_nil_r.
  split; intros [K|K]; rewrite K; split; reflexivity.
Qed.

Lemma static_assignment_two_apply_calls_witness :
  exists w2,
    ConfigureStaticAssignment Samples.healthyGuest
      (Samples.freshWorld (Samples.config "" true true) minishiftConfig.KVM)
    = (Ret tt, w2) /\
    applyCalls (trace w2) = [Samples.discovered; dhcpSettings "eth0"].
Proof.
  destruct (static_assignment_two_apply_calls Samples.healthyGuest
              (Samples.freshWorld (Samples.config "" true true) minishiftConfig.KVM)
              Samples.discovered
              (snd (GetNetworkSettingsForHost Samples.healthyGuest
                      (announced (Samples.freshWorld (Samples.config "" true true)
                                    minishiftConfig.KVM)))))
    as (w2 & Hrun & Hkvm & _).
  - reflexivity.
  - vm_compute. reflexivity.
  - exists w2. split; [exact Hrun|].
    exact (proj1 (Hkvm (or_introl eq_refl))).
Defined.

(** C9: an apply step never ends the process: it returns [false] when
    the guest reports the command as failed and [true] otherwise. The
    callers drop that result, so whatever the guest answers, dynamic
    assignment attempts both interfaces and static assignment attempts
    the discovered device and its companion. *)
Theorem failed_write_does_not_stop_sibling d w :
  (forall ns,
      exists b : bool,
        WriteNetworkSettingsToHost d ns w
        = (Ret b, extend w [EvApply ns; EvSSH (command ns);
                            EvPrint (if b then "OK" else "FAIL")]) /\
        (b = false <->
         snd (answerSSH d (trace w ++ [EvApply ns])%list (command ns)) <> None)) /\
  (gate w = true ->
   exists w2,
     ConfigureDynamicAssignment d w = (Ret tt, w2) /\
     applyCalls (trace w2)
     = (applyCalls (trace w) ++ [dhcpSettings "eth0"; dhcpSettings "eth1"])%list /\
     sshCommands (trace w2)
     = (sshCommands (trace w)
        ++ [command (dhcpSettings "eth0"); command (dhcpSettings "eth1")])%list) /\
  (forall ns w1,
      gate w = true ->
      GetNetworkSettingsForHost d (announced w) = (Ret ns, w1) ->
      exists w2,
        ConfigureStaticAssignment d w = (Ret tt, w2) /\
        applyCalls (trace w2)
        = (applyCalls (trace w) ++ applied (hypervisor w) ns)%list /\
        sshCommands (trace w2)
        = (sshCommands (trace w1) ++ map command (applied (hypervisor w) ns))%list).
Proof.
  split; [|split].
  - intros ns. exists (accepted d w ns). split.
    + apply WriteNetworkSettingsToHost_run.
    + unfold accepted.
      destruct (snd (answerSSH d (trace w ++ [EvApply ns]) (command ns)));
        split; intros H; try reflexivity; try discriminate; now contradict H.
  - intros Hgate.
    destruct (ConfigureDynamicAssignment_run d w Hgate) as (ev & Hrun & Qa & Qs).
    eexists; split; [exact Hrun|]. cbn [trace extend].
    now rewrite applyCalls_app, sshCommands_app, Qa, Qs.
  - intros ns w1 Hgate Hdisc.
    destruct (ConfigureStaticAssignment_run d w ns w1 Hgate Hdisc) as (ev & Hrun & Qa & Qs).
    destruct (quiet_GetNetworkSettingsForHost d _ _ _ Hdisc) as (e0 & -> & Q0).
    eexists; split; [exact Hrun|].
    unfold assigned, announced; cbn [trace extend].
    rewrite !applyCalls_app, !sshCommands_app, Qa, Qs, Q0. cbn [applyCalls app].
    now rewrite ?app_nil_r.
Qed.

Lemma failed_write_does_not_stop_sibling_witness :
  exists w2,
    ConfigureDynamicAssignment Samples.readOnlyGuest
      (Samples.freshWorld (Samples.config "" true true) minishiftConfig.HYPERV)
    = (Ret tt, w2) /\
    applyCalls (trace w2) = [dhcpSettings "eth0"; dhcpSettings "eth1"] /\
    sshCommands (trace w2)
    = [command (dhcpSettings "eth0"); command (dhcpSettings "eth1")].
Proof.
  apply (proj1 (proj2 (failed_write_does_not_stop_sibling Samples.readOnlyGuest
                         (Samples.freshWorld (Samples.config "" true true)
                            minishiftConfig.HYPERV)))).
  reflexivity.
Defined.

(** C1, as the code has it: on a hypervisor kind other than VirtualBox,
    KVM, Hyper-V and xhyve, with the gate open and the settings [ns]
    discovered, static assignment makes no apply call and sends no
    command after the discovery; it prints the summary, stores the
    discovered address in the configuration, flushes it and prints the
    restart notice. *)
Theorem static_assignment_other_kind_applies_nothing d w ns w1 name :
  gate w = true ->
  hypervisor w = minishiftConfig.OtherKind name ->
  GetNetworkSettingsForHost d (announced w) = (Ret ns, w1) ->
  exists w2,
    ConfigureStaticAssignment d w = (Ret tt, w2) /\
    applyCalls (trace w2) = applyCalls (trace w) /\
    sshCommands (trace w2) = sshCommands (trace w1) /\
    trace w2
    = (trace (snd (printNetworkSettings ns w1))
       ++ [EvConfigWrite; EvPrint configureRestartNeededMessage])%list /\
    minishiftConfig.IPAddress (InstanceConfig w2) = IPAddress ns /\
    stored w2 = InstanceConfig w2.
Proof.
  intros Hgate K Hdisc.
  destruct (ConfigureStaticAssignment_run d w ns w1 Hgate Hdisc) as (ev & Hrun & Qa & Qs).
  rewrite K in Qa, Qs. cbn in Qa, Qs.
  exists (assigned w (IPAddress ns) (trace w1 ++ ev)).
  split; [exact Hrun|].
  destruct (quiet_GetNetworkSettingsForHost d _ _ _ Hdisc) as (e0 & Hw1 & Q0).
  unfold assigned; cbn [trace InstanceConfig stored minishiftConfig.IPAddress
                          minishiftConfig.setIPAddress].
  rewrite applyCalls_app, sshCommands_app, Qa, Qs, !app_nil_r.
  split; [|split; [reflexivity|split; [|split; reflexivity]]].
  - subst w1. unfold announced; cbn [trace extend].
    rewrite !applyCalls_app, Q0. cbn [applyCalls app]. rewrite ?app_nil_r. reflexivity.
  - (* the events are those of the epilogue *)
    revert Hrun. unfold ConfigureStaticAssignment.
    run (checkSupportForAddressAssignment_open w Hgate).
    erewrite bind_ret_l by apply Println_run.
    fold (announced w). run Hdisc.
    assert (Hk : hypervisor w1 = minishiftConfig.OtherKind name)
      by (subst w1; exact K).
    run (twoNics_run w1). rewrite Hk. cbn [minishiftConfig.IsVirtualBox minishiftConfig.IsKVM orb].
    erewrite bind_ret_l by reflexivity.
    run (oneNic_run w1). rewrite Hk. cbn [minishiftConfig.IsHyperV minishiftConfig.IsXhyve orb].
    erewrite bind_ret_l by reflexivity.
    destruct (printNetworkSettings_run ns) as (prints & _ & _ & Hp).
    run (Hp w1). rewrite (Hp w1).
    unfold bind, getConfig, setConfig, Write, Println, emit, ret.
    intros H. apply (f_equal (fun r => trace (snd r))) in H.
    unfold assigned, extend in H; cbn [trace snd] in H.
    rewrite <- H. unfold extend; cbn [trace snd]. now rewrite <- !app_assoc.
Qed.

Lemma static_assignment_other_kind_applies_nothing_witness :
  exists w2,
    ConfigureStaticAssignment Samples.healthyGuest
      (Samples.freshWorld (Samples.config "" true true)
         (minishiftConfig.OtherKind "vmwarefusion"))
    = (Ret tt, w2) /\
    applyCalls (trace w2) = [] /\
    minishiftConfig.IPAddress (stored w2) = "192.168.99.100".
Proof.
  destruct (static_assignment_other_kind_applies_nothing Samples.healthyGuest
              (Samples.freshWorld (Samples.config "" true true)
                 (minishiftConfig.OtherKind "vmwarefusion"))
              Samples.discovered
              (snd (GetNetworkSettingsForHost Samples.healthyGuest
                      (announced (Samples.freshWorld (Samples.config "" true true)
                                    (minishiftConfig.OtherKind "vmwarefusion")))))
              "vmwarefusion")
    as (w2 & Hrun & Ha & _ & _ & Hip & Hst).
  - reflexivity.
  - reflexivity.
  - vm_compute. reflexivity.
  - exists w2. split; [exact Hrun|]. split; [exact Ha|].
    rewrite Hst. exact Hip.
Defined.

(** C1 as stated fails: on a kind other than the four, with the gate
    open and discovery successful, static assignment returns after
    making no apply call at all, where the claim has exactly one. *)
Lemma static_assignment_other_kind_counterexample :
  let w := Samples.freshWorld (Samples.config "" true true)
             (minishiftConfig.OtherKind "vmwarefusion") in
  let r := ConfigureStaticAssignment Samples.healthyGuest w in
  gate w = true /\
  fst (GetNetworkSettingsForHost Samples.healthyGuest (announced w))
  = Ret Samples.discovered /\
  fst r = Ret tt /\
  minishiftConfig.IPAddress (stored (snd r)) = "192.168.99.100" /\
  applyCalls (trace (snd r)) = [] /\
  List.length (applyCalls (trace (snd r))) <> 1.
Proof.
  vm_compute. repeat split; try reflexivity. discriminate.
Qed.
End NetworkClaims.

Section ProvisionerClaims.
Import Provisioner.
Local Open Scope proc_scope.

Lemma sshCommands_Debugf w msg :
  sshCommands (w ++ [EvDebugf msg])%list = sshCommands w.
Proof.
  induction w as [|e w IH]; [reflexivity|].
  destruct e; cbn; now rewrite IH.
Qed.

(** C8: a supplied driver is returned as it is. Without one and with
    the default [aufs], the guest is probed, and the answer is [btrfs]
    exactly when the probed type is [btrfs], and [aufs] for every other
    probed type. Without one and with another default, the default is
    returned and the guest is not probed. *)
Theorem decideStorageDriver_resolution p defaultDriver suppliedDriver w :
  (suppliedDriver <> "" ->
   decideStorageDriver p defaultDriver suppliedDriver w = (Ret (suppliedDriver, None), w)) /\
  (suppliedDriver = "" -> defaultDriver = "aufs" ->
   forall fstype w1,
     getFilesystemType p "/var/lib" w = (Ret (fstype, None), w1) ->
     (fstype = "btrfs" ->
      fst (decideStorageDriver p defaultDriver suppliedDriver w) = Ret ("btrfs", None)) /\
     (fstype <> "btrfs" ->
      fst (decideStorageDriver p defaultDriver suppliedDriver w) = Ret ("aufs", None))) /\
  (suppliedDriver = "" -> defaultDriver <> "aufs" ->
   fst (decideStorageDriver p defaultDriver suppliedDriver w) = Ret (defaultDriver, None) /\
   sshCommands (snd (decideStorageDriver p defaultDriver suppliedDriver w))
   = sshCommands w).
Proof.
  split; [|split].
  - intros H. unfold decideStorageDriver.
    apply String.eqb_neq in H. now rewrite H.
  - intros -> -> fstype w1 Hprobe.
    unfold decideStorageDriver, decideBestSuited.
    rewrite !String.eqb_refl. cbn [negb].
    rewrite bind_assoc. run Hprobe. cbv beta iota.
    split; intros H.
    + subst fstype. reflexivity.
    + apply String.eqb_neq in H. rewrite H. reflexivity.
  - intros -> H. unfold decideStorageDriver, decideBestSuited.
    rewrite String.eqb_refl.
    apply String.eqb_neq in H. rewrite H. cbn [negb].
    unfold bind, ret, Debugf, emit.
    destruct (negb (defaultDriver =? "")); cbn [fst snd]; split; try reflexivity.
    apply sshCommands_Debugf.
Qed.

Lemma decideStorageDriver_resolution_witness :
  decideStorageDriver (Samples.guestOn "btrfs") "aufs" "devicemapper" []
  = (Ret ("devicemapper", None), [])
  /\ fst (decideStorageDriver (Samples.guestOn "btrfs") "aufs" "" []) = Ret ("btrfs", None)
  /\ fst (decideStorageDriver (Samples.guestOn "ext4") "aufs" "" []) = Ret ("aufs", None)
  /\ decideStorageDriver (Samples.guestOn "btrfs") "overlay" "" []
     = (Ret ("overlay", None),
        [EvDebugf ("No storage driver specified, instead using overlay" ++ GoStrings.LF)]).
Proof.
  split; [|split; [|split]].
  - apply (proj1 (decideStorageDriver_resolution (Samples.guestOn "btrfs")
                    "aufs" "devicemapper" [])).
    discriminate.
  - apply (proj1 (proj1 (proj2 (decideStorageDriver_resolution (Samples.guestOn "btrfs")
                                  "aufs" "" []))
                    eq_refl eq_refl "btrfs"
                    (snd (getFilesystemType (Samples.guestOn "btrfs") "/var/lib" []))
                    eq_refl)).
    reflexivity.
  - apply (proj2 (proj1 (proj2 (decideStorageDriver_resolution (Samples.guestOn "ext4")
                                  "aufs" "" []))
                    eq_refl eq_refl "ext4"
                    (snd (getFilesystemType (Samples.guestOn "ext4") "/var/lib" []))
                    eq_refl)).
    discriminate.
  - reflexivity.
Defined.
End ProvisionerClaims.

(** ** Strings and paths *)

Section PathFacts.
Import GoStrings OcpSpec.

Lemma append_assoc (a b c : string) : (a ++ b) ++ c = a ++ (b ++ c).
Proof. induction a as [|x a IH]; cbn; [reflexivity|now rewrite IH]. Qed.

Lemma append_nil_r (a : string) : a ++ "" = a.
Proof. induction a as [|x a IH]; cbn; [reflexivity|now rewrite IH]. Qed.

Lemma rev_append_spec s acc : rev_append s acc = rev s ++ acc.
Proof.
  revert acc. induction s as [|c s IH]; intros acc; [reflexivity|].
  unfold rev. cbn. rewrite (IH (String c acc)), (IH (String c "")).
  now rewrite append_assoc.
Qed.

Lemma rev_append_app a b acc :
  rev_append (a ++ b) acc = rev_append b (rev_append a acc).
Proof.
  revert acc. induction a as [|c a IH]; intros acc; cbn; [reflexivity|apply IH].
Qed.

Lemma rev_app a b : rev (a ++ b) = rev b ++ rev a.
Proof. unfold rev at 1. now rewrite rev_append_app, rev_append_spec. Qed.

Lemma rev_cons c s : rev (String c s) = rev s ++ String c "".
Proof. unfold rev at 1. cbn. apply rev_append_spec. Qed.

Lemma prefix_empty s : prefix "" s = true.
Proof. now destruct s. Qed.

(** A string that ends in [f] has every suffix of [f] as a suffix. *)
Lemma HasSuffix_app pre f suffix :
  HasSuffix f suffix = true -> HasSuffix (pre ++ f) suffix = true.
Proof.
  unfold HasSuffix. rewrite rev_app.
  generalize (rev suffix) (rev f) (rev pre). clear.
  intros p. induction p as [|c p IH]; intros s t.
  { intros _. destruct s; [destruct t|]; reflexivity. }
  destruct s as [|x s]; cbn; [discriminate|].
  destruct (ascii_dec c x); [apply IH|discriminate].
Qed.

(** *** Splitting at slashes *)

Lemma noSlash_app a b : noSlash (a ++ b) = noSlash a && noSlash b.
Proof.
  induction a as [|c a IH]; cbn; [reflexivity|].
  rewrite IH. now rewrite andb_assoc.
Qed.

Lemma prefix_slash c s :
  prefix "/" (String c s) = Ascii.eqb c "/".
Proof.
  change (prefix "/" (String c s))
    with (if ascii_dec "/" c then prefix "" s else false).
  destruct (ascii_dec "/" c) as [<-|N]; [now rewrite prefix_empty|].
  symmetry. apply Ascii.eqb_neq. congruence.
Qed.

(** A piece without a slash, then a slash: the piece is split off. *)
Lemma splitFrom_piece e s cur :
  noSlash e = true ->
  splitFrom "/" 0 cur (e ++ "/" ++ s) = (rev cur ++ e) :: splitFrom "/" 0 "" s.
Proof.
  revert cur. induction e as [|c e IH]; intros cur H.
  - cbn [append]. change ("/" ++ s) with (String "/" s).
    cbn [splitFrom]. rewrite prefix_slash. cbn. now rewrite append_nil_r.
  - cbn in H. apply andb_prop in H as [Hc He].
    cbn [append splitFrom]. rewrite prefix_slash.
    apply negb_true_iff in Hc. rewrite Hc.
    rewrite (IH _ He), rev_cons, append_assoc. reflexivity.
Qed.

Lemma splitFrom_last e cur :
  noSlash e = true -> splitFrom "/" 0 cur e = [rev cur ++ e].
Proof.
  revert cur. induction e as [|c e IH]; intros cur H.
  - cbn. now rewrite append_nil_r.
  - cbn in H. apply andb_prop in H as [Hc He].
    cbn [splitFrom]. rewrite prefix_slash.
    apply negb_true_iff in Hc. rewrite Hc.
    rewrite (IH _ He), rev_cons, append_assoc. reflexivity.
Qed.

(** Splitting at slashes yields pieces without slashes. *)
Lemma splitFrom_noSlash s cur :
  noSlash cur = true -> forallb noSlash (splitFrom "/" 0 cur s) = true.
Proof.
  assert (R : forall t, noSlash t = true -> noSlash (rev t) = true).
  { induction t as [|c t IH]; [reflexivity|]. intros H. cbn [noSlash] in H.
    apply andb_prop in H as [Hc Ht].
    rewrite rev_cons, noSlash_app, (IH Ht). cbn [noSlash andb]. now rewrite Hc. }
  revert cur. induction s as [|c s IH]; intros cur H.
  - cbn. now rewrite (R _ H).
  - cbn [splitFrom]. rewrite prefix_slash.
    destruct (Ascii.eqb c "/") eqn:E.
    + cbn [String.length Nat.sub forallb]. rewrite (R _ H). now apply IH.
    + apply IH. cbn. now rewrite E.
Qed.

Lemma Split_noSlash p : forallb noSlash (Split p "/") = true.
Proof. unfold Split. now apply splitFrom_noSlash. Qed.

(** Joining with slashes and splitting again. *)
Lemma Split_Join e rest :
  forallb noSlash (e :: rest) = true ->
  Split (Join (e :: rest) "/") "/" = e :: rest.
Proof.
  unfold Split. change (match "/" with "" => _ | _ => ?x end) with x.
  revert e. induction rest as [|e2 rest IH]; intros e H.
  - cbn in H. rewrite andb_true_r in H. cbn [Join]. now rewrite splitFrom_last.
  - cbn [forallb] in H. apply andb_prop in H as [He H].
    cbn [Join]. rewrite splitFrom_piece by exact He.
    cbn [rev rev_append append]. f_equal. now apply IH.
Qed.

Lemma splitFrom_snoc f :
  noSlash f = true ->
  forall dir cur,
    splitFrom "/" 0 cur (dir ++ "/" ++ f) = (splitFrom "/" 0 cur dir ++ [f])%list.
Proof.
  intros Hf dir. induction dir as [|c dir IH]; intros cur.
  - change ("" ++ "/" ++ f) with (String "/" f).
    cbn [splitFrom]. rewrite prefix_slash.
    change (Ascii.eqb "/" "/") with true. cbn [String.length Nat.sub].
    rewrite splitFrom_last by exact Hf. reflexivity.
  - cbn [append splitFrom]. rewrite !prefix_slash.
    destruct (Ascii.eqb c "/"); cbn [String.length Nat.sub]; now rewrite IH.
Qed.

Lemma Split_snoc dir f :
  noSlash f = true ->
  Split (dir ++ "/" ++ f) "/" = (Split dir "/" ++ [f])%list.
Proof. intros Hf. unfold Split. now apply splitFrom_snoc. Qed.

(** *** Cleaning *)

Lemma plain_inv f :
  plain f = true ->
  noSlash f = true /\ (f =? "") = false /\ (f =? ".") = false /\ (f =? "..") = false.
Proof.
  unfold plain. intros H.
  apply andb_prop in H as [H H3]. apply andb_prop in H as [H H2].
  apply andb_prop in H as [H0 H1].
  apply negb_true_iff in H1, H2, H3. now repeat split.
Qed.

Lemma cleanElems_push rooted f stack rest :
  plain f = true ->
  Filepath.cleanElems rooted stack (f :: rest)
  = Filepath.cleanElems rooted (f :: stack) rest.
Proof.
  intros H. destruct (plain_inv f H) as (_ & H1 & H2 & H3).
  cbn [Filepath.cleanElems]. now rewrite H1, H2, H3.
Qed.

(** Plain elements are kept as they are. *)
Lemma cleanElems_plain rooted body stack :
  forallb plain body = true ->
  Filepath.cleanElems rooted stack body = (List.rev stack ++ body)%list.
Proof.
  revert stack. induction body as [|e body IH]; intros stack H.
  - cbn. now rewrite app_nil_r.
  - cbn [forallb] in H. apply andb_prop in H as [He H].
    rewrite cleanElems_push by exact He. rewrite (IH _ H). cbn [List.rev].
    now rewrite <- app_assoc.
Qed.

(** So are leading steps to the parent on a path that is not rooted. *)
Lemma cleanElems_ups n body stack :
  forallb (String.eqb "..") stack = true ->
  forallb plain body = true ->
  Filepath.cleanElems false stack (repeat ".." n ++ body)
  = (List.rev stack ++ repeat ".." n ++ body)%list.
Proof.
  revert stack. induction n as [|n IH]; intros stack Hs Hb.
  - now apply cleanElems_plain.
  - cbn [repeat app Filepath.cleanElems String.eqb Ascii.eqb Bool.eqb orb].
    destruct stack as [|top below].
    + rewrite (IH [".."] eq_refl Hb). reflexivity.
    + pose proof Hs as Hs'. cbn [forallb] in Hs'. apply andb_prop in Hs' as [Ht _].
      rewrite String.eqb_sym in Ht. rewrite Ht.
      rewrite (IH (".." :: top :: below)).
      * cbn [List.rev]. now rewrite <- !app_assoc.
      * cbn [forallb] in Hs |- *. now rewrite String.eqb_refl, Hs.
      * exact Hb.
Qed.

Lemma canonical_noSlash rooted elems :
  canonical rooted elems -> forallb noSlash elems = true.
Proof.
  intros (n & body & -> & Hb & _). rewrite forallb_app. apply andb_true_intro. split.
  - induction n; [reflexivity|]. cbn. exact IHn.
  - induction body as [|e body IH]; [reflexivity|].
    cbn [forallb] in *. apply andb_prop in Hb as [He Hb].
    destruct (plain_inv e He) as (-> & _). now rewrite IH.
Qed.

(** Cleaning a canonical list changes nothing. *)
Lemma cleanElems_canonical rooted elems :
  canonical rooted elems -> Filepath.cleanElems rooted [] elems = elems.
Proof.
  intros (n & body & -> & Hb & Hr). destruct rooted.
  - rewrite (Hr eq_refl). cbn [repeat app]. now rewrite cleanElems_plain.
  - now rewrite cleanElems_ups.
Qed.

Lemma repeat_snoc {A} (x : A) n : (repeat x n ++ [x])%list = x :: repeat x n.
Proof. induction n; cbn; [reflexivity|now rewrite IHn]. Qed.

(** Cleaning keeps its stack in shape: plain elements on top of steps to
    the parent. *)
Lemma cleanElems_shape rooted elems :
  forallb noSlash elems = true ->
  forall n kept,
    forallb plain kept = true ->
    (rooted = true -> n = 0) ->
    canonical rooted (Filepath.cleanElems rooted (kept ++ repeat ".." n)%list elems).
Proof.
  induction elems as [|e elems IH]; intros Hs n kept Hk Hr.
  - cbn [Filepath.cleanElems]. exists n, (List.rev kept).
    rewrite rev_app_distr, rev_repeat. split; [reflexivity|]. split; [|exact Hr].
    rewrite forallb_forall in *. intros x Hx. apply Hk. now apply in_rev.
  - cbn [forallb] in Hs. apply andb_prop in Hs as [He Hs].
    cbn [Filepath.cleanElems].
    destruct ((e =? "") || (e =? ".")) eqn:E1; [now apply IH|].
    apply orb_false_elim in E1 as [E0 E1].
    destruct (e =? "..") eqn:E2.
    + apply String.eqb_eq in E2. subst e.
      destruct kept as [|top kept].
      * cbn [app]. destruct n as [|n].
        -- cbn [repeat]. destruct rooted.
           ++ apply (IH Hs 0 []); [reflexivity|reflexivity].
           ++ apply (IH Hs 1 []); [reflexivity|discriminate].
        -- cbn [repeat]. rewrite String.eqb_refl.
           apply (IH Hs (S (S n)) []); [reflexivity|].
           intros R. specialize (Hr R). discriminate.
      * cbn [app]. cbn [forallb] in Hk. apply andb_prop in Hk as [Ht Hk].
        destruct (plain_inv top Ht) as (_ & _ & _ & ->).
        now apply IH.
    + apply (IH Hs n (e :: kept)); [|exact Hr].
      cbn [forallb]. rewrite Hk, andb_true_r. unfold plain.
      now rewrite He, E0, E1, E2.
Qed.

Lemma elements_canonical p : canonical (Filepath.isRooted p) (Filepath.elements p).
Proof.
  unfold Filepath.elements.
  apply (cleanElems_shape _ _ (Split_noSlash p) 0 []); [reflexivity|reflexivity].
Qed.

Lemma noSlash_not_rooted e rest :
  noSlash e = true -> (e =? "") = false -> Filepath.isRooted (e ++ rest) = false.
Proof.
  intros H N. destruct e as [|c e]; [discriminate|].
  cbn [noSlash] in H. apply andb_prop in H as [Hc _]. apply negb_true_iff in Hc.
  unfold Filepath.isRooted. cbn [append]. now rewrite prefix_slash.
Qed.

(** A path built from a canonical list has that list as its elements. *)
Lemma build_canonical rooted elems :
  canonical rooted elems ->
  Filepath.isRooted (Filepath.build rooted elems) = rooted /\
  Filepath.elements (Filepath.build rooted elems) = elems.
Proof.
  intros C. pose proof (canonical_noSlash _ _ C) as Hs.
  pose proof (cleanElems_canonical _ _ C) as Hc.
  destruct rooted.
  - unfold Filepath.build, Filepath.elements.
    assert (R : Filepath.isRooted ("/" ++ Join elems "/") = true).
    { unfold Filepath.isRooted.
      change ("/" ++ Join elems "/") with (String "/" (Join elems "/")).
      now rewrite prefix_slash. }
    rewrite R. split; [reflexivity|].
    destruct elems as [|e rest]; [reflexivity|].
    unfold Split. change ("/" ++ Join (e :: rest) "/") with ("" ++ "/" ++ Join (e :: rest) "/").
    rewrite splitFrom_piece by reflexivity.
    pose proof (Split_Join e rest Hs) as J. unfold Split in J. rewrite J.
    cbn [rev rev_append append Filepath.cleanElems String.eqb orb]. exact Hc.
  - destruct elems as [|e rest]; [split; reflexivity|].
    unfold Filepath.build.
    assert (R : Filepath.isRooted (Join (e :: rest) "/") = false).
    { destruct C as (n & body & E & Hb & _).
      assert (He : noSlash e = true /\ (e =? "") = false).
      { destruct n as [|n]; cbn in E.
        - destruct body as [|b body]; [discriminate|]. inversion E; subst.
          cbn [forallb] in Hb. apply andb_prop in Hb as [Hb _].
          destruct (plain_inv _ Hb) as (? & ? & _). now split.
        - inversion E; subst. now split. }
      destruct He as [He1 He2].
      destruct rest as [|e2 rest]; cbn [Join].
      - rewrite <- (append_nil_r e). now apply noSlash_not_rooted.
      - now apply noSlash_not_rooted. }
    split; [exact R|].
    unfold Filepath.elements. rewrite R, (Split_Join e rest Hs). exact Hc.
Qed.

(** Cleaning twice is cleaning once. *)
Lemma Clean_elements p :
  Filepath.isRooted (Filepath.Clean p) = Filepath.isRooted p /\
  Filepath.elements (Filepath.Clean p) = Filepath.elements p.
Proof. unfold Filepath.Clean. apply build_canonical, elements_canonical. Qed.

(** *** Joining *)

Lemma cleanElems_snoc rooted f :
  plain f = true ->
  forall elems stack,
    exists kept, Filepath.cleanElems rooted stack (elems ++ [f]) = (kept ++ [f])%list.
Proof.
  intros Hf elems.
  induction elems as [|e elems IH]; intros stack.
  - cbn [app]. rewrite cleanElems_push by exact Hf. cbn. now exists (List.rev stack).
  - cbn [app Filepath.cleanElems].
    destruct ((e =? "") || (e =? ".")); [apply IH|].
    destruct (e =? ".."); [|apply IH].
    destruct stack as [|top below]; [destruct rooted; apply IH|].
    destruct (top =? ".."); apply IH.
Qed.

(** The elements of a path joined with a plain name end in that name. *)
Lemma Join_elements dir f :
  plain f = true ->
  exists kept, Filepath.elements (Filepath.Join [dir; f]) = (kept ++ [f])%list.
Proof.
  intros Hf. destruct (plain_inv f Hf) as (Hs & H0 & _).
  unfold Filepath.Join. cbn [Filepath.dropEmpty].
  destruct (dir =? "") eqn:D.
  - rewrite H0. cbn [Join]. rewrite (proj2 (Clean_elements f)).
    unfold Filepath.elements, Split. rewrite splitFrom_last by exact Hs.
    apply (cleanElems_snoc _ f Hf [] []).
  - cbn [Join]. rewrite (proj2 (Clean_elements _)).
    unfold Filepath.elements. rewrite Split_snoc by exact Hs.
    apply (cleanElems_snoc _ f Hf).
Qed.

Lemma Join_snoc sep f elems :
  exists pre, Join (elems ++ [f]) sep = pre ++ f.
Proof.
  induction elems as [|e elems (pre & IH)].
  - now exists "".
  - cbn [app]. destruct (elems ++ [f])%list as [|x rest] eqn:E.
    + now destruct elems.
    + cbn [Join]. cbn [Join] in IH. rewrite IH.
      exists (e ++ sep ++ pre). now rewrite !append_assoc.
Qed.

Lemma build_snoc rooted kept f :
  exists pre, Filepath.build rooted (kept ++ [f]) = pre ++ f.
Proof.
  destruct (Join_snoc "/" f kept) as (pre & H).
  unfold Filepath.build. destruct rooted.
  - rewrite H. exists ("/" ++ pre). now rewrite append_assoc.
  - destruct (kept ++ [f])%list eqn:E; [now destruct kept|].
    rewrite H. now exists pre.
Qed.

(** A path joined with a plain name ends in that name. *)
Lemma Filepath_Join_ends dir f :
  plain f = true -> exists pre, Filepath.Join [dir; f] = pre ++ f.
Proof.
  intros Hf. destruct (plain_inv f Hf) as (Hs & H0 & _).
  unfold Filepath.Join. cbn [Filepath.dropEmpty].
  destruct (dir =? "") eqn:D.
  - rewrite H0. cbn [Join]. unfold Filepath.Clean, Filepath.elements, Split.
    rewrite splitFrom_last by exact Hs.
    destruct (cleanElems_snoc (Filepath.isRooted f) f Hf [] []) as (kept & E).
    cbn [app] in E. cbn [rev rev_append append]. rewrite E.
    apply build_snoc.
  - cbn [Join]. unfold Filepath.Clean, Filepath.elements.
    rewrite Split_snoc by exact Hs.
    destruct (cleanElems_snoc (Filepath.isRooted (dir ++ "/" ++ f)) f Hf
                (Split dir "/") []) as (kept & ->).
    apply build_snoc.
Qed.

(** What lies in [/out] is not within a directory whose last element is
    another plain name. *)
Lemma within_out dir f :
  plain f = true -> (f =? "out") = false -> (f =? "oc.exe") = false ->
  Filepath.within (Filepath.Join [dir; f]) "/out/oc.exe" = false.
Proof.
  intros Hf N1 N2. destruct (Join_elements dir f Hf) as (kept & E).
  unfold Filepath.within. rewrite E.
  change (Filepath.elements "/out/oc.exe") with ["out"; "oc.exe"].
  apply andb_false_iff. right.
  destruct kept as [|a [|b kept]]; cbn [app Filepath.isPrefixOf].
  - now rewrite N1.
  - rewrite N2. cbn. now rewrite andb_false_r.
  - destruct (kept ++ [f])%list eqn:K; [now destruct kept|].
    now rewrite !andb_false_r.
Qed.

(** *** Decimal numbers *)

Lemma noSlash_digit n : (n < 10)%nat -> Ascii.eqb (Strconv.digitOf n) "/" = false.
Proof.
  intros H. do 10 (destruct n as [|n]; [reflexivity|]). lia.
Qed.

Lemma noSlash_itoaFuel fuel n acc :
  noSlash acc = true -> noSlash (Strconv.itoaFuel fuel n acc) = true.
Proof.
  revert n acc. induction fuel as [|fuel IH]; intros n acc H; [exact H|].
  cbn [Strconv.itoaFuel].
  assert (D : noSlash (String (Strconv.digitOf (n mod 10)) acc) = true).
  { cbn [noSlash]. rewrite noSlash_digit, H; [reflexivity|].
    apply Nat.mod_upper_bound. discriminate. }
  destruct (n <? 10)%nat; [exact D|now apply IH].
Qed.

Lemma noSlash_Itoa n : noSlash (Strconv.Itoa n) = true.
Proof. now apply noSlash_itoaFuel. Qed.

(** The temporary directory is never [/out] or above it. *)
Lemma tempDir_outside_out env :
  Filepath.within (tempDirOf env) "/out/oc.exe" = false.
Proof.
  unfold tempDirOf. apply within_out; try reflexivity.
  unfold plain. rewrite noSlash_app, noSlash_Itoa. reflexivity.
Qed.

Lemma plain_archives : plain "oc.tar.gz" = true /\ plain "oc.zip" = true.
Proof. split; reflexivity. Qed.
End PathFacts.
(** ** The download *)

Section OcpFacts.
Import HostOS Ocp OcpSpec.
Local Open Scope proc_scope.
Variable env : Env.

Lemma requests_app a b : requests (a ++ b)%list = (requests a ++ requests b)%list.
Proof.
  induction a as [|op a IH]; cbn; [reflexivity|].
  destruct op; cbn; now rewrite ?IH.
Qed.

(** A call to the host always returns; when it returns no error, no
    fault was raised and the file system model agreed. *)
Lemma perform_run op sem w :
  exists e fs',
    perform env op sem w = (Ret e, {| fs := fs'; trace := (trace w ++ [op])%list |}) /\
    (e = None -> sem (fs w) = (fs', None)) /\
    (e <> None -> fs' = fs w \/ exists e', sem (fs w) = (fs', Some e')).
Proof.
  unfold perform. destruct (fault env (trace w) op) as [e|].
  - exists (Some e), (fs w). split; [reflexivity|]. split; [discriminate|now left].
  - destruct (sem (fs w)) as [fs' e] eqn:E. exists e, fs'.
    split; [reflexivity|]. split; [now intros ->|].
    destruct e as [e'|]; [right; now exists e'|congruence].
Qed.

(** *** Files *)

Lemma find_remove_same p fs : find p (remove p fs) = None.
Proof.
  induction fs as [|[k n] fs IH]; cbn; [reflexivity|].
  destruct (k =? p) eqn:E; cbn; [exact IH|]. now rewrite E.
Qed.

(** A path that names something other than the root or the current
    directory. *)
Lemma lookup_insert p n fs :
  (p =? "") = false ->
  (Filepath.Clean p =? "/") = false ->
  (Filepath.Clean p =? ".") = false ->
  lookup p (insert p n fs) = Some n.
Proof.
  intros H1 H2 H3. unfold lookup, insert. rewrite H1, H2, H3. cbn.
  now rewrite String.eqb_refl.
Qed.

Lemma find_filter (keep : string -> bool) p fs :
  keep p = true ->
  find p (filter (fun kn => keep (fst kn)) fs) = find p fs.
Proof.
  intros H. induction fs as [|[k n] fs IH]; cbn; [reflexivity|].
  destruct (k =? p) eqn:E.
  - apply String.eqb_eq in E. subst k. rewrite H. cbn. now rewrite String.eqb_refl.
  - destruct (keep k); cbn; [rewrite E|]; exact IH.
Qed.

(** Removing a directory leaves what is outside of it. *)
Lemma lookup_removeAll dir p fs :
  Filepath.within dir (Filepath.Clean p) = false ->
  lookup p (removeAll dir fs) = lookup p fs.
Proof.
  intros H. unfold lookup, removeAll.
  destruct (p =? ""); [reflexivity|].
  destruct ((Filepath.Clean p =? "/") || (Filepath.Clean p =? ".")); [reflexivity|].
  apply (find_filter (fun k => negb (Filepath.within dir k))). now rewrite H.
Qed.

Lemma sync_ok p fs fs' : sync p fs = (fs', None) -> fs' = fs.
Proof. unfold sync. destruct (lookup p fs); intros H; now inversion H. Qed.

Lemma write_ok dst data fs fs' :
  write dst data fs = (fs', None) ->
  exists m, fs' = insert dst (File data m) fs.
Proof.
  unfold write. destruct (lookup dst fs) as [[c m|]|]; intros H; inversion H.
  now exists m.
Qed.

Lemma copyFile_ok dst src fs fs' :
  copyFile dst src fs = (fs', None) ->
  exists data m, fs' = insert dst (File data m) fs.
Proof.
  unfold copyFile. destruct (lookup src fs) as [[data m0|]|]; intros H;
    try (now inversion H).
  destruct (write_ok _ _ _ _ H) as (m & ->). now exists data, m.
Qed.

Lemma chmod_ok p mode fs fs' data m :
  chmod p mode fs = (fs', None) ->
  lookup p fs = Some (File data m) ->
  fs' = insert p (File data mode) fs.
Proof. unfold chmod. intros H L. rewrite L in H. now inversion H. Qed.

(** *** The steps of the download *)

Ltac host_call :=
  match goal with
  | |- context [bind (perform env ?op ?sem) _ ?w] =>
      let e := fresh "e" in
      let fs' := fresh "fs'" in
      let Hrun := fresh "Hrun" in
      let Hok := fresh "Hok" in
      destruct (perform_run op sem w) as (e & fs' & Hrun & Hok & _);
      rewrite (bind_ret_l _ _ _ _ _ Hrun); clear Hrun;
      destruct e as [e|]; [clear Hok|specialize (Hok eq_refl)]
  end.

Lemma TempDir_run prefix w :
  exists r w1,
    TempDir env prefix w = (Ret r, w1) /\
    requests (trace w1) = requests (trace w) /\
    (snd r = None ->
     fst r = Filepath.Join [osTempDir env; prefix ++ Strconv.Itoa (nextSuffix env)]).
Proof.
  unfold TempDir. host_call; unfold ret; eexists; eexists;
    (split; [reflexivity|]); cbn [trace fst snd];
    rewrite requests_app; cbn [requests]; rewrite app_nil_r;
    (split; [reflexivity|]); intros H; first [discriminate|reflexivity].
Qed.

(** A download sends at most one request, to the URL it was given, and
    exactly one when it succeeds. *)
Lemma download_run url filename w :
  exists r w' sent,
    download env url filename "" "" w = (Ret r, w') /\
    requests (trace w') = (requests (trace w) ++ sent)%list /\
    (sent = [] \/ sent = [url]) /\
    (snd r = None -> sent = [url]).
Proof.
  unfold download. destruct (newRequestError env url) as [e|].
  { exists (false, Some ("Error in request: '" ++ e ++ "'")), w, [].
    rewrite app_nil_r. repeat split; try reflexivity; [now left|discriminate]. }
  cbn [String.length Nat.ltb Nat.leb].
  unfold Do at 1. unfold bind at 1.
  assert (Leaf : forall (r : bool * error) fs' ops,
             requests ops = [] ->
             exists r0 w' sent,
               (Ret r, {| fs := fs'; trace := ((trace w ++ [OpHTTPGet url None]) ++ ops)%list |})
               = (Ret r0, w') /\
               requests (trace w') = (requests (trace w) ++ sent)%list /\
               (sent = [] \/ sent = [url]) /\
               (snd r0 = None -> sent = [url])).
  { intros r fs' ops Hops. exists r, {| fs := fs'; trace := ((trace w ++ [OpHTTPGet url None]) ++ ops)%list |}, [url].
    split; [reflexivity|]. cbn [trace]. rewrite !requests_app, Hops. cbn [requests].
    rewrite app_nil_r. split; [reflexivity|]. split; [now right|reflexivity]. }
  destruct (httpDo env (trace w) url) as [[status body] [e|]].
  { unfold ret. rewrite <- (app_nil_r (trace w ++ [OpHTTPGet url None])).
    now apply Leaf. }
  destruct (negb (status =? 200)%nat).
  { unfold ret. rewrite <- (app_nil_r (trace w ++ [OpHTTPGet url None])).
    now apply Leaf. }
  unfold Create, CopyBody.
  host_call.
  { unfold ret. cbn [trace]. now apply Leaf. }
  host_call.
  { unfold ret. cbn [trace]. rewrite <- app_assoc. now apply Leaf. }
  unfold ret. cbn [trace]. rewrite <- app_assoc. now apply Leaf.
Qed.

(** *** Processes that send no request *)

Lemma offline_ret {A} (a : A) : offline (ret a).
Proof. intros w. now exists a, w. Qed.

Lemma offline_bind {A B} (m : Proc World A) (k : A -> Proc World B) :
  offline m -> (forall a, offline (k a)) -> offline (bind m k).
Proof.
  intros Hm Hk w. destruct (Hm w) as (a & w1 & E1 & R1).
  destruct (Hk a w1) as (b & w2 & E2 & R2).
  exists b, w2. rewrite (bind_ret_l _ _ _ _ _ E1). split; [exact E2|congruence].
Qed.

Lemma offline_perform op sem :
  requests [op] = [] -> offline (perform env op sem).
Proof.
  intros H w. destruct (perform_run op sem w) as (e & fs' & Hrun & _).
  eexists; eexists; split; [exact Hrun|]. cbn [trace].
  now rewrite requests_app, H, app_nil_r.
Qed.

Lemma offline_ReadDir dir : offline (ReadDir env dir).
Proof.
  intros w. unfold ReadDir.
  destruct (fault env (trace w) (OpReadDir dir)); [|destruct (isDir dir (fs w))];
    eexists; eexists; (split; [reflexivity|]); cbn [trace];
    now rewrite requests_app, app_nil_r.
Qed.

Ltac offline_step :=
  first
    [ apply offline_bind; [|intros ?]
    | apply offline_ret
    | apply offline_perform; reflexivity
    | apply offline_ReadDir
    | match goal with
      | |- offline (match ?x with _ => _ end) => destruct x
      | |- offline (let (_, _) := ?x in _) => destruct x
      end ].

Lemma offline_copy src dest : offline (copy env src dest).
Proof. unfold copy, Open, Create, Copy, Sync. repeat offline_step. Qed.

Lemma offline_unpack tmpDir assetTmpFile : offline (unpack env tmpDir assetTmpFile).
Proof.
  unfold unpack, listDirExcluding, archiveUngzip, archiveUntar, archiveUnzip.
  repeat offline_step.
Qed.

Lemma offline_install osType outputPath binaryPath :
  offline (install env osType outputPath binaryPath).
Proof.
  unfold install, MkdirAll, Chmod.
  repeat first [apply offline_copy | offline_step].
Qed.

Lemma offline_RemoveAll dir : offline (RemoveAll env dir).
Proof. unfold RemoveAll. repeat offline_step. Qed.

(** Cleaning up keeps what lies outside the directory. *)
Lemma RemoveAll_keeps dir p w :
  Filepath.within dir (Filepath.Clean p) = false ->
  lookup p (fs (snd (RemoveAll env dir w))) = lookup p (fs w).
Proof.
  intros H. unfold RemoveAll, perform.
  destruct (fault env (trace w) (OpRemoveAll dir)); cbn [snd fs]; [reflexivity|].
  now apply lookup_removeAll.
Qed.

(** A successful copy leaves a file at the destination. *)
Lemma copy_ok src dest w w' :
  (dest =? "") = false ->
  (Filepath.Clean dest =? "/") = false ->
  (Filepath.Clean dest =? ".") = false ->
  copy env src dest w = (Ret None, w') ->
  exists data m, lookup dest (fs w') = Some (File data m).
Proof.
  intros H1 H2 H3. unfold copy, Open, Create, Copy, Sync.
  host_call; [discriminate|].
  host_call; [discriminate|].
  host_call; [discriminate|].
  host_call; [discriminate|].
  intros H. inversion H; subst w'; clear H. cbn [fs].
  apply sync_ok in Hok2. subst.
  destruct (copyFile_ok _ _ _ _ Hok1) as (data & m & ->).
  exists data, m. now apply lookup_insert.
Qed.

Lemma Chmod_ok dest mode data m w w' :
  (dest =? "") = false ->
  (Filepath.Clean dest =? "/") = false ->
  (Filepath.Clean dest =? ".") = false ->
  lookup dest (fs w) = Some (File data m) ->
  Chmod env dest mode w = (Ret None, w') ->
  lookup dest (fs w') = Some (File data mode).
Proof.
  intros H1 H2 H3 L. unfold Chmod.
  destruct (perform_run (OpChmod dest mode) (chmod dest mode) w)
    as (e & fs' & Hrun & Hok & _).
  rewrite Hrun. intros H. inversion H; subst; clear H. cbn [fs].
  rewrite (chmod_ok _ _ _ _ _ _ (Hok eq_refl) L). now apply lookup_insert.
Qed.

(** When the installation into [/out] succeeds, the binary is there and
    every permission bit is set. *)
Lemma install_windows_ok binaryPath w w' :
  install env WINDOWS "/out" binaryPath w = (Ret None, w') ->
  exists data, lookup "/out/oc.exe" (fs w') = Some (File data 511).
Proof.
  unfold install.
  change (Filepath.Join ["/out"; binaryNameOf WINDOWS]) with "/out/oc.exe".
  destruct (offline_perform (OpMkdirAll "/out" 493) (mkdirAll "/out") eq_refl w)
    as (e1 & w1 & E1 & _).
  unfold MkdirAll. rewrite (bind_ret_l _ _ _ _ _ E1).
  destruct (match e1 with Some e => negb (IsExist e) | None => false end);
    [discriminate|].
  destruct (offline_copy (Filepath.Join [binaryPath; binaryNameOf WINDOWS])
              "/out/oc.exe" w1) as (e2 & w2 & E2 & _).
  rewrite (bind_ret_l _ _ _ _ _ E2).
  destruct e2 as [e2|]; [discriminate|].
  destruct (copy_ok _ "/out/oc.exe" _ _ eq_refl eq_refl eq_refl E2) as (data & m & L).
  destruct (offline_perform (OpChmod "/out/oc.exe" 511) (chmod "/out/oc.exe" 511)
              eq_refl w2) as (e3 & w3 & E3 & _).
  fold (Chmod env "/out/oc.exe" 511) in E3.
  rewrite (bind_ret_l _ _ _ _ _ E3).
  destruct e3 as [e3|]; [discriminate|].
  intros H. inversion H; subst w'; clear H.
  exists data. exact (Chmod_ok "/out/oc.exe" _ _ _ _ _ eq_refl eq_refl eq_refl L E3).
Qed.

Lemma requests_after_RemoveAll dir w :
  requests (trace (snd (RemoveAll env dir w))) = requests (trace w).
Proof.
  destruct (offline_RemoveAll dir w) as (a & w' & E & R). now rewrite E.
Qed.

(** C4: the call for version v3.7.0 on WINDOWS into [/out] sends no
    request but to the mirror's [3.7.0/windows/oc.zip] (the leading v is
    stripped, WINDOWS is passed through); when it succeeds it has sent
    exactly that request, and it leaves a file at [/out/oc.exe] with
    every permission bit set (mode 0777). *)
Theorem mirror_download_v370_windows w :
  let url := "https://mirror.openshift.com/pub/openshift-v3/clients/3.7.0/windows/oc.zip" in
  let r := DownloadOcpVersionFromMirror env "v3.7.0" WINDOWS "/out" w in
  (exists sent,
      requests (trace (snd r)) = (requests (trace w) ++ sent)%list /\
      (sent = [] \/ sent = [url])) /\
  (fst r = Ret None ->
   requests (trace (snd r)) = (requests (trace w) ++ [url])%list /\
   exists data, lookup "/out/oc.exe" (fs (snd r)) = Some (File data 511)).
Proof.
  intros url r. subst r. unfold DownloadOcpVersionFromMirror.
  change (mirrorURL "v3.7.0" WINDOWS) with url.
  change (targetFileOf WINDOWS) with "oc.zip".
  destruct (TempDir_run "minishift-asset-download-" w) as (r1 & w1 & E1 & R1 & T1).
  rewrite (bind_ret_l _ _ _ _ _ E1).
  destruct r1 as [tmpDir [e|]].
  { unfold ret; cbn [fst snd]. split; [|discriminate].
    exists []. rewrite app_nil_r. split; [exact R1|now left]. }
  specialize (T1 eq_refl). cbn [fst] in T1. fold (tempDirOf env) in T1. subst tmpDir.
  unfold defer.
  destruct (download_run url (Filepath.Join [tempDirOf env; "oc.zip"]) w1)
    as (r2 & w2 & sent & E2 & R2 & S2 & S2').
  rewrite (bind_ret_l _ _ _ _ _ E2).
  destruct r2 as [b [e|]].
  { unfold ret; cbn [fst snd]. rewrite requests_after_RemoveAll, R2, R1.
    split; [now exists sent|discriminate]. }
  specialize (S2' eq_refl). subst sent. clear S2.
  destruct (offline_unpack (tempDirOf env) (Filepath.Join [tempDirOf env; "oc.zip"]) w2)
    as (r3 & w3 & E3 & R3).
  rewrite (bind_ret_l _ _ _ _ _ E3).
  destruct r3 as [binaryPath [e|]].
  { unfold ret; cbn [fst snd]. rewrite requests_after_RemoveAll, R3, R2, R1.
    split; [exists [url]; split; [reflexivity|now right]|discriminate]. }
  destruct (offline_install WINDOWS "/out" binaryPath w3) as (e4 & w4 & E4 & R4).
  rewrite E4. cbn [fst snd]. rewrite requests_after_RemoveAll, R4, R3, R2, R1.
  split; [exists [url]; split; [reflexivity|now right]|].
  intros H. inversion H; subst e4. split; [reflexivity|].
  destruct (install_windows_ok _ _ _ E4) as (data & L).
  exists data. rewrite RemoveAll_keeps; [exact L|apply tempDir_outside_out].
Qed.

Lemma listDirExcluding_trace dir re w o w' :
  listDirExcluding env dir re w = (o, w') ->
  trace w' = (trace w ++ [OpReadDir dir])%list.
Proof.
  unfold listDirExcluding, ReadDir, bind, ret.
  destruct (fault env (trace w) (OpReadDir dir)); [|destruct (isDir dir (fs w))];
    intros H; inversion H; reflexivity.
Qed.

Lemma trace_after_RemoveAll dir w :
  trace (snd (RemoveAll env dir w)) = (trace w ++ [OpRemoveAll dir])%list.
Proof.
  unfold RemoveAll, perform.
  now destruct (fault env (trace w) (OpRemoveAll dir)).
Qed.

Lemma tar_archive_name osType :
  osType <> WINDOWS -> targetFileOf osType = "oc.tar.gz".
Proof.
  intros H. unfold targetFileOf, extensionOf.
  apply String.eqb_neq in H. now rewrite H.
Qed.

Lemma tar_archive_suffix dir :
  GoStrings.HasSuffix (Filepath.Join [dir; "oc.tar.gz"]) TAR = true.
Proof.
  destruct (Filepath_Join_ends dir "oc.tar.gz" (proj1 plain_archives)) as (pre & ->).
  now apply HasSuffix_app.
Qed.

(** C2, as the code has it: on the tar path (every platform but
    WINDOWS), when the archive has been fetched and unpacked and the
    listing of the working directory finds two or more entries that the
    exclusion pattern does not match, the call returns the
    unexpected-number error; after the listing it only removes the
    working directory, so the output directory is neither created nor
    written to. *)
Theorem tar_layout_error_no_copy version osType outputPath w w3 content w4 :
  osType <> WINDOWS ->
  extracted env version osType w = Some w3 ->
  listDirExcluding env (tempDirOf env) ".*.tar.*" w3 = (Ret (content, None), w4) ->
  2 <= List.length content ->
  let r := DownloadOcpVersionFromMirror env version osType outputPath w in
  fst r = Ret (Some ("Unexpected number of files in tmp directory: "
                     ++ GoStrings.formatStrings content)) /\
  trace (snd r)
  = (trace w3 ++ [OpReadDir (tempDirOf env); OpRemoveAll (tempDirOf env)])%list.
Proof.
  intros Hos Hex Hlist Hlen r. subst r.
  unfold extracted in Hex. unfold DownloadOcpVersionFromMirror.
  rewrite (tar_archive_name osType Hos) in *.
  destruct (TempDir_run "minishift-asset-download-" w) as (r1 & w1 & E1 & _ & T1).
  rewrite E1 in Hex. rewrite (bind_ret_l _ _ _ _ _ E1).
  destruct r1 as [tmpDir [e|]]; [discriminate|].
  specialize (T1 eq_refl). cbn [fst] in T1. fold (tempDirOf env) in T1. subst tmpDir.
  unfold defer.
  destruct (download env (mirrorURL version osType)
              (Filepath.Join [tempDirOf env; "oc.tar.gz"]) "" "" w1)
    as [[[b [e|]]|c m|m] w2] eqn:E2; try discriminate.
  rewrite (bind_ret_l _ _ _ _ _ E2).
  unfold unpack. rewrite tar_archive_suffix in *.
  destruct (archiveUngzip env (Filepath.Join [tempDirOf env; "oc.tar.gz"])
              (GoStrings.dropRight 3 (Filepath.Join [tempDirOf env; "oc.tar.gz"])) w2)
    as [[[e|]|c m|m] w2'] eqn:E3; try discriminate.
  rewrite bind_assoc, (bind_ret_l _ _ _ _ _ E3).
  destruct (archiveUntar env
              (GoStrings.dropRight 3 (Filepath.Join [tempDirOf env; "oc.tar.gz"]))
              (tempDirOf env) w2')
    as [[[e|]|c m|m] w3'] eqn:E4; try discriminate.
  inversion Hex; subst w3'; clear Hex.
  rewrite bind_assoc, (bind_ret_l _ _ _ _ _ E4).
  rewrite bind_assoc, (bind_ret_l _ _ _ _ _ Hlist).
  assert ((1 <? List.length content)%nat = true) as -> by (apply Nat.ltb_lt; lia).
  unfold bind, ret. cbn [fst snd]. split; [reflexivity|].
  rewrite trace_after_RemoveAll, (listDirExcluding_trace _ _ _ _ _ Hlist).
  now rewrite <- app_assoc.
Qed.
End OcpFacts.

Lemma mirror_download_v370_windows_witness :
  HostOS.requests
    (HostOS.trace
       (snd (Ocp.DownloadOcpVersionFromMirror (Samples.host ["oc"] ["oc.exe"])
               "v3.7.0" Ocp.WINDOWS "/out" Samples.disk)))
  = ["https://mirror.openshift.com/pub/openshift-v3/clients/3.7.0/windows/oc.zip"]
  /\
  exists data,
    HostOS.lookup "/out/oc.exe"
      (HostOS.fs
         (snd (Ocp.DownloadOcpVersionFromMirror (Samples.host ["oc"] ["oc.exe"])
                 "v3.7.0" Ocp.WINDOWS "/out" Samples.disk)))
    = Some (HostOS.File data 511).
Proof.
  destruct (proj2 (mirror_download_v370_windows (Samples.host ["oc"] ["oc.exe"]) Samples.disk))
    as (Hreq & Hfile).
  - vm_compute. reflexivity.
  - split; [exact Hreq|exact Hfile].
Defined.

Lemma tar_layout_error_no_copy_witness :
  let env := Samples.host ["oc"; "README.md"] ["oc.exe"] in
  let r := Ocp.DownloadOcpVersionFromMirror env "v3.7.0" Ocp.DARWIN "/out" Samples.disk in
  fst r = Ret (Some "Unexpected number of files in tmp directory: [README.md oc]") /\
  HostOS.copies (HostOS.trace (snd r)) = [Samples.tmpDir ++ "/oc.tar.gz"] /\
  HostOS.lookup "/out" (HostOS.fs (snd r)) = None.
Proof.
  intros env r.
  destruct (tar_layout_error_no_copy env "v3.7.0" Ocp.DARWIN "/out" Samples.disk
              (match OcpSpec.extracted env "v3.7.0" Ocp.DARWIN Samples.disk with
               | Some w3 => w3
               | None => Samples.disk
               end)
              ["README.md"; "oc"]
              (snd (Ocp.listDirExcluding env (OcpSpec.tempDirOf env) ".*.tar.*"
                      (match OcpSpec.extracted env "v3.7.0" Ocp.DARWIN Samples.disk with
                       | Some w3 => w3
                       | None => Samples.disk
                       end))))
    as (Herr & Htrace).
  - discriminate.
  - vm_compute. reflexivity.
  - vm_compute. reflexivity.
  - cbn. lia.
  - split; [exact Herr|]. fold r in Htrace. rewrite Htrace.
    vm_compute. split; reflexivity.
Defined.

(** C2 as stated fails twice. On the zip path nothing is listed:
    with two entries next to the archive the call succeeds and copies the
    binary. On the tar path an empty listing passes the check: the call
    goes on, creates the output directory and fails only when it opens the
    binary, with another error. *)
Lemma layout_check_counterexample :
  (let env := Samples.host ["oc"] ["oc.exe"; "README.md"] in
   let r := Ocp.DownloadOcpVersionFromMirror env "v3.7.0" Ocp.WINDOWS "/out" Samples.disk in
   (exists w3,
       OcpSpec.extracted env "v3.7.0" Ocp.WINDOWS Samples.disk = Some w3 /\
       HostOS.children Samples.tmpDir (HostOS.fs w3) = ["README.md"; "oc.exe"; "oc.zip"]) /\
   fst r = Ret None /\
   HostOS.copies (HostOS.trace (snd r)) = [Samples.tmpDir ++ "/oc.zip"; "/out/oc.exe"] /\
   HostOS.lookup "/out/oc.exe" (HostOS.fs (snd r)) = Some (HostOS.File "<oc.exe>" 511))
  /\
  (let env := Samples.host [] ["oc.exe"] in
   let r := Ocp.DownloadOcpVersionFromMirror env "v3.7.0" Ocp.LINUX "/out" Samples.disk in
   (exists w3,
       OcpSpec.extracted env "v3.7.0" Ocp.LINUX Samples.disk = Some w3 /\
       HostOS.children Samples.tmpDir (HostOS.fs w3) = ["oc.tar"; "oc.tar.gz"] /\
       fst (Ocp.listDirExcluding env Samples.tmpDir ".*.tar.*" w3) = Ret ([], None)) /\
   fst r = Ret (Some ("Cannot open src file: " ++ Samples.tmpDir ++ "/oc")) /\
   In (HostOS.OpMkdirAll "/out" 493) (HostOS.trace (snd r)) /\
   HostOS.lookup "/out" (HostOS.fs (snd r)) = Some HostOS.Directory).
Proof.
  split.
  - split; [eexists; split; vm_compute; reflexivity|].
    vm_compute. repeat split; reflexivity.
  - split; [eexists; split; [vm_compute; reflexivity|split; vm_compute; reflexivity]|].
    split; [vm_compute; reflexivity|]. split; [|vm_compute; reflexivity].
    vm_compute. do 7 right. now left.
Qed.

(** ** Discovery *)

Lemma bind_panicked {W A B} (m : Proc W A) (k : A -> Proc W B) w msg w' :
  m w = (Panicked msg, w') -> bind m k w = (Panicked msg, w').
Proof. intros H. unfold bind. rewrite H. reflexivity. Qed.

Section DiscoveryFacts.
Import Network NetworkSpec Discovery.
Local Open Scope proc_scope.

Ltac open_run :=
  repeat (cbv beta iota in *;
          match goal with
          | H : (_, _) = (_, _) |- _ => inversion H; subst; clear H
          | H : context [match ?x with _ => _ end] |- _ =>
              destruct x eqn:?; try discriminate
          | H : context [if ?x then _ else _] |- _ =>
              destruct x eqn:?; try discriminate
          end).

Lemma nth_error_noSlash s i x :
  nth_error (GoStrings.Split s "/") i = Some x -> OcpSpec.noSlash x = true.
Proof.
  intros H. apply nth_error_In in H.
  pose proof (Split_noSlash s) as F. rewrite forallb_forall in F. now apply F.
Qed.

(** The events of a discovery that returns. *)
Lemma discovery_questions d w ns w' :
  GetNetworkSettingsForHost d w = (Ret ns, w') ->
  exists instanceip,
    answerGetIP d (trace w) = (instanceip, None) /\
    w' = extend w (questions instanceip (Device ns)).
Proof.
  intros H.
  unfold GetNetworkSettingsForHost in H.
  cbv beta iota delta [bind driverGetIP RunSSHCommandFromDriver emit ret
                         ExitWithMessage panic index] in H.
  open_run.
  all: match goal with
       | E : answerGetIP _ _ = (?ip, None) |- _ => exists ip
       end.
  all: cbn [Device].
  all: unfold questions, extend; cbn [trace InstanceConfig stored hypervisor app];
    rewrite <- ?app_assoc; cbn [app].
  all: split; [first [assumption|reflexivity]|reflexivity].
Qed.

(** X1: a discovery that returns has asked the driver for the address,
    which was not empty, and then sent exactly its four commands, each
    answered without an error.  The settings it returns are what the guest
    answered: the device is the answer to the first command, and the
    second command asks about that device; the address and the netmask are
    the two parts of its trimmed answer around the slash; the first name
    server and the second one (empty when there is only one) come from the
    third answer, the gateway is the fourth.  The settings are static
    (neither DHCP nor disabled), and neither the address nor the netmask
    holds a slash. *)
Theorem discovery_asks_four_questions d w ns w' :
  GetNetworkSettingsForHost d w = (Ret ns, w') ->
  exists instanceip addressInfo resolveInfo,
    let t1 := (trace w ++ [EvGetIP])%list in
    let t2 := (t1 ++ [EvSSH (deviceCommand instanceip)])%list in
    let t3 := (t2 ++ [EvSSH (addressCommand (Device ns))])%list in
    let t4 := (t3 ++ [EvSSH resolveCommand])%list in
    let address := GoStrings.Split (GoStrings.TrimSpace addressInfo) "/" in
    let nameservers := GoStrings.Split (GoStrings.TrimSpace resolveInfo) " " in
    answerGetIP d (trace w) = (instanceip, None) /\
    instanceip <> "" /\
    answerSSH d t1 (deviceCommand instanceip) = (Device ns, None) /\
    answerSSH d t2 (addressCommand (Device ns)) = (addressInfo, None) /\
    answerSSH d t3 resolveCommand = (resolveInfo, None) /\
    answerSSH d t4 gatewayCommand = (Gateway ns, None) /\
    nth_error address 0 = Some (IPAddress ns) /\
    nth_error address 1 = Some (Netmask ns) /\
    nth_error nameservers 0 = Some (DNS1 ns) /\
    DNS2 ns = nth 1 nameservers "" /\
    UseDHCP ns = false /\ Disabled ns = false /\
    OcpSpec.noSlash (IPAddress ns) = true /\ OcpSpec.noSlash (Netmask ns) = true /\
    w' = extend w (questions instanceip (Device ns)).
Proof.
  intros H.
  unfold GetNetworkSettingsForHost in H.
  cbv beta iota delta [bind driverGetIP RunSSHCommandFromDriver emit ret
                         ExitWithMessage panic index] in H.
  open_run.
  all: cbn [trace extend] in *.
  all: match goal with
       | E : answerGetIP _ _ = (?ip, None),
         A : answerSSH _ ((_ ++ [EvGetIP]) ++ [_]) _ = (?info, None),
         R : answerSSH _ (((_ ++ [EvGetIP]) ++ [_]) ++ [_]) _ = (?resolve, None) |- _ =>
           exists ip, info, resolve
       end.
  all: cbv zeta; cbn [Device IPAddress Netmask Gateway DNS1 DNS2 UseDHCP Disabled].
  all: repeat match goal with
              | |- _ /\ _ => split
              end.
  all: try assumption; try reflexivity.
  all: try (apply String.eqb_neq; assumption).
  all: try (unfold questions, extend; cbn [trace InstanceConfig stored hypervisor app];
            rewrite <- ?app_assoc; reflexivity).
  all: try (eapply nth_error_noSlash; eassumption).
  all: try (symmetry; apply nth_error_nth; assumption).
  all: try (symmetry; apply nth_overflow;
            match goal with
            | L : (1 <? _)%nat = false |- _ => apply Nat.ltb_ge in L; exact L
            end).
Qed.

Lemma discovery_asks_four_questions_witness :
  exists instanceip addressInfo resolveInfo,
    answerGetIP Samples.healthyGuest [] = (instanceip, None) /\
    instanceip <> "" /\
    answerSSH Samples.healthyGuest [EvGetIP] (deviceCommand instanceip)
    = ("eth1", None) /\
    answerSSH Samples.healthyGuest [EvGetIP; EvSSH (deviceCommand instanceip)]
      (addressCommand "eth1")
    = (addressInfo, None) /\
    answerSSH Samples.healthyGuest
      [EvGetIP; EvSSH (deviceCommand instanceip); EvSSH (addressCommand "eth1")]
      resolveCommand
    = (resolveInfo, None) /\
    answerSSH Samples.healthyGuest
      [EvGetIP; EvSSH (deviceCommand instanceip); EvSSH (addressCommand "eth1");
       EvSSH resolveCommand]
      gatewayCommand
    = ("10.0.2.2", None) /\
    nth_error (GoStrings.Split (GoStrings.TrimSpace addressInfo) "/") 0
    = Some "192.168.99.100" /\
    nth_error (GoStrings.Split (GoStrings.TrimSpace addressInfo) "/") 1 = Some "24" /\
    nth_error (GoStrings.Split (GoStrings.TrimSpace resolveInfo) " ") 0
    = Some "10.0.2.3" /\
    "8.8.8.8" = nth 1 (GoStrings.Split (GoStrings.TrimSpace resolveInfo) " ") "" /\
    UseDHCP Samples.discovered = false /\ Disabled Samples.discovered = false /\
    OcpSpec.noSlash (IPAddress Samples.discovered) = true /\
    OcpSpec.noSlash (Netmask Samples.discovered) = true /\
    snd (GetNetworkSettingsForHost Samples.healthyGuest
           (Samples.freshWorld (Samples.config "" true true) minishiftConfig.KVM))
    = extend (Samples.freshWorld (Samples.config "" true true) minishiftConfig.KVM)
        (questions instanceip "eth1").
Proof.
  exact (discovery_asks_four_questions Samples.healthyGuest
           (Samples.freshWorld (Samples.config "" true true) minishiftConfig.KVM)
           Samples.discovered
           (snd (GetNetworkSettingsForHost Samples.healthyGuest
                   (Samples.freshWorld (Samples.config "" true true)
                      minishiftConfig.KVM)))
           eq_refl).
Defined.

(** X2: without an address discovery ends the process before any command
    is sent: with the driver's error in the message when the driver fails,
    with [No address available] when the driver returns an empty address. *)
Theorem discovery_without_address d w :
  (forall ip e,
      answerGetIP d (trace w) = (ip, Some e) ->
      GetNetworkSettingsForHost d w
      = (Exited 1 ("Error getting IP address: " ++ e), extend w [EvGetIP])) /\
  (answerGetIP d (trace w) = ("", None) ->
   GetNetworkSettingsForHost d w
   = (Exited 1 "Error getting IP address: No address available", extend w [EvGetIP])).
Proof.
  split.
  - intros ip e H. unfold GetNetworkSettingsForHost.
    cbv beta iota delta [bind driverGetIP emit ret ExitWithMessage].
    rewrite H. reflexivity.
  - intros H. unfold GetNetworkSettingsForHost.
    cbv beta iota delta [bind driverGetIP emit ret ExitWithMessage].
    rewrite H. reflexivity.
Qed.

Lemma discovery_without_address_witness :
  GetNetworkSettingsForHost Samples.stoppedGuest
    (Samples.freshWorld (Samples.config "" true true) minishiftConfig.KVM)
  = (Exited 1 "Error getting IP address: Host is not running",
     extend (Samples.freshWorld (Samples.config "" true true) minishiftConfig.KVM)
       [EvGetIP]).
Proof.
  apply (proj1 (discovery_without_address Samples.stoppedGuest
                  (Samples.freshWorld (Samples.config "" true true) minishiftConfig.KVM))
           "" "Host is not running").
  reflexivity.
Defined.

Lemma Split_whole s : OcpSpec.noSlash s = true -> GoStrings.Split s "/" = [s].
Proof. intros H. unfold GoStrings.Split. now rewrite splitFrom_last. Qed.

(** X3: when the guest reports no address for the device in CIDR form
    (the answer, trimmed, holds no slash: for one, it is empty), discovery
    does not report an error: it panics on the missing netmask, with the
    runtime's message for index 1 of a slice of length 1, after two
    commands. *)
Theorem discovery_panics_without_netmask d w ip device info :
  answerGetIP d (trace w) = (ip, None) ->
  ip <> "" ->
  answerSSH d (trace w ++ [EvGetIP])%list (deviceCommand ip) = (device, None) ->
  answerSSH d (trace w ++ [EvGetIP; EvSSH (deviceCommand ip)])%list (addressCommand device)
  = (info, None) ->
  OcpSpec.noSlash (GoStrings.TrimSpace info) = true ->
  GetNetworkSettingsForHost d w
  = (Panicked "runtime error: index out of range [1] with length 1",
     extend w [EvGetIP; EvSSH (deviceCommand ip); EvSSH (addressCommand device)]).
Proof.
  intros Hip Hne Hdev Hinfo Hslash.
  apply String.eqb_neq in Hne.
  unfold GetNetworkSettingsForHost.
  cbv beta iota delta [bind driverGetIP RunSSHCommandFromDriver emit ret
                         ExitWithMessage panic index].
  rewrite Hip. cbv beta iota. rewrite Hne. cbv beta iota.
  cbn [trace extend]. fold (deviceCommand ip). rewrite Hdev. cbv beta iota.
  cbn [trace extend]. rewrite <- app_assoc. cbn [app].
  fold (addressCommand device). rewrite Hinfo. cbv beta iota.
  rewrite (Split_whole _ Hslash). cbn [nth_error].
  unfold extend; cbn [trace InstanceConfig stored hypervisor].
  rewrite <- !app_assoc. reflexivity.
Qed.

Lemma discovery_panics_without_netmask_witness :
  GetNetworkSettingsForHost
    (statelessGuest ("192.168.99.100", None)
       (fun cmd => if prefix "ip a " cmd then ("eth1", None) else ("", None)))
    (Samples.freshWorld (Samples.config "" true true) minishiftConfig.KVM)
  = (Panicked "runtime error: index out of range [1] with length 1",
     extend (Samples.freshWorld (Samples.config "" true true) minishiftConfig.KVM)
       [EvGetIP; EvSSH (deviceCommand "192.168.99.100"); EvSSH (addressCommand "eth1")]).
Proof.
  apply (discovery_panics_without_netmask _ _ "192.168.99.100" "eth1" "");
    try reflexivity.
  discriminate.
Defined.

(** X4: when discovery does not return, static assignment ends the same
    way at the same point: nothing is applied, and the configuration, in
    memory and stored, is what it was. *)
Theorem static_assignment_stops_with_discovery d w o w1 :
  gate w = true ->
  GetNetworkSettingsForHost d (announced w) = (o, w1) ->
  stopped o = true ->
  exists o',
    ConfigureStaticAssignment d w = (o', w1) /\
    sameStop o o' /\
    applyCalls (trace w1) = applyCalls (trace w) /\
    InstanceConfig w1 = InstanceConfig w /\
    stored w1 = stored w.
Proof.
  intros Hgate Hdisc Hstop.
  destruct (quiet_GetNetworkSettingsForHost d _ _ _ Hdisc) as (e0 & Hw1 & Q0).
  unfold ConfigureStaticAssignment.
  run (checkSupportForAddressAssignment_open w Hgate).
  erewrite bind_ret_l by apply Println_run.
  fold (announced w).
  destruct o as [ns|c msg|msg];
    [discriminate
    |rewrite (bind_exited _ _ _ _ _ _ Hdisc)
    |rewrite (bind_panicked _ _ _ _ _ Hdisc)];
    eexists; (split; [reflexivity|]); (split; [cbn; auto|]);
    subst w1; unfold announced; cbn [trace extend InstanceConfig stored];
    rewrite !applyCalls_app, Q0; cbn [applyCalls app]; rewrite !app_nil_r; auto.
Qed.

Lemma static_assignment_stops_with_discovery_witness :
  exists o',
    ConfigureStaticAssignment Samples.stoppedGuest
      (Samples.freshWorld (Samples.config "" true true) minishiftConfig.KVM)
    = (o', extend (announced (Samples.freshWorld (Samples.config "" true true)
                                minishiftConfig.KVM)) [EvGetIP]) /\
    sameStop (@Exited NetworkSettings 1 "Error getting IP address: Host is not running") o'.
Proof.
  destruct (static_assignment_stops_with_discovery Samples.stoppedGuest
              (Samples.freshWorld (Samples.config "" true true) minishiftConfig.KVM)
              (Exited 1 "Error getting IP address: Host is not running")
              (extend (announced (Samples.freshWorld (Samples.config "" true true)
                                    minishiftConfig.KVM)) [EvGetIP]))
    as (o' & Hrun & Hsame & _); try reflexivity.
  exists o'. now split.
Defined.
End DiscoveryFacts.

(** ** Assignment and the stored address *)

Section AddressFacts.
Import Network NetworkSpec Discovery.
Local Open Scope proc_scope.

(** X5: once static assignment has returned, [GetIP] answers the
    discovered address from the configuration, for whatever driver and
    without asking it, provided that address is not empty. *)
Theorem GetIP_after_static_assignment d w ns w1 :
  gate w = true ->
  GetNetworkSettingsForHost d (announced w) = (Ret ns, w1) ->
  IPAddress ns <> "" ->
  exists w2,
    ConfigureStaticAssignment d w = (Ret tt, w2) /\
    forall d', GetIP d' w2 = (Ret (IPAddress ns, None), w2).
Proof.
  intros Hgate Hdisc Hip.
  destruct (ConfigureStaticAssignment_run d w ns w1 Hgate Hdisc) as (ev & Hrun & _).
  eexists; split; [exact Hrun|]. intros d'.
  unfold GetIP, bind, getConfig, assigned. cbn.
  apply String.eqb_neq in Hip. now rewrite Hip.
Qed.

Lemma GetIP_after_static_assignment_witness :
  exists w2,
    ConfigureStaticAssignment Samples.healthyGuest
      (Samples.freshWorld (Samples.config "" true true) minishiftConfig.XHYVE)
    = (Ret tt, w2) /\
    GetIP Samples.stoppedGuest w2 = (Ret ("192.168.99.100", None), w2).
Proof.
  destruct (GetIP_after_static_assignment Samples.healthyGuest
              (Samples.freshWorld (Samples.config "" true true) minishiftConfig.XHYVE)
              Samples.discovered
              (snd (GetNetworkSettingsForHost Samples.healthyGuest
                      (announced (Samples.freshWorld (Samples.config "" true true)
                                    minishiftConfig.XHYVE)))))
    as (w2 & Hrun & Hget).
  - reflexivity.
  - vm_compute. reflexivity.
  - discriminate.
  - exists w2. split; [exact Hrun|apply Hget].
Defined.

(** X6: dynamic assignment leaves the configuration alone, in memory and
    stored: an address stored by an earlier static assignment stays, and
    [GetIP] goes on answering it without asking the driver. *)
Theorem dynamic_assignment_keeps_stored_address d w :
  gate w = true ->
  exists w2,
    ConfigureDynamicAssignment d w = (Ret tt, w2) /\
    InstanceConfig w2 = InstanceConfig w /\
    stored w2 = stored w /\
    (minishiftConfig.IPAddress (InstanceConfig w) <> "" ->
     forall d',
       GetIP d' w2 = (Ret (minishiftConfig.IPAddress (InstanceConfig w), None), w2)).
Proof.
  intros Hgate.
  destruct (ConfigureDynamicAssignment_run d w Hgate) as (ev & Hrun & _).
  eexists; split; [exact Hrun|]. cbn [InstanceConfig stored extend].
  split; [reflexivity|split; [reflexivity|]].
  intros Hip d'. unfold GetIP, bind, getConfig. cbn [InstanceConfig extend].
  apply String.eqb_neq in Hip. now rewrite Hip.
Qed.

Lemma dynamic_assignment_keeps_stored_address_witness :
  exists w2,
    ConfigureDynamicAssignment Samples.healthyGuest
      (Samples.freshWorld (Samples.config "192.168.99.100" true true) minishiftConfig.KVM)
    = (Ret tt, w2) /\
    GetIP Samples.stoppedGuest w2 = (Ret ("192.168.99.100", None), w2).
Proof.
  destruct (dynamic_assignment_keeps_stored_address Samples.healthyGuest
              (Samples.freshWorld (Samples.config "192.168.99.100" true true)
                 minishiftConfig.KVM))
    as (w2 & Hrun & _ & _ & Hget).
  - reflexivity.
  - exists w2. split; [exact Hrun|]. apply Hget. discriminate.
Defined.

Lemma worldBlind_ret {A} (a : A) : worldBlind (ret a).
Proof. now intros w w'. Qed.

Lemma worldBlind_ExitWithMessage {A} c msg : worldBlind (@ExitWithMessage World A c msg).
Proof. now intros w w'. Qed.

Lemma worldBlind_panic {A} msg : worldBlind (@panic World A msg).
Proof. now intros w w'. Qed.

Lemma worldBlind_bind {A B} (m : Proc World A) (k : A -> Proc World B) :
  worldBlind m -> (forall a, worldBlind (k a)) -> worldBlind (bind m k).
Proof.
  intros Hm Hk w w'. specialize (Hm w w'). unfold bind.
  destruct (m w) as [o w1], (m w') as [o' w1']. cbn [fst] in Hm. subst o'.
  destruct o; [apply Hk|reflexivity|reflexivity].
Qed.

Lemma worldBlind_index l i : worldBlind (index l i).
Proof.
  unfold index. destruct (nth_error l i); [apply worldBlind_ret|apply worldBlind_panic].
Qed.

Lemma worldBlind_driverGetIP ip ssh : worldBlind (driverGetIP (statelessGuest ip ssh)).
Proof. now intros w w'. Qed.

Lemma worldBlind_RunSSHCommandFromDriver ip ssh cmd :
  worldBlind (RunSSHCommandFromDriver (statelessGuest ip ssh) cmd).
Proof. now intros w w'. Qed.

Ltac worldBlind_step :=
  first
    [ apply worldBlind_bind; [|intros ?]
    | apply worldBlind_ret
    | apply worldBlind_ExitWithMessage
    | apply worldBlind_panic
    | apply worldBlind_driverGetIP
    | apply worldBlind_RunSSHCommandFromDriver
    | apply worldBlind_index
    | match goal with
      | |- worldBlind (match ?x with _ => _ end) => destruct x
      | |- worldBlind (let (_, _) := ?x in _) => destruct x
      end ].

(** What a guest that answers the same every time is asked, and what it
    answers, do not depend on the world. *)
Lemma stateless_discovery ip ssh :
  worldBlind (GetNetworkSettingsForHost (statelessGuest ip ssh)).
Proof. unfold GetNetworkSettingsForHost. repeat worldBlind_step. Qed.

(** X7: on a guest that answers the same every time, static assignment
    can be applied again: the second run sends the same commands as the
    first and leaves the configuration, in memory and stored, as the first
    run left it. *)
Theorem static_assignment_twice ip ssh w ns w1 :
  gate w = true ->
  GetNetworkSettingsForHost (statelessGuest ip ssh) (announced w) = (Ret ns, w1) ->
  exists w2 w3 commands,
    ConfigureStaticAssignment (statelessGuest ip ssh) w = (Ret tt, w2) /\
    ConfigureStaticAssignment (statelessGuest ip ssh) w2 = (Ret tt, w3) /\
    sshCommands (trace w2) = (sshCommands (trace w) ++ commands)%list /\
    sshCommands (trace w3) = (sshCommands (trace w2) ++ commands)%list /\
    InstanceConfig w3 = InstanceConfig w2 /\
    stored w3 = stored w2.
Proof.
  intros Hgate Hdisc.
  set (d := statelessGuest ip ssh) in *.
  destruct (ConfigureStaticAssignment_run d w ns w1 Hgate Hdisc) as (ev & Hrun & _ & Qs).
  destruct (discovery_questions d _ _ _ Hdisc) as (ip0 & Hip0 & Hw1).
  set (w2 := assigned w (IPAddress ns) (trace w1 ++ ev)) in *.
  assert (Hgate2 : gate w2 = true) by exact Hgate.
  destruct (GetNetworkSettingsForHost d (announced w2)) as [o w1'] eqn:Hdisc2.
  pose proof (stateless_discovery ip ssh (announced w) (announced w2)) as Hsame.
  fold d in Hsame. rewrite Hdisc, Hdisc2 in Hsame. cbn [fst] in Hsame. subst o.
  destruct (ConfigureStaticAssignment_run d w2 ns w1' Hgate2 Hdisc2) as (ev' & Hrun' & _ & Qs').
  destruct (discovery_questions d _ _ _ Hdisc2) as (ip0' & Hip0' & Hw1').
  assert (ip0' = ip0) by (cbn in Hip0, Hip0'; congruence). subst ip0'.
  exists w2, (assigned w2 (IPAddress ns) (trace w1' ++ ev')),
    (sshCommands (questions ip0 (Device ns)) ++ map command (applied (hypervisor w) ns))%list.
  split; [exact Hrun|]. split; [exact Hrun'|].
  subst w1 w1'. unfold w2, assigned, announced. cbn [trace extend hypervisor InstanceConfig stored].
  rewrite !sshCommands_app, Qs, Qs'. cbn [hypervisor].
  cbn [sshCommands app]. rewrite <- !app_assoc. cbn [app].
  repeat split; reflexivity.
Qed.

Lemma static_assignment_twice_witness :
  exists w2 w3,
    ConfigureStaticAssignment
      (statelessGuest ("192.168.99.100", None) (Network.answerSSH Samples.healthyGuest []))
      (Samples.freshWorld (Samples.config "" true true) minishiftConfig.KVM)
    = (Ret tt, w2) /\
    ConfigureStaticAssignment
      (statelessGuest ("192.168.99.100", None) (Network.answerSSH Samples.healthyGuest []))
      w2
    = (Ret tt, w3) /\
    stored w3 = stored w2.
Proof.
  destruct (static_assignment_twice ("192.168.99.100", None)
              (Network.answerSSH Samples.healthyGuest [])
              (Samples.freshWorld (Samples.config "" true true) minishiftConfig.KVM)
              Samples.discovered
              (snd (GetNetworkSettingsForHost
                      (statelessGuest ("192.168.99.100", None)
                         (Network.answerSSH Samples.healthyGuest []))
                      (announced (Samples.freshWorld (Samples.config "" true true)
                                    minishiftConfig.KVM)))))
    as (w2 & w3 & cmds & H1 & H2 & _ & _ & _ & H3).
  - reflexivity.
  - vm_compute. reflexivity.
  - exists w2, w3. repeat split; assumption.
Defined.
End AddressFacts.

(** ** The [ip] command *)

Section CmdFacts.
Import Network NetworkSpec Cmd.
Local Open Scope proc_scope.

Lemma GetIP_run d w :
  (minishiftConfig.IPAddress (InstanceConfig w) <> "" ->
   GetIP d w = (Ret (minishiftConfig.IPAddress (InstanceConfig w), None), w)) /\
  (minishiftConfig.IPAddress (InstanceConfig w) = "" ->
   GetIP d w
   = (Ret (match answerGetIP d (trace w) with
           | (ip, None) => (ip, None)
           | (_, Some err) => ("", Some err)
           end),
      extend w [EvGetIP])).
Proof.
  unfold GetIP, bind, getConfig. split; intros H.
  - apply String.eqb_neq in H. rewrite H. reflexivity.
  - rewrite H. cbn. destruct (answerGetIP d (trace w)) as [ip [e|]]; reflexivity.
Qed.

Lemma liftNet_api {A} (m : Proc Network.World A) w :
  api (snd (liftNet m w)) = api w.
Proof. unfold liftNet. now destruct (m (net w)). Qed.

(** X8: the calls of the [ip] command to the machine client, on every
    path.  With both [--static] and [--dhcp] the command ends the process
    with [Invalid options specified] at once, in the world it started in.
    Otherwise it loads the machine once; the deferred [Close] is the last
    call when the command returns or panics, and is never made when the
    process exits, whether on a failed load, on a refused assignment or on
    a failed discovery. *)
Theorem ip_client_calls name configureAsStatic configureAsDynamic client w :
  let r := Run name configureAsStatic configureAsDynamic client w in
  if configureAsStatic && configureAsDynamic
  then r = (Exited 1 "Invalid options specified", w)
  else api (snd r)
       = (api w ++ Load name :: match fst r with
                                | Exited _ _ => []
                                | _ => [Close]
                                end)%list.
Proof.
  cbv zeta. destruct (configureAsStatic && configureAsDynamic) eqn:Hflags.
  { unfold Run, deferred. rewrite Hflags. now destruct w. }
  unfold Run, deferred. rewrite Hflags. unfold apiLoad.
  cbv beta iota delta [bind ret apiCall ExitWithMessage].
  destruct (answerLoad client name) as [host [e|]]; [reflexivity|].
  cbv beta iota. cbn [net api].
  assert (Lift : forall (m : Proc Network.World unit) w0,
             api w0 = (api w ++ [Load name])%list ->
             api (snd (match liftNet m w0 with
                       | (Exited code msg, w') => (@Exited unit code msg, w')
                       | (o, w') => (o, {| net := net w'; api := (api w' ++ [Close])%list |})
                       end))
             = (api w ++ Load name ::
                  match fst (match liftNet m w0 with
                             | (Exited code msg, w') => (@Exited unit code msg, w')
                             | (o, w') =>
                                 (o, {| net := net w'; api := (api w' ++ [Close])%list |})
                             end) with
                  | Exited _ _ => []
                  | _ => [Close]
                  end)%list).
  { intros m w0 H0. pose proof (liftNet_api m w0) as K.
    destruct (liftNet m w0) as [[u|c msg|msg] w1]; cbn [fst snd api] in *;
      rewrite K, H0, <- ?app_assoc; reflexivity. }
  destruct configureAsDynamic; [now apply Lift|].
  destruct configureAsStatic; [now apply Lift|].
  unfold liftNet. cbn [net api].
  destruct (GetIP host (net w)) as [[[ip [e|]]|c msg|msg] n]; cbn [net api fst snd];
    rewrite ?Println_run; cbn [net api fst snd];
    rewrite <- ?app_assoc; reflexivity.
Qed.

(** X9: when the machine cannot be loaded, the command ends the process
    with the loader's error, for every choice of flags but both: nothing
    is asked of a guest and nothing is printed. *)
Theorem ip_needs_the_machine name configureAsStatic configureAsDynamic client w host e :
  configureAsStatic && configureAsDynamic = false ->
  answerLoad client name = (host, Some e) ->
  Run name configureAsStatic configureAsDynamic client w
  = (Exited 1 ("Error getting IP: " ++ e),
     {| net := net w; api := (api w ++ [Load name])%list |}).
Proof.
  intros Hflags Hload. unfold Run, deferred.
  rewrite Hflags. unfold apiLoad.
  cbv beta iota delta [bind ret apiCall ExitWithMessage].
  rewrite Hload. reflexivity.
Qed.

Lemma ip_needs_the_machine_witness :
  Run "minishift" true false
    {| answerLoad := fun _ => (Samples.stoppedGuest, Some "machine does not exist") |}
    {| net := Samples.freshWorld (Samples.config "" true true) minishiftConfig.KVM;
       api := [] |}
  = (Exited 1 "Error getting IP: machine does not exist",
     {| net := Samples.freshWorld (Samples.config "" true true) minishiftConfig.KVM;
        api := [Load "minishift"] |}).
Proof.
  exact (ip_needs_the_machine "minishift" true false
           {| answerLoad := fun _ => (Samples.stoppedGuest, Some "machine does not exist") |}
           {| net := Samples.freshWorld (Samples.config "" true true) minishiftConfig.KVM;
              api := [] |}
           Samples.stoppedGuest "machine does not exist" eq_refl eq_refl).
Defined.

(** X10: without a flag the command only reads: it prints the address
    [GetIP] answers as its one line of output and returns, having closed
    the client; nothing is applied, no command is sent to the guest and
    the configuration is what it was. With a stored address the driver is
    not even asked. *)
Theorem ip_without_flags_only_prints name client w host :
  answerLoad client name = (host, None) ->
  forall ip n1,
    GetIP host (net w) = (Ret (ip, None), n1) ->
    Run name false false client w
    = (Ret tt, {| net := extend n1 [EvPrint ip];
                  api := (api w ++ [Load name; Close])%list |}) /\
    applyCalls (trace n1) = applyCalls (trace (net w)) /\
    sshCommands (trace n1) = sshCommands (trace (net w)) /\
    InstanceConfig n1 = InstanceConfig (net w) /\
    stored n1 = stored (net w) /\
    (minishiftConfig.IPAddress (InstanceConfig (net w)) <> "" ->
     n1 = net w /\ ip = minishiftConfig.IPAddress (InstanceConfig (net w))).
Proof.
  intros Hload ip n1 Hget. split.
  - unfold Run, deferred. cbn [andb]. unfold apiLoad.
    cbv beta iota delta [bind ret apiCall ExitWithMessage liftNet].
    rewrite Hload. cbv beta iota. cbn [net api].
    rewrite Hget. cbv beta iota. cbn [net api snd].
    rewrite Println_run. cbn [net api snd]. now rewrite <- app_assoc.
  - destruct (GetIP_run host (net w)) as [Hstored Hasked].
    destruct (minishiftConfig.IPAddress (InstanceConfig (net w)) =? "") eqn:E.
    + apply String.eqb_eq in E. rewrite (Hasked E) in Hget.
      inversion Hget; subst. cbn [trace extend InstanceConfig stored].
      rewrite applyCalls_app, sshCommands_app. cbn [applyCalls sshCommands].
      rewrite !app_nil_r.
      do 4 (split; [reflexivity|]). intros N. now contradict N.
    + apply String.eqb_neq in E. rewrite (Hstored E) in Hget.
      inversion Hget; subst.
      do 4 (split; [reflexivity|]). intros _. now split.
Qed.
Lemma ip_without_flags_only_prints_witness :
  let client := {| answerLoad := fun _ => (Samples.stoppedGuest, None) |} in
  let w := {| net := Samples.freshWorld (Samples.config "192.168.99.100" true true)
                       minishiftConfig.KVM;
              api := [] |} in
  Run "minishift" false false client w
  = (Ret tt, {| net := extend (net w) [EvPrint "192.168.99.100"];
                api := [Load "minishift"; Close] |}) /\
  applyCalls (trace (net w)) = applyCalls (trace (net w)) /\
  sshCommands (trace (net w)) = sshCommands (trace (net w)) /\
  InstanceConfig (net w) = InstanceConfig (net w) /\
  stored (net w) = stored (net w) /\
  (minishiftConfig.IPAddress (InstanceConfig (net w)) <> "" ->
   net w = net w /\
   "192.168.99.100" = minishiftConfig.IPAddress (InstanceConfig (net w))).
Proof.
  exact (ip_without_flags_only_prints "minishift"
           {| answerLoad := fun _ => (Samples.stoppedGuest, None) |}
           {| net := Samples.freshWorld (Samples.config "192.168.99.100" true true)
                       minishiftConfig.KVM;
              api := [] |}
           Samples.stoppedGuest eq_refl "192.168.99.100"
           (Samples.freshWorld (Samples.config "192.168.99.100" true true)
              minishiftConfig.KVM)
           eq_refl).
Defined.
End CmdFacts.

(** ** More of the provisioner *)

Section ProvisioningFacts.
Import Provisioner Provisioning.
Local Open Scope proc_scope.

(** X11: when the probe of the guest's file system fails, no driver is
    chosen: [decideStorageDriver] returns the empty string with the error
    under [Error looking up file system type], has sent the one [stat]
    command for [/var/lib] and logs nothing. *)
Theorem decideStorageDriver_probe_failure p w out e :
  answerSSHCommand p w "stat -f -c %T /var/lib" = (out, Some e) ->
  decideStorageDriver p "aufs" "" w
  = (Ret ("", Some ("Error looking up file system type: " ++ e)),
     (w ++ [EvSSHCommand "stat -f -c %T /var/lib"])%list).
Proof.
  intros H. unfold decideStorageDriver, decideBestSuited, getFilesystemType.
  cbv beta iota delta [bind ret SSHCommand emit Debugf].
  cbn [String.eqb Ascii.eqb Bool.eqb negb append].
  rewrite H. reflexivity.
Qed.

Lemma decideStorageDriver_probe_failure_witness :
  decideStorageDriver
    {| answerSSHCommand := fun _ _ => ("", Some "exit status 255") |} "aufs" "" []
  = (Ret ("", Some "Error looking up file system type: exit status 255"),
     [EvSSHCommand "stat -f -c %T /var/lib"]).
Proof.
  exact (decideStorageDriver_probe_failure
           {| answerSSHCommand := fun _ _ => ("", Some "exit status 255") |}
           [] "" "exit status 255" eq_refl).
Defined.

Lemma debugLines_app a b :
  debugLines (a ++ b)%list = (debugLines a ++ debugLines b)%list.
Proof.
  induction a as [|e a IH]; [reflexivity|].
  destruct e; cbn; now rewrite IH.
Qed.

Lemma provisioner_sshCommands_app a b :
  sshCommands (a ++ b)%list = (sshCommands a ++ sshCommands b)%list.
Proof.
  induction a as [|e a IH]; [reflexivity|].
  destruct e; cbn; now rewrite IH.
Qed.

(** X12: [decideStorageDriver] always returns.  It sends the guest at
    most one command, the [stat] of [/var/lib], and only when no driver
    was supplied and the default is [aufs]; it logs one line naming the
    driver exactly when no driver was supplied and the driver it settled
    on is not empty, so never for a supplied driver and never when the
    probe failed; and the driver is empty whenever an error is returned. *)
Theorem decideStorageDriver_traffic p defaultDriver suppliedDriver w :
  exists driver err w',
    decideStorageDriver p defaultDriver suppliedDriver w = (Ret (driver, err), w') /\
    sshCommands w'
    = (sshCommands w ++
       (if (suppliedDriver =? "") && (defaultDriver =? "aufs")
        then ["stat -f -c %T /var/lib"] else []))%list /\
    debugLines w'
    = (debugLines w ++
       (if (suppliedDriver =? "") && negb (driver =? "")
        then [("No storage driver specified, instead using " ++ driver ++ GoStrings.LF)%string]
        else []))%list /\
    (err <> None -> driver = "").
Proof.
  unfold decideStorageDriver, decideBestSuited, getFilesystemType.
  cbv beta iota delta [bind ret SSHCommand emit Debugf].
  destruct (suppliedDriver =? "") eqn:Hs; cbn [negb andb].
  2:{ exists suppliedDriver, None, w. rewrite !app_nil_r.
      repeat split; congruence. }
  destruct (defaultDriver =? "aufs") eqn:Hd; cbn [negb].
  - change ("stat -f -c %T " ++ "/var/lib") with "stat -f -c %T /var/lib".
    destruct (answerSSHCommand p w "stat -f -c %T /var/lib") as [out [e|]] eqn:Ha;
      cbv beta iota.
    + rewrite String.eqb_refl. cbn [negb].
      eexists _, _, _. split; [reflexivity|].
      rewrite provisioner_sshCommands_app, debugLines_app. cbn.
      repeat split; reflexivity.
    + destruct (GoStrings.TrimSpace out =? "btrfs");
        (eexists _, _, _; split; [reflexivity|]);
        rewrite !provisioner_sshCommands_app, !debugLines_app; cbn;
        rewrite ?app_nil_r; repeat split; congruence.
  - destruct (defaultDriver =? "") eqn:He; cbn [negb];
      (eexists _, _, _; split; [reflexivity|]);
      rewrite ?provisioner_sshCommands_app, ?debugLines_app, ?He; cbn;
      rewrite ?app_nil_r; repeat split; congruence.
Qed.

(** *** Remote certificate paths *)

Lemma cleanElems_snoc_eq rooted f :
  OcpSpec.plain f = true ->
  forall elems stack,
    Filepath.cleanElems rooted stack (elems ++ [f])
    = (Filepath.cleanElems rooted stack elems ++ [f])%list.
Proof.
  intros Hf elems.
  induction elems as [|e elems IH]; intros stack.
  - cbn [app]. rewrite cleanElems_push by exact Hf. reflexivity.
  - cbn [app Filepath.cleanElems].
    destruct ((e =? "") || (e =? ".")); [apply IH|].
    destruct (e =? ".."); [|apply IH].
    destruct stack as [|top below]; [destruct rooted; apply IH|].
    destruct (top =? ".."); apply IH.
Qed.

Lemma isRooted_app dir rest :
  (dir =? "") = false -> Filepath.isRooted (dir ++ rest) = Filepath.isRooted dir.
Proof.
  destruct dir as [|c dir]; [discriminate|]. intros _.
  unfold Filepath.isRooted. cbn [append]. now rewrite !prefix_slash.
Qed.

(** The shape of a directory joined with a plain name. *)
Lemma Join_shape dir f :
  OcpSpec.plain f = true ->
  Filepath.isRooted (Filepath.Join [dir; f]) = Filepath.isRooted dir /\
  Filepath.elements (Filepath.Join [dir; f]) = (Filepath.elements dir ++ [f])%list.
Proof.
  intros Hf. destruct (plain_inv f Hf) as (Hs & H0 & _).
  unfold Filepath.Join. cbn [Filepath.dropEmpty].
  destruct (dir =? "") eqn:D.
  - apply String.eqb_eq in D. subst dir.
    rewrite H0. cbn [GoStrings.Join].
    destruct (Clean_elements f) as [-> ->].
    assert (R : Filepath.isRooted f = false).
    { destruct f as [|c f]; [reflexivity|].
      unfold Filepath.isRooted. rewrite prefix_slash.
      cbn [OcpSpec.noSlash] in Hs. unfold OcpSpec.noSlash in Hs.
      cbn in Hs. now destruct (Ascii.eqb c "/"). }
    split; [exact R|].
    unfold Filepath.elements, GoStrings.Split.
    rewrite splitFrom_last by exact Hs. rewrite R.
    cbn [GoStrings.rev GoStrings.rev_append].
    now rewrite cleanElems_push by exact Hf.
  - cbn [GoStrings.Join].
    destruct (Clean_elements (dir ++ "/" ++ f)) as [-> ->].
    rewrite isRooted_app by exact D. split; [reflexivity|].
    unfold Filepath.elements. rewrite isRooted_app by exact D.
    rewrite Split_snoc by exact Hs.
    now apply cleanElems_snoc_eq.
Qed.

Lemma Join_Dir_Base dir f :
  OcpSpec.plain f = true ->
  Filepath.Dir (Filepath.Join [dir; f]) = Filepath.Clean dir /\
  Filepath.Base (Filepath.Join [dir; f]) = f.
Proof.
  intros Hf. destruct (Join_shape dir f Hf) as [R E].
  unfold Filepath.Dir, Filepath.Base, Filepath.Clean. rewrite R, E.
  rewrite removelast_last, rev_unit. now split.
Qed.

(** X13: [setRemoteAuthOptions] places the three remote certificate files
    directly in the provisioner's Docker options directory, cleaned, under
    the names [ca.pem], [server.pem] and [server-key.pem], whatever the
    directory is, and leaves every local path, the SANs and the store path
    of the provisioner's options as they are. *)
Theorem setRemoteAuthOptions_paths s :
  let remote := setRemoteAuthOptions s in
  let dockerDir := Filepath.Clean (dockerOptionsDir s) in
  (Filepath.Dir (CaCertRemotePath remote) = dockerDir /\
   Filepath.Base (CaCertRemotePath remote) = "ca.pem") /\
  (Filepath.Dir (ServerCertRemotePath remote) = dockerDir /\
   Filepath.Base (ServerCertRemotePath remote) = "server.pem") /\
  (Filepath.Dir (ServerKeyRemotePath remote) = dockerDir /\
   Filepath.Base (ServerKeyRemotePath remote) = "server-key.pem") /\
  (CaCertPath remote, CaPrivateKeyPath remote, ServerCertPath remote,
   ServerKeyPath remote, ClientKeyPath remote, ClientCertPath remote,
   ServerCertSANs remote, StorePath remote)
  = (CaCertPath (authOptions s), CaPrivateKeyPath (authOptions s),
     ServerCertPath (authOptions s), ServerKeyPath (authOptions s),
     ClientKeyPath (authOptions s), ClientCertPath (authOptions s),
     ServerCertSANs (authOptions s), StorePath (authOptions s)).
Proof.
  cbv zeta. unfold setRemoteAuthOptions, pathJoin.
  cbn [CaCertRemotePath ServerCertRemotePath ServerKeyRemotePath
       CaCertPath CaPrivateKeyPath ServerCertPath ServerKeyPath ClientKeyPath
       ClientCertPath ServerCertSANs StorePath].
  repeat split; apply Join_Dir_Base; reflexivity.
Qed.

(** *** Feature detection *)

Lemma rev_involutive s : GoStrings.rev (GoStrings.rev s) = s.
Proof.
  induction s as [|c s IH]; [reflexivity|].
  rewrite rev_cons, rev_app, IH. reflexivity.
Qed.

Lemma newlines_snoc n : newlines n ++ GoStrings.LF = GoStrings.LF ++ newlines n.
Proof.
  induction n as [|n IH]; [reflexivity|].
  cbn [newlines]. rewrite append_assoc, IH. reflexivity.
Qed.

Lemma rev_newlines n : GoStrings.rev (newlines n) = newlines n.
Proof.
  induction n as [|n IH]; [reflexivity|].
  cbn [newlines]. rewrite rev_app, IH. apply newlines_snoc.
Qed.

Lemma trimLeft_newlines n rest :
  trimLeftCutset GoStrings.LF (newlines n ++ String "1" rest) = String "1" rest.
Proof. induction n as [|n IH]; [reflexivity|exact IH]. Qed.

Lemma trimLeft_split s :
  exists n, s = newlines n ++ trimLeftCutset GoStrings.LF s.
Proof.
  induction s as [|c s (n & IH)]; [now exists 0|].
  cbn [trimLeftCutset].
  destruct (inCutset GoStrings.LF c) eqn:E; [|now exists 0].
  exists (S n). unfold inCutset in E. cbn in E.
  rewrite orb_false_r in E. apply Ascii.eqb_eq in E. subst c.
  cbn [newlines]. change (GoStrings.LF ++ ?x) with (String (ascii_of_nat 10) x).
  cbn [append]. now rewrite <- IH.
Qed.

(** What [strings.Trim] with the line feed as its cutset reduces to the
    string [1]: a [1] with line feeds around it, and nothing else. *)
Lemma Trim_one out :
  Trim out GoStrings.LF = "1" <-> exists n m, out = newlines n ++ "1" ++ newlines m.
Proof.
  unfold Trim. split.
  - intros H. apply (f_equal GoStrings.rev) in H.
    rewrite rev_involutive in H. change (GoStrings.rev "1") with "1" in H.
    destruct (trimLeft_split out) as (n & Hn).
    destruct (trimLeft_split (GoStrings.rev (trimLeftCutset GoStrings.LF out)))
      as (m & Hm).
    rewrite H in Hm. apply (f_equal GoStrings.rev) in Hm.
    rewrite rev_involutive, rev_app, rev_newlines in Hm.
    exists n, m. rewrite Hn at 1. now rewrite Hm.
  - intros (n & m & ->).
    change ("1" ++ newlines m) with (String "1" (newlines m)).
    rewrite trimLeft_newlines.
    rewrite rev_cons, rev_newlines.
    change (String "1" "") with ("" ++ String "1" "") at 1.
    rewrite <- (append_nil_r (newlines m)) at 1.
    change (newlines m ++ "" ++ String "1" "") with (newlines m ++ String "1" "").
    rewrite append_assoc. cbn [append].
    now rewrite trimLeft_newlines.
Qed.

Lemma doFeatureDetection_run p w out :
  answerSSHCommand p (sent w) featureCommand = (out, None) ->
  doFeatureDetection p w
  = (Ret None,
     let c := setSupportsNetworkAssignment (InstanceConfig w)
                (Trim out GoStrings.LF =? "1") in
     {| InstanceConfig := c; stored := c;
        sent := (sent w ++ [EvSSHCommand featureCommand])%list |}).
Proof.
  intros H. unfold doFeatureDetection, detectSSHCommand, detectSet, detectWrite.
  cbv beta iota delta [bind ret SSHCommand emit]. rewrite H.
  now destruct (Trim out GoStrings.LF =? "1").
Qed.

(** X14: when the guest cannot be asked, [doFeatureDetection] returns the
    SSH error and records nothing: the configuration in memory and the
    stored one are as before, and the one [test -f] command was sent. *)
Theorem doFeatureDetection_ssh_error p w out e :
  answerSSHCommand p (sent w) featureCommand = (out, Some e) ->
  doFeatureDetection p w
  = (Ret (Some e),
     {| InstanceConfig := InstanceConfig w; stored := stored w;
        sent := (sent w ++ [EvSSHCommand featureCommand])%list |}).
Proof.
  intros H. unfold doFeatureDetection, detectSSHCommand.
  cbv beta iota delta [bind ret SSHCommand emit]. now rewrite H.
Qed.

Lemma doFeatureDetection_ssh_error_witness :
  doFeatureDetection {| answerSSHCommand := fun _ _ => ("", Some "exit status 255") |}
    {| InstanceConfig := Samples.config "10.0.0.7" true true;
       stored := Samples.config "" true false;
       sent := [] |}
  = (Ret (Some "exit status 255"),
     {| InstanceConfig := Samples.config "10.0.0.7" true true;
        stored := Samples.config "" true false;
        sent := [EvSSHCommand featureCommand] |}).
Proof.
  exact (doFeatureDetection_ssh_error
           {| answerSSHCommand := fun _ _ => ("", Some "exit status 255") |}
           {| InstanceConfig := Samples.config "10.0.0.7" true true;
              stored := Samples.config "" true false;
              sent := [] |}
           "" "exit status 255" eq_refl).
Defined.

(** X15: when the guest answers, [doFeatureDetection] returns no error,
    and the capability it records is set exactly when the answer is a [1]
    with nothing but line feeds around it.  The address and the RHEL flag
    in memory are kept, and the whole configuration in memory is what is
    stored afterwards, whatever was stored before. *)
Theorem doFeatureDetection_records_answer p w out :
  answerSSHCommand p (sent w) featureCommand = (out, None) ->
  exists w',
    doFeatureDetection p w = (Ret None, w') /\
    (minishiftConfig.SupportsNetworkAssignment (InstanceConfig w') = true
     <-> exists n m, out = newlines n ++ "1" ++ newlines m) /\
    minishiftConfig.IPAddress (InstanceConfig w')
    = minishiftConfig.IPAddress (InstanceConfig w) /\
    minishiftConfig.IsRHELBased (InstanceConfig w')
    = minishiftConfig.IsRHELBased (InstanceConfig w) /\
    stored w' = InstanceConfig w' /\
    sent w' = (sent w ++ [EvSSHCommand featureCommand])%list.
Proof.
  intros H. eexists. split; [exact (doFeatureDetection_run p w out H)|].
  cbn. split; [|now repeat split].
  rewrite <- Trim_one. apply String.eqb_eq.
Qed.

Lemma doFeatureDetection_records_answer_witness :
  exists w',
    doFeatureDetection
      {| answerSSHCommand := fun _ _ => ("1" ++ GoStrings.LF, None) |}
      {| InstanceConfig := Samples.config "10.0.0.7" true false;
         stored := Samples.config "" false false;
         sent := [] |}
    = (Ret None, w') /\
    (minishiftConfig.SupportsNetworkAssignment (InstanceConfig w') = true
     <-> exists n m, "1" ++ GoStrings.LF = newlines n ++ "1" ++ newlines m) /\
    minishiftConfig.IPAddress (InstanceConfig w') = "10.0.0.7" /\
    minishiftConfig.IsRHELBased (InstanceConfig w') = true /\
    stored w' = InstanceConfig w' /\
    sent w' = [EvSSHCommand featureCommand].
Proof.
  exact (doFeatureDetection_records_answer
           {| answerSSHCommand := fun _ _ => ("1" ++ GoStrings.LF, None) |}
           {| InstanceConfig := Samples.config "10.0.0.7" true false;
              stored := Samples.config "" false false;
              sent := [] |}
           ("1" ++ GoStrings.LF) eq_refl).
Defined.

(** X16: a guest on which detection did not find the capability is
    refused by the address commands of package [network]: with the
    configuration as [doFeatureDetection] left it, static and dynamic
    assignment both stop with exit code 1 and the not-supported message,
    for every driver and hypervisor, without touching the guest. *)
Theorem undetected_guest_is_refused p w out d kind t :
  answerSSHCommand p (sent w) featureCommand = (out, None) ->
  (forall n m, out <> newlines n ++ "1" ++ newlines m) ->
  let w' := snd (doFeatureDetection p w) in
  Network.ConfigureStaticAssignment d (networkWorld w' kind t)
  = (Exited 1 Network.configureNetworkNotSupportedMessage, networkWorld w' kind t) /\
  Network.ConfigureDynamicAssignment d (networkWorld w' kind t)
  = (Exited 1 Network.configureNetworkNotSupportedMessage, networkWorld w' kind t).
Proof.
  intros H Hout.
  rewrite (doFeatureDetection_run p w out H).
  assert (E : (Trim out GoStrings.LF =? "1") = false).
  { apply String.eqb_neq. intros K. apply Trim_one in K as (n & m & K).
    exact (Hout n m K). }
  rewrite E. cbv zeta. cbn [snd].
  assert (G : NetworkSpec.gate
                (networkWorld
                   {| InstanceConfig := setSupportsNetworkAssignment (InstanceConfig w) false;
                      stored := setSupportsNetworkAssignment (InstanceConfig w) false;
                      sent := (sent w ++ [EvSSHCommand featureCommand])%list |} kind t)
              = false).
  { unfold NetworkSpec.gate. cbn. apply andb_false_r. }
  split.
  - unfold Network.ConfigureStaticAssignment.
    erewrite bind_exited by (apply checkSupportForAddressAssignment_closed; exact G).
    reflexivity.
  - unfold Network.ConfigureDynamicAssignment.
    erewrite bind_exited by (apply checkSupportForAddressAssignment_closed; exact G).
    reflexivity.
Qed.

Lemma undetected_guest_is_refused_witness :
  let w' :=
    snd (doFeatureDetection
           {| answerSSHCommand := fun _ _ => ("0" ++ GoStrings.LF, None) |}
           {| InstanceConfig := Samples.config "" true true;
              stored := Samples.config "" true true;
              sent := [] |}) in
  Network.ConfigureStaticAssignment Samples.healthyGuest
    (networkWorld w' minishiftConfig.KVM [])
  = (Exited 1 Network.configureNetworkNotSupportedMessage,
     networkWorld w' minishiftConfig.KVM []) /\
  Network.ConfigureDynamicAssignment Samples.healthyGuest
    (networkWorld w' minishiftConfig.KVM [])
  = (Exited 1 Network.configureNetworkNotSupportedMessage,
     networkWorld w' minishiftConfig.KVM []).
Proof.
  apply (undetected_guest_is_refused
           {| answerSSHCommand := fun _ _ => ("0" ++ GoStrings.LF, None) |}
           {| InstanceConfig := Samples.config "" true true;
              stored := Samples.config "" true true;
              sent := [] |}
           ("0" ++ GoStrings.LF) Samples.healthyGuest minishiftConfig.KVM []).
  - reflexivity.
  - intros [|n] m K; vm_compute in K; discriminate K.
Defined.
End ProvisioningFacts.

(** ** More of the download *)

Section OcpMore.
Import HostOS Ocp OcpSpec OcpDev.
Local Open Scope proc_scope.
Variable env : Env.

Ltac host_step :=
  match goal with
  | |- context [bind (perform env ?op ?sem) _ ?w] =>
      let e := fresh "e" in
      let fs' := fresh "fs'" in
      let Hrun := fresh "Hrun" in
      let Hok := fresh "Hok" in
      let Hko := fresh "Hko" in
      destruct (perform_run env op sem w) as (e & fs' & Hrun & Hok & Hko);
      rewrite (bind_ret_l _ _ _ _ _ Hrun); clear Hrun;
      destruct e as [e|];
      [clear Hok; specialize (Hko ltac:(discriminate))
      |clear Hko; specialize (Hok eq_refl)]
  end.

Lemma gets_app a b : gets (a ++ b)%list = (gets a ++ gets b)%list.
Proof.
  induction a as [|op a IH]; cbn; [reflexivity|].
  destruct op; cbn; now rewrite ?IH.
Qed.

Lemma creations_app a b : creations (a ++ b)%list = (creations a ++ creations b)%list.
Proof.
  induction a as [|op a IH]; cbn; [reflexivity|].
  destruct op; cbn; now rewrite ?IH.
Qed.

Lemma unpackings_app a b : unpackings (a ++ b)%list = (unpackings a ++ unpackings b)%list.
Proof.
  induction a as [|op a IH]; cbn; [reflexivity|].
  destruct op; cbn; now rewrite ?IH.
Qed.

(** *** Copying a file *)

(** X17: without the source file [copy] fails with [Cannot open src file]
    and the source's name, whatever else the host does: the destination
    is not created and the file system is as it was. *)
Theorem copy_without_source src dest w :
  lookup src (fs w) = None ->
  copy env src dest w
  = (Ret (Some ("Cannot open src file: " ++ src)),
     {| fs := fs w; trace := (trace w ++ [OpOpen src])%list |}).
Proof.
  intros H. unfold copy, Open, perform, open, bind, ret.
  destruct (fault env (trace w) (OpOpen src)); [reflexivity|].
  now rewrite H.
Qed.
(** A path that holds a file is a name the file system can hold. *)
Lemma lookup_File_named p fs data m :
  lookup p fs = Some (File data m) ->
  (p =? "") = false /\ (Filepath.Clean p =? "/") = false /\
  (Filepath.Clean p =? ".") = false.
Proof.
  unfold lookup. destruct (p =? ""); [discriminate|].
  destruct (Filepath.Clean p =? "/"); [discriminate|].
  destruct (Filepath.Clean p =? "."); [discriminate|]. now repeat split.
Qed.

Lemma lookup_insert_other p q n fs :
  Filepath.Clean p <> Filepath.Clean q ->
  lookup q (insert p n fs) = lookup q fs.
Proof.
  intros H. unfold lookup, insert.
  destruct (q =? ""); [reflexivity|].
  destruct ((Filepath.Clean q =? "/") || (Filepath.Clean q =? ".")); [reflexivity|].
  cbn [find]. apply String.eqb_neq in H. rewrite H.
  apply (find_filter (fun k => negb (k =? Filepath.Clean p))).
  rewrite String.eqb_sym, H. reflexivity.
Qed.

Lemma create_ok p fs fs' :
  create p fs = (fs', None) ->
  (p =? "") = false /\ (Filepath.Clean p =? "/") = false /\
  (Filepath.Clean p =? ".") = false /\
  exists m, fs' = insert p (File "" m) fs.
Proof.
  unfold create. destruct (isDir (Filepath.Dir p) fs); [|discriminate].
  destruct (lookup p fs) as [[data m|]|] eqn:L.
  - intros H. inversion H. destruct (lookup_File_named _ _ _ _ L) as (A & B & C).
    repeat split; try assumption. now exists m.
  - discriminate.
  - destruct (p =? "") eqn:E; [discriminate|]. intros H. inversion H.
    unfold lookup in L. rewrite E in L.
    destruct (Filepath.Clean p =? "/"); [discriminate|].
    destruct (Filepath.Clean p =? "."); [discriminate|].
    repeat split. now exists 438.
Qed.

(** X18: when [copy] returns no error and source and destination are
    different files, the destination holds what the source held, and the
    source is as it was. *)
Theorem copy_carries_the_content src dest data m w w' :
  lookup src (fs w) = Some (File data m) ->
  Filepath.Clean src <> Filepath.Clean dest ->
  copy env src dest w = (Ret None, w') ->
  (exists m', lookup dest (fs w') = Some (File data m')) /\
  lookup src (fs w') = Some (File data m) /\
  trace w' = (trace w ++ [OpOpen src; OpCreate dest; OpCopy dest; OpSync dest])%list.
Proof.
  intros L N. unfold copy, Open, Create, Copy, Sync.
  host_step; [discriminate|].
  host_step; [discriminate|].
  host_step; [discriminate|].
  host_step; [discriminate|].
  intros H. inversion H; subst w'; clear H. cbn [fs trace].
  unfold open in Hok. rewrite L in Hok. inversion Hok; subst fs'; clear Hok.
  destruct (create_ok _ _ _ Hok0) as (D1 & D2 & D3 & m0 & ->).
  apply sync_ok in Hok2. subst fs'2.
  assert (N' : Filepath.Clean dest <> Filepath.Clean src) by congruence.
  cbn [fs trace] in *.
  unfold copyFile in Hok1.
  rewrite (lookup_insert_other dest src _ _ N'), L in Hok1.
  unfold write in Hok1. rewrite lookup_insert in Hok1 by assumption.
  inversion Hok1; subst fs'1; clear Hok1.
  split; [exists m0; now apply lookup_insert|].
  split; [|now rewrite <- !app_assoc].
  now rewrite !(lookup_insert_other dest src _ _ N').
Qed.

(** X19: copying a file onto itself empties it and reports no error: the
    destination is truncated before the source is read. *)
Theorem copy_onto_itself_truncates p data m w :
  faultless env ->
  lookup p (fs w) = Some (File data m) ->
  isDir (Filepath.Dir p) (fs w) = true ->
  exists w',
    copy env p p w = (Ret None, w') /\
    lookup p (fs w') = Some (File "" m).
Proof.
  intros F L D. destruct (lookup_File_named _ _ _ _ L) as (A & B & C).
  unfold copy, Open, Create, Copy, Sync, perform, bind, ret.
  rewrite !F. cbn [fs trace].
  unfold open. rewrite L. cbn [fs trace]. rewrite !F.
  unfold create. rewrite D, L. cbn [fs trace]. rewrite !F.
  unfold copyFile, write. rewrite !(lookup_insert p _ _ A B C).
  cbn [fs trace]. rewrite !F.
  unfold sync. rewrite !(lookup_insert p _ _ A B C).
  eexists. split; [reflexivity|]. cbn [fs].
  now apply lookup_insert.
Qed.
(** *** Fetching a file *)

Lemma create_ko p fs fs' e : create p fs = (fs', Some e) -> fs' = fs.
Proof.
  unfold create. destruct (isDir (Filepath.Dir p) fs); [|now inversion 1].
  destruct (lookup p fs) as [[data m|]|]; try (now inversion 1).
  destruct (p =? ""); now inversion 1.
Qed.

Lemma write_ko dst data fs fs' e : write dst data fs = (fs', Some e) -> fs' = fs.
Proof.
  unfold write. destruct (lookup dst fs) as [[c m|]|]; now inversion 1.
Qed.

Lemma credentials_length username password :
  (if (0 <? String.length username)%nat then Some (username, password) else None)
  = credentials username password.
Proof. now destruct username. Qed.

Ltac download_split :=
  unfold download;
  destruct (newRequestError env _) as [?e|] eqn:?Hreq;
  [| rewrite credentials_length; unfold Do at 1; unfold bind at 1;
     destruct (httpDo env _ _) as [[?status ?body] [?e|]] eqn:?Hdo;
     [| match goal with
        | |- context [(?n =? 200)%nat] => destruct (n =? 200)%nat eqn:?Hst
        end;
        cbn [negb];
        [ unfold Create, CopyBody; host_step; [| host_step] |] ] ];
  unfold ret; cbn [fs trace].

(** What a download adds to the trace: at most one request, with the
    credentials [download] was given, and nothing but the creation and
    the writing of its file. *)
Lemma download_trace url filename username password w :
  exists r w' ev,
    download env url filename username password w = (Ret r, w') /\
    trace w' = (trace w ++ ev)%list /\
    gets ev = match newRequestError env url with
              | Some _ => []
              | None => [(url, credentials username password)]
              end /\
    (creations ev = [] \/ creations ev = [filename]) /\
    unpackings ev = [] /\
    (fst r = true <-> snd r = None).
Proof.
  download_split.
  - eexists _, _, []. rewrite app_nil_r.
    repeat split; try reflexivity; try (now left); discriminate.
  - eexists _, _, [_].
    repeat split; try reflexivity; try (now left); discriminate.
  - eexists _, _, [_; _]. rewrite <- !app_assoc.
    repeat split; try reflexivity; try (now right); discriminate.
  - eexists _, _, [_; _; _]. rewrite <- !app_assoc.
    repeat split; try reflexivity; try (now right); discriminate.
  - eexists _, _, [_; _; _]. rewrite <- !app_assoc.
    repeat split; try reflexivity; try (now right); discriminate.
  - eexists _, _, [_].
    repeat split; try reflexivity; try (now left); discriminate.
Qed.

(** X20: [download] always returns, and its flag is set exactly when it
    returns no error.  It sends no request when the request cannot be
    built and one request to the URL otherwise, with basic authentication
    exactly when the user name is not empty. *)
Theorem download_request_and_flag url filename username password w :
  exists ok err w',
    download env url filename username password w = (Ret (ok, err), w') /\
    (ok = true <-> err = None) /\
    gets (trace w')
    = (gets (trace w) ++
       match newRequestError env url with
       | Some _ => []
       | None => [(url, if username =? "" then None else Some (username, password))]
       end)%list.
Proof.
  destruct (download_trace url filename username password w)
    as ([ok err] & w' & ev & Hrun & Ht & Hg & _ & _ & Hflag).
  exists ok, err, w'. split; [exact Hrun|]. split; [exact Hflag|].
  now rewrite Ht, gets_app, Hg.
Qed.

(** X21: when [download] returns no error, the server answered with
    status 200, the file holds the body of the answer, and every other
    path of the file system is as it was. *)
Theorem download_stores_the_body url filename username password w ok w' :
  download env url filename username password w = (Ret (ok, None), w') ->
  exists body m,
    httpDo env (trace w) url = ((200, body), None) /\
    lookup filename (fs w') = Some (File body m) /\
    forall q, Filepath.Clean q <> Filepath.Clean filename ->
              lookup q (fs w') = lookup q (fs w).
Proof.
  download_split; try discriminate.
  intros H. inversion H; subst; clear H. cbn [fs].
  apply Nat.eqb_eq in Hst. subst status.
  cbn [fs trace] in *.
  destruct (create_ok _ _ _ Hok) as (A & B & C & m & ->).
  unfold write in Hok0. rewrite lookup_insert in Hok0 by assumption.
  inversion Hok0; subst; clear Hok0.
  exists body, m. split; [reflexivity|].
  split; [now apply lookup_insert|].
  intros q N. rewrite !lookup_insert_other by congruence. reflexivity.
Qed.
(** *** The download from the mirror, on every path *)

Lemma adds_ret {A} P (a : A) : adds P (ret a).
Proof. intros w. exists a, w, []. now rewrite app_nil_r. Qed.

Lemma adds_bind {A B} P (m : Proc World A) (k : A -> Proc World B) :
  adds P m -> (forall a, adds P (k a)) -> adds P (bind m k).
Proof.
  intros Hm Hk w. destruct (Hm w) as (a & w1 & ev1 & E1 & T1 & P1).
  destruct (Hk a w1) as (b & w2 & ev2 & E2 & T2 & P2).
  exists b, w2, (ev1 ++ ev2)%list. rewrite (bind_ret_l _ _ _ _ _ E1).
  split; [exact E2|]. split; [now rewrite T2, T1, app_assoc|].
  rewrite forallb_app. now rewrite P1, P2.
Qed.

Lemma adds_perform P op sem : P op = true -> adds P (perform env op sem).
Proof.
  intros H w. destruct (perform_run env op sem w) as (e & fs' & Hrun & _).
  exists e, {| fs := fs'; trace := (trace w ++ [op])%list |}, [op].
  split; [exact Hrun|]. split; [reflexivity|]. cbn. now rewrite H.
Qed.

Lemma adds_ReadDir P dir : P (OpReadDir dir) = true -> adds P (ReadDir env dir).
Proof.
  intros H w. unfold ReadDir.
  destruct (fault env (trace w) (OpReadDir dir)); [|destruct (isDir dir (fs w))];
    eexists _, _, [OpReadDir dir]; (split; [reflexivity|]);
    (split; [reflexivity|]); cbn; now rewrite H.
Qed.

Ltac adds_step :=
  first
    [ apply adds_bind; [|intros ?]
    | apply adds_ret
    | apply adds_perform; reflexivity
    | apply adds_ReadDir; reflexivity
    | match goal with
      | |- adds _ (match ?x with _ => _ end) => destruct x
      | |- adds _ (let (_, _) := ?x in _) => destruct x
      end ].

Lemma adds_copy src dest : adds noGet (copy env src dest).
Proof. unfold copy, Open, Create, Copy, Sync. repeat adds_step. Qed.

Lemma adds_unpack tmpDir assetTmpFile : adds noGet (unpack env tmpDir assetTmpFile).
Proof.
  unfold unpack, listDirExcluding, archiveUngzip, archiveUntar, archiveUnzip.
  repeat adds_step.
Qed.

Lemma adds_install osType outputPath binaryPath :
  adds noGet (install env osType outputPath binaryPath).
Proof.
  unfold install, MkdirAll, Chmod.
  repeat first [apply adds_copy | adds_step].
Qed.

Lemma gets_noGet ev : forallb noGet ev = true -> gets ev = [].
Proof.
  induction ev as [|op ev IH]; [reflexivity|].
  cbn [forallb]. intros H. apply andb_prop in H as [H1 H2].
  destruct op; cbn; try discriminate; now apply IH.
Qed.

Lemma mkdirTemp_ko p fs fs' e : mkdirTemp p fs = (fs', Some e) -> fs' = fs.
Proof.
  unfold mkdirTemp. destruct (isDir (Filepath.Dir p) fs); [|now inversion 1].
  destruct (lookup p fs); now inversion 1.
Qed.

Lemma mkdirTemp_ok p fs fs' :
  mkdirTemp p fs = (fs', None) -> fs' = insert p Directory fs.
Proof.
  unfold mkdirTemp. destruct (isDir (Filepath.Dir p) fs); [|discriminate].
  destruct (lookup p fs); now inversion 1.
Qed.

(** What follows the creation of the working directory, before it is
    removed again: it always returns, and sends at most the one request. *)
Lemma mirror_body_run version osType outputPath w1 :
  exists err w2 ev,
    (r <- download env (mirrorURL version osType)
           (Filepath.Join [tempDirOf env; targetFileOf osType]) "" "" ;;
     match r with
     | (_, Some err) => ret (Some err)
     | (_, None) =>
         r <- unpack env (tempDirOf env)
                (Filepath.Join [tempDirOf env; targetFileOf osType]) ;;
         match r with
         | (_, Some err) => ret (Some err)
         | (binaryPath, None) => install env osType outputPath binaryPath
         end
     end) w1 = (Ret err, w2) /\
    trace w2 = (trace w1 ++ ev)%list /\
    (gets ev = [] \/ gets ev = [(mirrorURL version osType, None)]).
Proof.
  destruct (download_trace (mirrorURL version osType)
              (Filepath.Join [tempDirOf env; targetFileOf osType]) "" "" w1)
    as ([ok err] & w2 & ev & E2 & T2 & G2 & _).
  assert (G : gets ev = [] \/ gets ev = [(mirrorURL version osType, None)]).
  { rewrite G2. destruct (newRequestError env (mirrorURL version osType));
      [now left|now right]. }
  clear G2. rewrite (bind_ret_l _ _ _ _ _ E2).
  destruct err as [err|].
  { exists (Some err), w2, ev. now repeat split. }
  destruct (adds_unpack (tempDirOf env)
              (Filepath.Join [tempDirOf env; targetFileOf osType]) w2)
    as ([binaryPath err] & w3 & ev3 & E3 & T3 & P3).
  rewrite (bind_ret_l _ _ _ _ _ E3).
  destruct err as [err|].
  { exists (Some err), w3, (ev ++ ev3)%list. split; [reflexivity|].
    split; [now rewrite T3, T2, app_assoc|].
    now rewrite gets_app, (gets_noGet _ P3), app_nil_r. }
  destruct (adds_install osType outputPath binaryPath w3)
    as (err & w4 & ev4 & E4 & T4 & P4).
  exists err, w4, (ev ++ ev3 ++ ev4)%list. split; [exact E4|].
  split; [now rewrite T4, T3, T2, !app_assoc|].
  now rewrite !gets_app, (gets_noGet _ P3), (gets_noGet _ P4), !app_nil_r.
Qed.

(** X22: for every version, platform and output path the download from
    the mirror returns, and on no path does it send anything but at most
    one request, to the mirror's URL for that version and platform,
    without credentials. *)
Theorem mirror_download_one_anonymous_request version osType outputPath w :
  exists err w' ev,
    DownloadOcpVersionFromMirror env version osType outputPath w = (Ret err, w') /\
    trace w' = (trace w ++ ev)%list /\
    (gets ev = [] \/ gets ev = [(mirrorURL version osType, None)]).
Proof.
  unfold DownloadOcpVersionFromMirror, TempDir.
  rewrite bind_assoc. host_step.
  { unfold bind, ret. eexists _, _, [_]. split; [reflexivity|].
    split; [reflexivity|now left]. }
  unfold bind at 1, ret at 1. fold (tempDirOf env). unfold defer.
  match goal with
  | |- context [?body {| fs := ?f; trace := ?t |}] =>
      destruct (mirror_body_run version osType outputPath {| fs := f; trace := t |})
        as (err & w2 & ev & E & T & G)
  end.
  rewrite E. cbn [fst snd].
  exists err. eexists. exists (OpTempDir (tempDirOf env) :: ev ++ [OpRemoveAll (tempDirOf env)])%list.
  split; [reflexivity|]. rewrite trace_after_RemoveAll, T. cbn [trace].
  split; [now rewrite <- !app_assoc|].
  cbn [gets]. rewrite gets_app. cbn [gets]. now rewrite app_nil_r.
Qed.

(** X23: the working directory never outlives the call.  Either it could
    not be created, and the call returns that error with the file system
    as it was; or the last thing the call does, however it ends, is to
    remove the directory, after which (unless the removal itself fails)
    the file system holds nothing in it. *)
Theorem mirror_download_cleans_up version osType outputPath w :
  let tmpDir := tempDirOf env in
  exists err w',
    DownloadOcpVersionFromMirror env version osType outputPath w = (Ret err, w') /\
    ((err = Some "Cannot create temporary download directory." /\
      fs w' = fs w /\
      trace w' = (trace w ++ [OpTempDir tmpDir])%list)
     \/
     exists ev,
       trace w' = (trace w ++ OpTempDir tmpDir :: ev ++ [OpRemoveAll tmpDir])%list /\
       (fault env (trace w ++ OpTempDir tmpDir :: ev) (OpRemoveAll tmpDir) = None ->
        forall p n, In (p, n) (fs w') -> Filepath.within tmpDir p = false)).
Proof.
  intros tmpDir. unfold DownloadOcpVersionFromMirror, TempDir.
  rewrite bind_assoc. host_step.
  { unfold bind, ret. eexists _, _. split; [reflexivity|]. left.
    split; [reflexivity|]. cbn [fs trace]. split; [|reflexivity].
    destruct Hko as [->|(e' & K)]; [reflexivity|exact (mkdirTemp_ko _ _ _ _ K)]. }
  unfold bind at 1, ret at 1. fold (tempDirOf env). fold tmpDir. unfold defer.
  match goal with
  | |- context [?body {| fs := ?f; trace := ?t |}] =>
      destruct (mirror_body_run version osType outputPath {| fs := f; trace := t |})
        as (err & w2 & ev & E & T & _)
  end.
  fold tmpDir in E. rewrite E. cbn [fst snd].
  exists err. eexists. split; [reflexivity|]. right. exists ev.
  rewrite trace_after_RemoveAll, T. cbn [trace].
  split; [now rewrite <- !app_assoc|].
  intros F p n. unfold RemoveAll, perform. rewrite T. cbn [trace].
  rewrite <- app_assoc. cbn [app]. rewrite F. cbn [snd fs].
  unfold removeAll. rewrite filter_In. cbn [fst].
  intros [_ K]. now apply negb_true_iff in K.
Qed.
Lemma isPrefixOf_refl l : Filepath.isPrefixOf l l = true.
Proof. induction l as [|x l IH]; cbn; [reflexivity|]. now rewrite String.eqb_refl. Qed.

Lemma within_Clean dir : Filepath.within dir (Filepath.Clean dir) = true.
Proof.
  unfold Filepath.within. destruct (Clean_elements dir) as [-> ->].
  now rewrite Bool.eqb_reflx, isPrefixOf_refl.
Qed.

Lemma TempDir_ok prefix w tmpDir w1 :
  TempDir env prefix w = (Ret (tmpDir, None), w1) ->
  w1 = {| fs := insert tmpDir Directory (fs w);
          trace := (trace w ++ [OpTempDir tmpDir])%list |}.
Proof.
  unfold TempDir, perform, bind, ret.
  destruct (fault env (trace w) _); [discriminate|].
  destruct (mkdirTemp _ (fs w)) as [fs1 [e|]] eqn:E; [discriminate|].
  intros H. inversion H; subst. now rewrite (mkdirTemp_ok _ _ _ E).
Qed.

(** X24: when the mirror answers with a status other than 200, the call
    returns the wrong-credentials-or-filename error with the URL and the
    status in decimal; it has created the working directory, sent the
    request and removed the directory, nothing was created or unpacked,
    and every path outside the working directory is as it was. *)
Theorem refused_mirror_download version osType outputPath w w1 status body :
  let tmpDir := tempDirOf env in
  let url := mirrorURL version osType in
  TempDir env "minishift-asset-download-" w = (Ret (tmpDir, None), w1) ->
  newRequestError env url = None ->
  httpDo env (trace w1) url = ((status, body), None) ->
  status <> 200 ->
  exists w',
    DownloadOcpVersionFromMirror env version osType outputPath w
    = (Ret (Some ("Wrong credentials or filename '" ++ url ++ "': "
                  ++ Strconv.Itoa status)), w') /\
    trace w'
    = (trace w ++ [OpTempDir tmpDir; OpHTTPGet url None; OpRemoveAll tmpDir])%list /\
    forall q, Filepath.within tmpDir (Filepath.Clean q) = false ->
              lookup q (fs w') = lookup q (fs w).
Proof.
  intros tmpDir url Htmp Hreq Hdo Hst.
  unfold DownloadOcpVersionFromMirror.
  rewrite (bind_ret_l _ _ _ _ _ Htmp). unfold defer.
  fold tmpDir. fold url. unfold download. rewrite Hreq.
  cbn [String.length Nat.ltb Nat.leb].
  unfold Do at 1. unfold bind at 1 2. rewrite Hdo.
  apply Nat.eqb_neq in Hst. rewrite Hst. cbn [negb]. unfold ret.
  eexists. split; [reflexivity|].
  rewrite trace_after_RemoveAll. cbn [trace].
  rewrite (TempDir_ok _ _ _ _ Htmp). cbn [trace fs].
  split; [now rewrite <- !app_assoc|].
  intros q Hq. rewrite RemoveAll_keeps by exact Hq. cbn [fs].
  apply lookup_insert_other. intros K.
  rewrite <- K, within_Clean in Hq. discriminate.
Qed.
(** *** The download from the developer portal *)

(** X25: the download from the developer portal returns whatever happens,
    so a failed download goes unreported.  It sends at most one request,
    for [oc-<version>-<platform>.<extension>] with [macosx] in place of
    [darwin], [zip] for [windows] and [tar.gz] otherwise, with basic
    authentication exactly when the user name is not empty; it creates no
    file but [oc.<extension>] under the given path, and unpacks nothing. *)
Theorem rhdev_download_request username password version platform filepath w :
  let extension := if platform =? "windows" then "zip" else "tar.gz" in
  let url :=
    "https://developers.redhat.com/download-manager/jdf/file/oc-" ++ version ++ "-"
    ++ (if platform =? "darwin" then "macosx" else platform)
    ++ "." ++ extension ++ "?workflow=direct" in
  exists w' ev,
    DownloadOcpVersionFromRHDev env username password version platform filepath w
    = (Ret tt, w') /\
    trace w' = (trace w ++ ev)%list /\
    gets ev = match newRequestError env url with
              | Some _ => []
              | None => [(url, if username =? "" then None else Some (username, password))]
              end /\
    (creations ev = [] \/ creations ev = [filepath ++ "/oc." ++ extension]) /\
    unpackings ev = [].
Proof.
  intros extension url. unfold DownloadOcpVersionFromRHDev.
  assert (Ext : (if (if platform =? "darwin" then "macosx" else platform) =? "windows"
                 then ZIP else TAR) = extension).
  { unfold extension. destruct (platform =? "darwin") eqn:E; [|reflexivity].
    apply String.eqb_eq in E. now subst platform. }
  rewrite Ext.
  assert (U : DMURL ++ ("oc-" ++ version ++ "-"
                        ++ (if platform =? "darwin" then "macosx" else platform)
                        ++ "." ++ extension) ++ "?workflow=direct" = url).
  { unfold url, DMURL. cbn [append]. do 4 f_equal.
    repeat (rewrite ?append_assoc; cbn [append]). reflexivity. }
  rewrite U.
  destruct (download_trace url (filepath ++ "/" ++ "oc" ++ "." ++ extension)
              username password w) as (r & w' & ev & E & T & G & C & N & _).
  rewrite (bind_ret_l _ _ _ _ _ E). unfold ret.
  exists w', ev. repeat split; assumption.
Qed.
(** *** Listing the working directory *)

Lemma matchHere_star a rest s :
  Regexp.matchHere ((a, true) :: rest) s
  = Regexp.matchHere rest s
    || match s with
       | String c s' => Regexp.matchAtom a c && Regexp.matchHere ((a, true) :: rest) s'
       | EmptyString => false
       end.
Proof. destruct s; reflexivity. Qed.

Lemma search_unfold re s :
  Regexp.search re s
  = Regexp.matchHere re s
    || match s with
       | String _ s' => Regexp.search re s'
       | EmptyString => false
       end.
Proof. destruct s; reflexivity. Qed.

Lemma matchHere_one a rest c s :
  Regexp.matchHere ((a, false) :: rest) (String c s)
  = Regexp.matchAtom a c && Regexp.matchHere rest s.
Proof. reflexivity. Qed.

Lemma matchHere_one_empty a rest : Regexp.matchHere ((a, false) :: rest) "" = false.
Proof. reflexivity. Qed.

Lemma matchHere_any_star s : Regexp.matchHere [(Regexp.AnyChar, true)] s = true.
Proof. rewrite matchHere_star. now destruct s. Qed.

(** The pattern without its leading star. *)
Lemma tarCore_spec s :
  Regexp.matchHere (tl tarItems) s = true
  <-> exists c after, s = String c ("tar" ++ after) /\ c <> ascii_of_nat 10.
Proof.
  unfold tarItems. cbn [tl]. split.
  - destruct s as [|c [|t [|a [|r after]]]];
      rewrite ?matchHere_one, ?matchHere_one_empty, ?andb_false_r;
      try discriminate.
    intros H.
    apply andb_prop in H as [Hc H]. apply andb_prop in H as [Ht H].
    apply andb_prop in H as [Ha H]. apply andb_prop in H as [Hr _].
    unfold Regexp.matchAtom in *.
    apply Ascii.eqb_eq in Ht, Ha, Hr. subst t a r.
    exists c, after. split; [reflexivity|].
    apply negb_true_iff in Hc. now apply Ascii.eqb_neq in Hc.
  - intros (c & after & -> & Hc).
    change ("tar" ++ after) with (String "t" (String "a" (String "r" after))).
    rewrite !matchHere_one, matchHere_any_star. unfold Regexp.matchAtom.
    apply Ascii.eqb_neq in Hc. rewrite Hc, !Ascii.eqb_refl. reflexivity.
Qed.

Lemma tarItems_here s : Regexp.matchHere tarItems s = true -> holdsTar s.
Proof.
  induction s as [|c s IH].
  - change tarItems with ((Regexp.AnyChar, true) :: tl tarItems).
    rewrite matchHere_star, orb_false_r. intros H.
    apply tarCore_spec in H as (c & after & H & _). discriminate.
  - change tarItems with ((Regexp.AnyChar, true) :: tl tarItems).
    rewrite matchHere_star. intros H. apply orb_prop in H as [H|H].
    + apply tarCore_spec in H as (c' & after & H & Hc).
      exists "", c', after. now split.
    + apply andb_prop in H as [_ H].
      destruct (IH H) as (before & c' & after & -> & Hc).
      exists (String c before), c', after. now split.
Qed.

Lemma tarItems_search s : Regexp.search tarItems s = true <-> holdsTar s.
Proof.
  split.
  - induction s as [|c s IH]; rewrite search_unfold; intros H;
      apply orb_prop in H as [H|H]; try discriminate;
      try (now apply tarItems_here).
    destruct (IH H) as (before & c' & after & -> & Hc).
    exists (String c before), c', after. now split.
  - intros (before & c & after & -> & Hc).
    induction before as [|b before IH].
    + rewrite search_unfold.
      change tarItems with ((Regexp.AnyChar, true) :: tl tarItems).
      rewrite matchHere_star.
      assert (K : Regexp.matchHere (tl tarItems) ("" ++ String c ("tar" ++ after)) = true)
        by (apply tarCore_spec; now exists c, after).
      now rewrite K.
    + change (Regexp.search tarItems
                (String b (before ++ String c ("tar" ++ after))) = true).
      rewrite search_unfold, IH. apply orb_true_r.
Qed.

Lemma excludeLoop_filter pattern re files :
  Regexp.compile pattern = Some re ->
  forall result,
    excludeLoop pattern files result
    = ((result ++ filter (fun f => negb (Regexp.search re f)) files)%list, None).
Proof.
  intros H. induction files as [|f files IH]; intros result.
  - cbn. now rewrite app_nil_r.
  - cbn [excludeLoop filter]. unfold Regexp.MatchString. rewrite H.
    destruct (Regexp.search re f); cbn [negb]; rewrite IH; [reflexivity|].
    now rewrite <- app_assoc.
Qed.

(** X26: what the listing with the pattern of
    [DownloadOcpVersionFromMirror] returns when it succeeds: the names in
    the directory, in their sorted order, without those the pattern
    matches, and the file system untouched.  The pattern matches more
    than archives: every name that holds [tar] after at least one
    character other than a line feed. *)
Theorem listDirExcluding_tar_pattern dir w content w' :
  listDirExcluding env dir tarPattern w = (Ret (content, None), w') ->
  content = filter (fun name => negb (fst (Regexp.MatchString tarPattern name)))
              (children dir (fs w)) /\
  (forall name, In name content <-> In name (children dir (fs w)) /\ ~ holdsTar name) /\
  fs w' = fs w.
Proof.
  assert (M : forall name,
             fst (Regexp.MatchString tarPattern name) = Regexp.search tarItems name)
    by reflexivity.
  unfold listDirExcluding, ReadDir, bind, ret.
  destruct (fault env (trace w) (OpReadDir dir)); [discriminate|].
  destruct (isDir dir (fs w)); [|discriminate].
  rewrite (excludeLoop_filter tarPattern tarItems _ eq_refl). cbn [app].
  intros H. inversion H; subst; clear H. cbn [fs].
  split; [reflexivity|]. split; [|reflexivity].
  intros name. rewrite filter_In, negb_true_iff, <- tarItems_search.
  split; intros [A B]; (split; [exact A|]).
  - now rewrite B.
  - now destruct (Regexp.search tarItems name).
Qed.
End OcpMore.

Lemma copy_without_source_witness :
  Ocp.copy (Samples.host [] []) "/tmp/oc" "/out/oc" Samples.disk
  = (Ret (Some "Cannot open src file: /tmp/oc"),
     {| HostOS.fs := HostOS.fs Samples.disk;
        HostOS.trace := [HostOS.OpOpen "/tmp/oc"] |}).
Proof.
  exact (copy_without_source (Samples.host [] []) "/tmp/oc" "/out/oc" Samples.disk eq_refl).
Defined.

Lemma copy_carries_the_content_witness :
  let w := {| HostOS.fs := [("/tmp", HostOS.Directory);
                            ("/tmp/oc", HostOS.File "binary" 420);
                            ("/out", HostOS.Directory)];
              HostOS.trace := [] |} in
  let w' := snd (Ocp.copy (Samples.host [] []) "/tmp/oc" "/out/oc" w) in
  (exists m', HostOS.lookup "/out/oc" (HostOS.fs w') = Some (HostOS.File "binary" m')) /\
  HostOS.lookup "/tmp/oc" (HostOS.fs w') = Some (HostOS.File "binary" 420) /\
  HostOS.trace w'
  = [HostOS.OpOpen "/tmp/oc"; HostOS.OpCreate "/out/oc"; HostOS.OpCopy "/out/oc";
     HostOS.OpSync "/out/oc"].
Proof.
  intros w w'.
  apply (copy_carries_the_content (Samples.host [] []) "/tmp/oc" "/out/oc" "binary" 420 w w').
  - reflexivity.
  - discriminate.
  - reflexivity.
Defined.

Lemma copy_onto_itself_truncates_witness :
  exists w',
    Ocp.copy (Samples.host [] []) "/tmp/oc" "/tmp/oc"
      {| HostOS.fs := [("/tmp", HostOS.Directory);
                       ("/tmp/oc", HostOS.File "binary" 420)];
         HostOS.trace := [] |}
    = (Ret None, w') /\
    HostOS.lookup "/tmp/oc" (HostOS.fs w') = Some (HostOS.File "" 420).
Proof.
  apply (copy_onto_itself_truncates (Samples.host [] []) "/tmp/oc" "binary" 420).
  - intros t op. reflexivity.
  - reflexivity.
  - reflexivity.
Defined.

Lemma download_stores_the_body_witness :
  exists body m,
    HostOS.httpDo (Samples.host [] []) [] "https://example.com/oc.zip"
    = ((200, body), None) /\
    HostOS.lookup "/tmp/oc.zip"
      (HostOS.fs (snd (Ocp.download (Samples.host [] []) "https://example.com/oc.zip"
                         "/tmp/oc.zip" "" "" Samples.disk)))
    = Some (HostOS.File body m) /\
    forall q, Filepath.Clean q <> Filepath.Clean "/tmp/oc.zip" ->
              HostOS.lookup q
                (HostOS.fs (snd (Ocp.download (Samples.host [] [])
                                   "https://example.com/oc.zip" "/tmp/oc.zip" "" ""
                                   Samples.disk)))
              = HostOS.lookup q (HostOS.fs Samples.disk).
Proof.
  exact (download_stores_the_body (Samples.host [] []) "https://example.com/oc.zip"
           "/tmp/oc.zip" "" "" Samples.disk true
           (snd (Ocp.download (Samples.host [] []) "https://example.com/oc.zip"
                   "/tmp/oc.zip" "" "" Samples.disk))
           eq_refl).
Defined.

Lemma refused_mirror_download_witness :
  let env :=
    {| HostOS.osTempDir := "/tmp";
       HostOS.nextSuffix := 4711;
       HostOS.fault := fun _ _ => None;
       HostOS.newRequestError := fun _ => None;
       HostOS.httpDo := fun _ _ => ((404, "not found"), None);
       HostOS.Ungzip := fun _ _ fs => (fs, None);
       HostOS.Untar := fun _ _ fs => (fs, None);
       HostOS.Unzip := fun _ _ fs => (fs, None) |} in
  let url := "https://mirror.openshift.com/pub/openshift-v3/clients/3.7.0/linux/oc.tar.gz" in
  exists w',
    Ocp.DownloadOcpVersionFromMirror env "v3.7.0" Ocp.LINUX "/out" Samples.disk
    = (Ret (Some ("Wrong credentials or filename '" ++ url ++ "': 404")), w') /\
    HostOS.trace w'
    = [HostOS.OpTempDir Samples.tmpDir; HostOS.OpHTTPGet url None;
       HostOS.OpRemoveAll Samples.tmpDir] /\
    forall q, Filepath.within Samples.tmpDir (Filepath.Clean q) = false ->
              HostOS.lookup q (HostOS.fs w') = HostOS.lookup q (HostOS.fs Samples.disk).
Proof.
  intros env url.
  apply (refused_mirror_download env "v3.7.0" Ocp.LINUX "/out" Samples.disk
           (snd (HostOS.TempDir env "minishift-asset-download-" Samples.disk))
           404 "not found").
  - vm_compute. reflexivity.
  - reflexivity.
  - reflexivity.
  - discriminate.
Defined.

Lemma listDirExcluding_tar_pattern_witness :
  let w := {| HostOS.fs := [("/tmp", HostOS.Directory);
                            ("/tmp/oc", HostOS.File "binary" 493);
                            ("/tmp/oc.tar", HostOS.File "tar" 420);
                            ("/tmp/guitar", HostOS.File "strings" 420)];
              HostOS.trace := [] |} in
  ["oc"] = filter (fun name => negb (fst (Regexp.MatchString OcpDev.tarPattern name)))
             (HostOS.children "/tmp" (HostOS.fs w)) /\
  (forall name,
      In name ["oc"]
      <-> In name (HostOS.children "/tmp" (HostOS.fs w)) /\ ~ OcpDev.holdsTar name) /\
  HostOS.fs (snd (Ocp.listDirExcluding (Samples.host [] []) "/tmp" OcpDev.tarPattern w))
  = HostOS.fs w.
Proof.
  intros w.
  exact (listDirExcluding_tar_pattern (Samples.host [] []) "/tmp" w ["oc"]
           (snd (Ocp.listDirExcluding (Samples.host [] []) "/tmp" OcpDev.tarPattern w))
           eq_refl).
Defined.

(** ** The names the download from the mirror works with *)

Section MirrorNames.
Import HostOS Ocp OcpSpec OcpDev.
Local Open Scope proc_scope.
Variable env : Env.

Ltac host_call' :=
  match goal with
  | |- context [bind (perform env ?op ?sem) _ ?w] =>
      let e := fresh "e" in
      let fs' := fresh "fs'" in
      let Hrun := fresh "Hrun" in
      destruct (perform_run env op sem w) as (e & fs' & Hrun & _ & _);
      rewrite (bind_ret_l _ _ _ _ _ Hrun); clear Hrun;
      destruct e as [e|]
  end.

Lemma download_ok_trace url filename username password w ok w' :
  download env url filename username password w = (Ret (ok, None), w') ->
  trace w'
  = (trace w ++ [OpHTTPGet url (credentials username password);
                 OpCreate filename; OpCopy filename])%list.
Proof.
  unfold download.
  destruct (newRequestError env url); [discriminate|].
  rewrite credentials_length. unfold Do at 1. unfold bind at 1.
  destruct (httpDo env (trace w) url) as [[status body] [e|]]; [discriminate|].
  destruct (status =? 200)%nat; cbn [negb]; [|discriminate].
  unfold Create, CopyBody.
  host_call'; [discriminate|].
  host_call'; [discriminate|].
  unfold ret. intros H. inversion H. cbn [trace]. now rewrite <- !app_assoc.
Qed.

Lemma adds_unpack_quiet tmpDir assetTmpFile :
  adds noGetCreate (unpack env tmpDir assetTmpFile).
Proof.
  unfold unpack, listDirExcluding, archiveUngzip, archiveUntar, archiveUnzip.
  repeat first
    [ apply adds_bind; [|intros ?]
    | apply adds_ret
    | apply adds_perform; reflexivity
    | apply adds_ReadDir; reflexivity
    | match goal with
      | |- adds _ (match ?x with _ => _ end) => destruct x
      | |- adds _ (let (_, _) := ?x in _) => destruct x
      end ].
Qed.

Lemma quiet_calls ev :
  forallb noGetCreate ev = true -> gets ev = [] /\ creations ev = [].
Proof.
  induction ev as [|op ev IH]; [now split|].
  cbn [forallb]. intros H. apply andb_prop in H as [H1 H2].
  destruct op; cbn; try discriminate; now apply IH.
Qed.

Lemma copy_ok_trace src dest w w' :
  copy env src dest w = (Ret None, w') ->
  trace w' = (trace w ++ [OpOpen src; OpCreate dest; OpCopy dest; OpSync dest])%list.
Proof.
  unfold copy, Open, Create, Copy, Sync.
  host_call'; [discriminate|].
  host_call'; [discriminate|].
  host_call'; [discriminate|].
  host_call'; [discriminate|].
  unfold ret. intros H. inversion H. cbn [trace]. now rewrite <- !app_assoc.
Qed.

Lemma install_ok_trace osType outputPath binaryPath w w' :
  install env osType outputPath binaryPath w = (Ret None, w') ->
  let final := Filepath.Join [outputPath; binaryNameOf osType] in
  trace w'
  = (trace w ++ [OpMkdirAll outputPath 493;
                 OpOpen (Filepath.Join [binaryPath; binaryNameOf osType]);
                 OpCreate final; OpCopy final; OpSync final; OpChmod final 511])%list.
Proof.
  intros H final. revert H. unfold install. fold final.
  destruct (perform_run env (OpMkdirAll outputPath 493) (mkdirAll outputPath) w)
    as (e1 & fs1 & E1 & _).
  unfold MkdirAll. rewrite (bind_ret_l _ _ _ _ _ E1).
  destruct (match e1 with Some e => negb (IsExist e) | None => false end);
    [discriminate|].
  match goal with
  | |- context [bind (copy env ?src final) _ ?w1] =>
      destruct (adds_copy env src final w1) as (e2 & w2 & ev2 & E2 & _)
  end.
  rewrite (bind_ret_l _ _ _ _ _ E2).
  destruct e2 as [e2|]; [discriminate|].
  apply copy_ok_trace in E2. cbn [trace] in E2.
  destruct (perform_run env (OpChmod final 511) (chmod final 511) w2)
    as (e3 & fs3 & E3 & _).
  unfold Chmod. rewrite (bind_ret_l _ _ _ _ _ E3).
  destruct e3 as [e3|]; [discriminate|].
  unfold ret. intros H. inversion H. cbn [trace]. rewrite E2.
  now rewrite <- !app_assoc.
Qed.

Lemma mirror_names version osType :
  mirrorURL version osType
  = OMURL ++ GoStrings.TrimPrefix version "v" ++ "/"
    ++ (if osType =? DARWIN then "macosx" else osType) ++ "/"
    ++ (if osType =? WINDOWS then "oc.zip" else "oc.tar.gz") /\
  targetFileOf osType = (if osType =? WINDOWS then "oc.zip" else "oc.tar.gz") /\
  binaryNameOf osType = (if osType =? WINDOWS then "oc.exe" else "oc").
Proof.
  unfold mirrorURL, targetFileOf, binaryNameOf, extensionOf, platformOf.
  destruct (osType =? WINDOWS); repeat split; reflexivity.
Qed.

(** The body of the call once the working directory is there, when the
    request can be built: it returns, and has sent the one request. *)
Lemma mirror_body_request version osType outputPath w1 :
  newRequestError env (mirrorURL version osType) = None ->
  exists err w2 ev,
    (r <- download env (mirrorURL version osType)
           (Filepath.Join [tempDirOf env; targetFileOf osType]) "" "" ;;
     match r with
     | (_, Some err) => ret (Some err)
     | (_, None) =>
         r <- unpack env (tempDirOf env)
                (Filepath.Join [tempDirOf env; targetFileOf osType]) ;;
         match r with
         | (_, Some err) => ret (Some err)
         | (binaryPath, None) => install env osType outputPath binaryPath
         end
     end) w1 = (Ret err, w2) /\
    trace w2 = (trace w1 ++ ev)%list /\
    gets ev = [(mirrorURL version osType, None)] /\
    (err = None ->
     creations ev
     = [Filepath.Join [tempDirOf env; targetFileOf osType];
        Filepath.Join [outputPath; binaryNameOf osType]] /\
     In (OpChmod (Filepath.Join [outputPath; binaryNameOf osType]) 511) ev).
Proof.
  intros Hreq.
  destruct (download_trace env (mirrorURL version osType)
              (Filepath.Join [tempDirOf env; targetFileOf osType]) "" "" w1)
    as ([ok err] & w2 & ev & E2 & T2 & G2 & _).
  rewrite Hreq in G2. change (credentials "" "") with (@None (string * string)) in G2.
  rewrite (bind_ret_l _ _ _ _ _ E2).
  destruct err as [err|].
  { exists (Some err), w2, ev. repeat split; try assumption; discriminate. }
  pose proof (download_ok_trace _ _ _ _ _ _ _ E2) as T2'.
  rewrite T2 in T2'. apply app_inv_head in T2'. subst ev. clear G2.
  destruct (adds_unpack_quiet (tempDirOf env)
              (Filepath.Join [tempDirOf env; targetFileOf osType]) w2)
    as ([binaryPath err] & w3 & ev3 & E3 & T3 & P3).
  destruct (quiet_calls _ P3) as [G3 C3].
  rewrite (bind_ret_l _ _ _ _ _ E3).
  destruct err as [err|].
  { eexists (Some err), w3, _. split; [reflexivity|].
    split; [rewrite T3, T2, <- app_assoc; reflexivity|].
    split; [|discriminate].
    rewrite gets_app, G3. reflexivity. }
  destruct (adds_install env osType outputPath binaryPath w3)
    as (err & w4 & ev4 & E4 & T4 & P4).
  destruct err as [err|].
  { eexists (Some err), w4, _. split; [exact E4|].
    split; [rewrite T4, T3, T2, <- !app_assoc; reflexivity|].
    split; [|discriminate].
    rewrite !gets_app, G3, (gets_noGet _ P4). reflexivity. }
  pose proof (install_ok_trace _ _ _ _ _ E4) as T4'. cbv zeta in T4'.
  eexists None, w4, _. split; [exact E4|].
  split; [rewrite T4', T3, T2, <- !app_assoc; reflexivity|].
  rewrite !gets_app, !creations_app, G3, C3. cbn [gets creations app].
  split; [reflexivity|]. intros _. split; [reflexivity|].
  do 3 right. apply in_or_app. right. cbn. tauto.
Qed.

(** C3: the archive the download from the mirror asks for and stores is
    [oc.zip] exactly on WINDOWS and [oc.tar.gz] on every other platform,
    and the binary it installs is [oc.exe] exactly on WINDOWS and [oc]
    otherwise.  Whenever the working directory is there and the request
    can be built, the one request the call sends is for that archive
    under the mirror's directory for the version and the platform; when
    the call succeeds it has created the archive in the working directory
    and the binary in the output directory, and nothing else, and has
    made the binary executable. *)
Theorem archive_extension_and_binary_suffix version (osType : OS) outputPath w :
  let archive := if osType =? WINDOWS then "oc.zip" else "oc.tar.gz" in
  let binary := if osType =? WINDOWS then "oc.exe" else "oc" in
  let url :=
    OMURL ++ GoStrings.TrimPrefix version "v" ++ "/"
    ++ (if osType =? DARWIN then "macosx" else osType) ++ "/" ++ archive in
  let assetTmpFile := Filepath.Join [tempDirOf env; archive] in
  let finalBinaryPath := Filepath.Join [outputPath; binary] in
  let r := DownloadOcpVersionFromMirror env version osType outputPath w in
  ((GoStrings.HasSuffix archive ".zip" = true <-> osType = WINDOWS) /\
   (osType <> WINDOWS -> GoStrings.HasSuffix archive ".tar.gz" = true) /\
   (GoStrings.HasSuffix binary ".exe" = true <-> osType = WINDOWS)) /\
  (forall w1,
      TempDir env "minishift-asset-download-" w = (Ret (tempDirOf env, None), w1) ->
      newRequestError env url = None ->
      exists ev,
        trace (snd r) = (trace w ++ ev)%list /\ gets ev = [(url, None)]) /\
  (fst r = Ret None ->
   exists ev,
     trace (snd r) = (trace w ++ ev)%list /\
     gets ev = [(url, None)] /\
     creations ev = [assetTmpFile; finalBinaryPath] /\
     In (OpChmod finalBinaryPath 511) ev).
Proof.
  intros archive binary url assetTmpFile finalBinaryPath r.
  destruct (mirror_names version osType) as (Nurl & Narchive & Nbinary).
  fold archive in Nurl, Narchive. fold binary in Nbinary. fold url in Nurl.
  split; [|split].
  - unfold archive, binary. destruct (osType =? WINDOWS) eqn:E.
    + apply String.eqb_eq in E. subst osType.
      repeat split; try reflexivity; try (intros H; now contradict H).
    + apply String.eqb_neq in E.
      repeat split; try reflexivity; try discriminate;
        try (intros H; now contradict H).
  - intros w1 Htmp Hreq. subst r. unfold DownloadOcpVersionFromMirror.
    rewrite (bind_ret_l _ _ _ _ _ Htmp). unfold defer.
    rewrite <- Nurl in Hreq.
    destruct (mirror_body_request version osType outputPath w1 Hreq)
      as (err & w2 & ev & E & T & G & _).
    rewrite E. cbn [snd]. rewrite trace_after_RemoveAll, T.
    rewrite (TempDir_ok _ _ _ _ _ Htmp). cbn [trace].
    exists (OpTempDir (tempDirOf env) :: ev ++ [OpRemoveAll (tempDirOf env)])%list.
    split; [now rewrite <- !app_assoc|].
    cbn [gets]. rewrite gets_app, G, Nurl. reflexivity.
  - subst r. unfold DownloadOcpVersionFromMirror.
    destruct (TempDir_run env "minishift-asset-download-" w)
      as ([tmpDir e] & w1 & Htmp & _ & Hname).
    rewrite (bind_ret_l _ _ _ _ _ Htmp).
    destruct e as [e|]; [discriminate|].
    specialize (Hname eq_refl). cbn [fst] in Hname. fold (tempDirOf env) in Hname.
    subst tmpDir. unfold defer.
    destruct (newRequestError env (mirrorURL version osType)) as [e|] eqn:Hreq.
    { unfold download at 1. rewrite Hreq. unfold bind at 1, ret at 1.
      unfold ret. discriminate. }
    destruct (mirror_body_request version osType outputPath w1 Hreq)
      as (err & w2 & ev & E & T & G & S).
    rewrite E. cbn [fst snd]. intros H. inversion H; subst err; clear H.
    destruct (S eq_refl) as [Cr Ch].
    rewrite trace_after_RemoveAll, T.
    rewrite (TempDir_ok _ _ _ _ _ Htmp). cbn [trace].
    exists (OpTempDir (tempDirOf env) :: ev ++ [OpRemoveAll (tempDirOf env)])%list.
    split; [now rewrite <- !app_assoc|].
    cbn [gets creations]. rewrite gets_app, creations_app, G, Cr, Nurl.
    unfold assetTmpFile, finalBinaryPath. rewrite <- Narchive, <- Nbinary.
    split; [reflexivity|]. split; [reflexivity|].
    right. apply in_or_app. left. exact Ch.
Qed.
End MirrorNames.

Lemma archive_extension_and_binary_suffix_witness :
  (let r := Ocp.DownloadOcpVersionFromMirror (Samples.host ["oc"] ["oc.exe"])
              "v3.7.0" Ocp.WINDOWS "/out" Samples.disk in
   exists ev,
     HostOS.trace (snd r) = ev /\
     OcpDev.gets ev
     = [("https://mirror.openshift.com/pub/openshift-v3/clients/3.7.0/windows/oc.zip",
         None)] /\
     OcpDev.creations ev = [Samples.tmpDir ++ "/oc.zip"; "/out/oc.exe"] /\
     In (HostOS.OpChmod "/out/oc.exe" 511) ev) /\
  (let r := Ocp.DownloadOcpVersionFromMirror (Samples.host ["oc"] ["oc.exe"])
              "v3.7.0" Ocp.DARWIN "/out" Samples.disk in
   exists ev,
     HostOS.trace (snd r) = ev /\
     OcpDev.gets ev
     = [("https://mirror.openshift.com/pub/openshift-v3/clients/3.7.0/macosx/oc.tar.gz",
         None)] /\
     OcpDev.creations ev = [Samples.tmpDir ++ "/oc.tar.gz"; "/out/oc"] /\
     In (HostOS.OpChmod "/out/oc" 511) ev).
Proof.
  split.
  - destruct (proj2 (proj2 (archive_extension_and_binary_suffix
                              (Samples.host ["oc"] ["oc.exe"]) "v3.7.0" Ocp.WINDOWS
                              "/out" Samples.disk)))
      as (ev & T & G & C & I).
    + vm_compute. reflexivity.
    + exists ev. repeat split; assumption.
  - destruct (proj2 (proj2 (archive_extension_and_binary_suffix
                              (Samples.host ["oc"] ["oc.exe"]) "v3.7.0" Ocp.DARWIN
                              "/out" Samples.disk)))
      as (ev & T & G & C & I).
    + vm_compute. reflexivity.
    + exists ev. repeat split; assumption.
Defined.
